(** * Batch-based stock ledger: shallow embedding and verification

    The development follows the TypeScript sources:
    - [src/types.ts]                         (module [Types])
    - [src/services/stockService.ts]         (module [StockService])
    - [src/hooks/useStockManagement.ts]      (module [UseStockManagement])
    - [src/components/StockAnalysisView.tsx] (module [StockAnalysisView])

    JavaScript numbers that hold quantities are integers ([Z]); numbers that
    come out of [Date.prototype.getTime] are [option Z], [None] being NaN.
    Strings are [string]; an optional field is an [option]. The storage
    behind the service is passed explicitly: an operation takes the stored
    collection and returns its settled promise with the collection it
    leaves.

    The modules [Spec], [BulkSpec] and [MovementSpec] hold the notions of
    the specification that the properties are stated with; the properties
    follow them.

    A second part covers more of the sources: the queries and
    [updateItem] of the service ([StockServiceItems]), the first run
    ([LocalStorage]), the remaining operations of the hook
    ([UseStockManagementItems]) and the overview of
    [StockAnalysisView.tsx] ([StockOverview]), with the notions their
    properties use ([LedgerSpec], [HookSpec], [ReportSpec], [NoteSpec],
    [HookNotes], [OverviewSpec]) and the section of further properties at
    the end. *)

From Stdlib Require Import ZArith List Bool String Ascii Lia DecimalString.
From Stdlib Require Import DecimalPos.
From Stdlib Require Import Sorting.Permutation Sorting.Sorted.
Import ListNotations.
Open Scope Z_scope.

(* ================================================================== *)
(** ** JavaScript primitives used by the sources *)

Module Js.

(** A JS number that may be NaN. *)
Definition number := option Z.

Definition sub (a b : number) : number :=
  match a, b with
  | Some x, Some y => Some (x - y)
  | _, _ => None
  end.

(** [x !== 0] on numbers: NaN is different from 0. *)
Definition neq0 (a : number) : bool :=
  match a with
  | Some x => negb (x =? 0)
  | None => true
  end.

(** Relational comparison of two numbers: false as soon as one is NaN. *)
Definition geb (a b : number) : bool :=
  match a, b with
  | Some x, Some y => y <=? x
  | _, _ => false
  end.

Definition leb (a b : number) : bool := geb b a.

(** Truthiness of an optional string: [undefined] and [''] are falsy. *)
Definition truthy (o : option string) : bool :=
  match o with
  | Some s => negb (String.eqb s EmptyString)
  | None => false
  end.

(** [o || '']. *)
Definition orEmpty (o : option string) : string :=
  match o with
  | Some s => s
  | None => EmptyString
  end.

(** What [Array.prototype.sort] does with the comparator's result: NaN
    counts as [+0]. *)
Definition sortValue (v : number) : Z :=
  match v with
  | Some x => x
  | None => 0
  end.

(** [Array.prototype.sort] is a stable sort; it is modelled by the stable
    insertion sort (every stable sort returns the same array when the
    comparator is consistent). [insertBy] puts [x], which precedes the
    elements of [l] in the source array, before the first element that it
    does not follow. *)
Fixpoint insertBy {A : Type} (cmp : A -> A -> number) (x : A) (l : list A)
  : list A :=
  match l with
  | [] => [x]
  | y :: l' =>
      if sortValue (cmp x y) <=? 0 then x :: l else y :: insertBy cmp x l'
  end.

Definition sort {A : Type} (cmp : A -> A -> number) (l : list A) : list A :=
  fold_right (insertBy cmp) [] l.

(** [Array.prototype.reduce((sum, x) => sum + f x, 0)]. *)
Definition sumOf {A : Type} (f : A -> Z) (l : list A) : Z :=
  fold_left (fun sum x => sum + f x) l 0.

End Js.

(* ================================================================== *)
(** ** Calendar dates: [new Date('YYYY-MM-DD').getTime()] *)

Module JsDate.

Definition msPerDay : Z := 86400000.

Definition digitVal (c : ascii) : option Z :=
  let n := Z.of_N (N_of_ascii c) in
  if (48 <=? n) && (n <=? 57) then Some (n - 48) else None.

Definition isDash (c : ascii) : bool := Ascii.eqb c "-"%char.

Definition num2 (a b : ascii) : option Z :=
  match digitVal a, digitVal b with
  | Some x, Some y => Some (10 * x + y)
  | _, _ => None
  end.

Definition num4 (a b c d : ascii) : option Z :=
  match num2 a b, num2 c d with
  | Some x, Some y => Some (100 * x + y)
  | _, _ => None
  end.

Definition isLeap (y : Z) : bool :=
  (y mod 4 =? 0) && (negb (y mod 100 =? 0) || (y mod 400 =? 0)).

Definition daysInMonth (y m : Z) : Z :=
  if m =? 2 then (if isLeap y then 29 else 28)
  else if (m =? 4) || (m =? 6) || (m =? 9) || (m =? 11) then 30
  else 31.

(** Day number of the first day of month [m] within its year. *)
Definition monthStart (y m : Z) : Z :=
  let l := if isLeap y then 1 else 0 in
  if m =? 1 then 0
  else if m =? 2 then 31
  else if m =? 3 then 59 + l
  else if m =? 4 then 90 + l
  else if m =? 5 then 120 + l
  else if m =? 6 then 151 + l
  else if m =? 7 then 181 + l
  else if m =? 8 then 212 + l
  else if m =? 9 then 243 + l
  else if m =? 10 then 273 + l
  else if m =? 11 then 304 + l
  else 334 + l.

(** ECMAScript [DayFromYear]. *)
Definition dayFromYear (y : Z) : Z :=
  365 * (y - 1970) + (y - 1969) / 4 - (y - 1901) / 100 + (y - 1601) / 400.

Definition dayNumber (y m d : Z) : Z :=
  dayFromYear y + monthStart y m + (d - 1).

(** The fields of a string of the date-only form [YYYY-MM-DD], the form
    that [types.ts] fixes for [expiryDate], [dateAdded] and [lastUpdated].
    Only calendar dates are accepted (month 1..12, day within the
    month). *)
Definition parseFields (s : string) : option (Z * Z * Z) :=
  match s with
  | String y1 (String y2 (String y3 (String y4 (String s1
    (String m1 (String m2 (String s2 (String d1 (String d2
    EmptyString))))))))) =>
      if isDash s1 && isDash s2 then
        match num4 y1 y2 y3 y4, num2 m1 m2, num2 d1 d2 with
        | Some y, Some m, Some d =>
            if (1 <=? m) && (m <=? 12) && (1 <=? d) && (d <=? daysInMonth y m)
            then Some (y, m, d) else None
        | _, _, _ => None
        end
      else None
  | _ => None
  end.

(** [new Date(s).getTime()]: milliseconds since the epoch of midnight UTC
    of the date; NaN for a string that is not a calendar date in the
    [YYYY-MM-DD] form (the other forms that [Date] accepts are not
    modelled; every result below that depends on them assumes dates in
    the documented form). *)
Definition getTime (s : string) : Js.number :=
  match parseFields s with
  | Some (y, m, d) => Some (dayNumber y m d * msPerDay)
  | None => None
  end.

Definition isDate (s : string) : bool :=
  match getTime s with Some _ => true | None => false end.

(** [date.setHours(h, m, s, ms)] on the time value [t], for a local time
    zone whose offset from UTC is the constant [tza] milliseconds
    (local = UTC + tza). *)
Definition setHours (tza : Z) (t : Z) (h m s ms : Z) : Z :=
  let localDay := (t + tza) / msPerDay in
  localDay * msPerDay + h * 3600000 + m * 60000 + s * 1000 + ms - tza.

End JsDate.

(* ================================================================== *)
(** ** [src/types.ts] *)

Module Batch.
Record t : Type := mk {
  id : string;
  quantity : Z;
  expiryDate : option string;
  supplier : option string;
  dateAdded : string;
  notes : option string
}.

Definition withQuantity (q : Z) (b : t) : t :=
  mk (id b) q (expiryDate b) (supplier b) (dateAdded b) (notes b).

Definition withNotes (n : option string) (b : t) : t :=
  mk (id b) (quantity b) (expiryDate b) (supplier b) (dateAdded b) n.
End Batch.

Inductive ItemCategory : Type :=
| OPERATION_THEATRE | ENDOSCOPY | GENERAL_SUPPLIES
| PHARMACEUTICALS | CONSUMABLES | INSTRUMENTS.

Module StockItem.
Record t : Type := mk {
  id : string;
  name : string;
  category : ItemCategory;
  unit : string;
  minThreshold : Z;
  batches : list Batch.t;
  lastUpdated : string;
  notes : option string;
  originCountry : option string
}.

Definition withBatches (bs : list Batch.t) (i : t) : t :=
  mk (id i) (name i) (category i) (unit i) (minThreshold i) bs
     (lastUpdated i) (notes i) (originCountry i).

Definition withLastUpdated (d : string) (i : t) : t :=
  mk (id i) (name i) (category i) (unit i) (minThreshold i) (batches i)
     d (notes i) (originCountry i).
End StockItem.

Inductive ReleaseStrategy : Type := FEFO | FIFO.

Module Types.

Definition getTotalQuantity (item : StockItem.t) : Z :=
  Js.sumOf Batch.quantity (StockItem.batches item).

(** [batch.expiryDate >= today] on strings: comparison by code units. *)
Definition strGeb (a b : string) : bool := String.leb b a.

Definition isActiveBatch (today : string) (batch : Batch.t) : bool :=
  (0 <? Batch.quantity batch)
  && Js.truthy (Batch.expiryDate batch)
  && strGeb (Js.orEmpty (Batch.expiryDate batch)) today.

(** The comparator [(a, b) => new Date(a).getTime() - new Date(b).getTime()]. *)
Definition expiryCompare (a b : string) : Js.number :=
  Js.sub (JsDate.getTime a) (JsDate.getTime b).

(** [today] stands for [new Date().toISOString().split('T')[0]]. *)
Definition getSoonestExpiryDate (today : string) (item : StockItem.t)
  : option string :=
  hd_error
    (Js.sort expiryCompare
       (map (fun batch => Js.orEmpty (Batch.expiryDate batch))
          (filter (isActiveBatch today) (StockItem.batches item)))).

End Types.

(* ================================================================== *)
(** ** String helpers of the sources *)

Module JsString.

Definition newline : string := String (ascii_of_nat 10) EmptyString.

(** Template literal interpolation of an integer quantity. *)
Definition ofNumber (z : Z) : string :=
  NilEmpty.string_of_int (Z.to_int z).

(** [s.startsWith(p)]. *)
Definition startsWith (s p : string) : bool := String.prefix p s.

(** White space removed by [String.prototype.trim], within the ASCII
    range: TAB, LF, VT, FF, CR and SPACE. *)
Definition isSpace (c : ascii) : bool :=
  let n := nat_of_ascii c in
  ((9 <=? n) && (n <=? 13))%nat || (n =? 32)%nat.

Fixpoint trimStart (s : string) : string :=
  match s with
  | EmptyString => EmptyString
  | String c s' => if isSpace c then trimStart s' else s
  end.

Fixpoint trimEnd (s : string) : string :=
  match s with
  | EmptyString => EmptyString
  | String c s' =>
      match trimEnd s' with
      | EmptyString => if isSpace c then EmptyString else String c EmptyString
      | t => String c t
      end
  end.

Definition trim (s : string) : string := trimEnd (trimStart s).

(** [s.split('\n')]: never empty, [''] gives one empty line. *)
Fixpoint splitLines (s : string) : list string :=
  match s with
  | EmptyString => [EmptyString]
  | String c s' =>
      if Ascii.eqb c (ascii_of_nat 10) then EmptyString :: splitLines s'
      else match splitLines s' with
           | [] => [String c EmptyString]
           | l :: ls => String c l :: ls
           end
  end.

End JsString.

(* ================================================================== *)
(** ** [src/services/stockService.ts] *)

Module StockService.

Import Js.

(** The collection kept under [STOCK_ITEMS_KEY]. *)
Definition Store := list StockItem.t.

(** [JSON.parse] of what [JSON.stringify] wrote gives the items back;
    [item.batches || []] changes nothing since [batches] is a list. *)
Definition getItemsFromStorage (store : Store) : list StockItem.t := store.
Definition saveItemsToStorage (items : list StockItem.t) : Store := items.

(** The messages of the [Error]s that the service and the hook raise. *)
Inductive Error : Type :=
| ItemNotFoundForUpdate          (* 'Item not found for update' *)
| ItemNotFoundToAddBatch         (* 'Item not found to add batch' *)
| ItemNotFoundForRelease         (* 'Item not found for release' *)
| NotEnoughStock (available requested : Z)
    (* `Not enough stock. Available: ${..}, Requested: ${..}` *)
| ItemNotFoundToAddStockBatch    (* 'Item not found to add stock batch.' *)
| ItemNotFound                   (* 'Item not found' *)
| QuantityMustBePositive         (* 'Quantity must be > 0' *)
| NotEnoughStockHook.            (* 'Not enough stock' *)

(** A settled promise. *)
Inductive Result (A : Type) : Type :=
| Resolved (a : A)
| Rejected (e : Error).
Arguments Resolved {A} a.
Arguments Rejected {A} e.

(** [Omit<Batch, 'id' | 'dateAdded'>]. *)
Record BatchData : Type := mkBatchData {
  quantity : Z;
  expiryDate : option string;
  supplier : option string;
  notes : option string
}.

Definition hasItemId (itemId : string) (item : StockItem.t) : bool :=
  String.eqb (StockItem.id item) itemId.

Definition hasBatchId (batchId : string) (b : Batch.t) : bool :=
  String.eqb (Batch.id b) batchId.

(** Assignment through a reference obtained by [find] or by index of
    [findIndex]: the first element that satisfies [p] is replaced. *)
Fixpoint mutateFirst {A : Type} (p : A -> bool) (f : A -> A) (l : list A)
  : list A :=
  match l with
  | [] => []
  | x :: l' => if p x then f x :: l' else x :: mutateFirst p f l'
  end.

(** [addItem]: [newId] and [newBatchId] stand for the two [generateId()]
    calls, [today] for [getFormattedDate()]. *)
Definition addItem (today newId newBatchId : string)
    (name : string) (category : ItemCategory) (unit : string)
    (minThreshold : Z) (itemNotes originCountry : option string)
    (firstBatch : BatchData) (store : Store)
  : Result StockItem.t * Store :=
  let items := getItemsFromStorage store in
  let newBatch :=
    Batch.mk newBatchId (quantity firstBatch) (expiryDate firstBatch)
      (supplier firstBatch) today
      (Some (JsString.trim
         ("[Initial Stock - " ++ today ++ "]: Added "
          ++ JsString.ofNumber (quantity firstBatch) ++ " " ++ unit ++ ". "
          ++ orEmpty (notes firstBatch))%string)) in
  let newItem :=
    StockItem.mk newId name category unit minThreshold [newBatch] today
      itemNotes originCountry in
  (Resolved newItem, saveItemsToStorage (items ++ [newItem])).

Definition isSystemNote (n : string) : bool :=
  JsString.startsWith n "[Bulk Add Stock"
  || JsString.startsWith n "[Stock Addition"
  || JsString.startsWith n "[Initial Stock".

Definition systemNotePrefix (today : string) (batchData : BatchData)
    (itemUnit : string) : string :=
  if truthy (notes batchData) && isSystemNote (orEmpty (notes batchData))
  then EmptyString
  else ("[Stock Addition - " ++ today ++ "]: Added "
        ++ JsString.ofNumber (quantity batchData) ++ " " ++ itemUnit
        ++ ". ")%string.

Definition newBatchOf (today newBatchId : string) (batchData : BatchData)
    (itemUnit : string) : Batch.t :=
  Batch.mk newBatchId (quantity batchData) (expiryDate batchData)
    (supplier batchData) today
    (Some (JsString.trim
       (systemNotePrefix today batchData itemUnit
        ++ orEmpty (notes batchData))%string)).

Definition addBatchToItem (today newBatchId : string) (itemId : string)
    (batchData : BatchData) (itemUnit : string) (store : Store)
  : Result StockItem.t * Store :=
  let items := getItemsFromStorage store in
  match find (hasItemId itemId) items with
  | None => (Rejected ItemNotFoundToAddBatch, store)
  | Some currentItem =>
      let newBatch := newBatchOf today newBatchId batchData itemUnit in
      let updated :=
        StockItem.withLastUpdated today
          (StockItem.withBatches (StockItem.batches currentItem ++ [newBatch])
             currentItem) in
      (Resolved updated,
       saveItemsToStorage (mutateFirst (hasItemId itemId) (fun _ => updated) items))
  end.

Record Affected : Type := mkAffected {
  batchId : string;
  releasedQuantity : Z
}.

(** [operationNotesGenerator(batch, qtyReleasedFromBatch, currentItemUnit)]. *)
Definition NotesGenerator : Type := Batch.t -> Z -> string -> string.

Definition dateAddedDiff (a b : Batch.t) : number :=
  sub (JsDate.getTime (Batch.dateAdded a)) (JsDate.getTime (Batch.dateAdded b)).

Definition fifoCompare (a b : Batch.t) : number := dateAddedDiff a b.

Definition fefoCompare (a b : Batch.t) : number :=
  if truthy (Batch.expiryDate a) && truthy (Batch.expiryDate b) then
    let expiryDiff :=
      sub (JsDate.getTime (orEmpty (Batch.expiryDate a)))
          (JsDate.getTime (orEmpty (Batch.expiryDate b))) in
    if neq0 expiryDiff then expiryDiff else dateAddedDiff a b
  else if truthy (Batch.expiryDate a) && negb (truthy (Batch.expiryDate b))
  then Some (-1)
  else if negb (truthy (Batch.expiryDate a)) && truthy (Batch.expiryDate b)
  then Some 1
  else dateAddedDiff a b.

Definition isCandidate (b : Batch.t) : bool := 0 <? Batch.quantity b.

Definition sortedBatches (strategy : ReleaseStrategy) (batches : list Batch.t)
  : list Batch.t :=
  match strategy with
  | FIFO => sort fifoCompare (filter isCandidate batches)
  | FEFO => sort fefoCompare (filter isCandidate batches)
  end.

(** The assignments of one iteration to [originalBatchRef], given
    [canReleaseFromBatch]. The generator sees the batch after its quantity
    was reduced. *)
Definition releaseFromBatch (gen : option NotesGenerator) (itemUnit : string)
    (canReleaseFromBatch : Z) (originalBatchRef : Batch.t) : Batch.t :=
  let reduced :=
    Batch.withQuantity (Batch.quantity originalBatchRef - canReleaseFromBatch)
      originalBatchRef in
  match gen with
  | Some g =>
      let noteText := g reduced canReleaseFromBatch itemUnit in
      Batch.withNotes
        (Some (if truthy (Batch.notes reduced)
               then (orEmpty (Batch.notes reduced) ++ JsString.newline
                     ++ noteText)%string
               else noteText))
        reduced
  | None => reduced
  end.

(** The [for (const batch of sortedBatches)] loop. [batches] is
    [item.batches], whose elements the loop mutates through
    [originalBatchRef]; of the elements of [sortedBatches] only the [id]
    is read. The result is [item.batches] after the loop and the
    [affectedBatchesReturn] entries in the order they are pushed. *)
Fixpoint releaseLoop (gen : option NotesGenerator) (itemUnit : string)
    (sorted : list Batch.t) (batches : list Batch.t) (remainingToRelease : Z)
  : list Batch.t * list Affected :=
  match sorted with
  | [] => (batches, [])
  | batch :: rest =>
      if remainingToRelease <=? 0 then (batches, [])
      else
        match find (hasBatchId (Batch.id batch)) batches with
        | None => releaseLoop gen itemUnit rest batches remainingToRelease
        | Some originalBatchRef =>
            let canReleaseFromBatch :=
              Z.min (Batch.quantity originalBatchRef) remainingToRelease in
            let batches' :=
              mutateFirst (hasBatchId (Batch.id batch))
                (releaseFromBatch gen itemUnit canReleaseFromBatch) batches in
            let '(final, affected) :=
              releaseLoop gen itemUnit rest batches'
                (remainingToRelease - canReleaseFromBatch) in
            (final, mkAffected (Batch.id batch) canReleaseFromBatch :: affected)
        end
  end.

Definition totalAvailable (strategy : ReleaseStrategy) (item : StockItem.t)
  : Z :=
  sumOf Batch.quantity (sortedBatches strategy (StockItem.batches item)).

Definition modifyItemBatchesForRelease (today : string) (itemId : string)
    (quantityToRelease : Z) (gen : option NotesGenerator)
    (strategy : ReleaseStrategy) (store : Store)
  : Result (StockItem.t * list Affected) * Store :=
  let items := getItemsFromStorage store in
  match find (hasItemId itemId) items with
  | None => (Rejected ItemNotFoundForRelease, store)
  | Some item =>
      let sorted := sortedBatches strategy (StockItem.batches item) in
      let available := sumOf Batch.quantity sorted in
      if available <? quantityToRelease
      then (Rejected (NotEnoughStock available quantityToRelease), store)
      else
        let '(batches', affected) :=
          releaseLoop gen (StockItem.unit item) sorted
            (StockItem.batches item) quantityToRelease in
        let updatedItem :=
          StockItem.withLastUpdated today
            (StockItem.withBatches batches' item) in
        (Resolved (updatedItem, affected),
         saveItemsToStorage
           (mutateFirst (hasItemId itemId) (fun _ => updatedItem) items))
  end.

Definition deleteItem (id : string) (store : Store) : Result unit * Store :=
  let items := getItemsFromStorage store in
  let items := filter (fun item => negb (String.eqb (StockItem.id item) id)) items in
  (Resolved tt, saveItemsToStorage items).

End StockService.

(* ================================================================== *)
(** ** [src/hooks/useStockManagement.ts] *)

Module AddBatchDetails.
Record t : Type := mk {
  quantityAdded : Z;
  expiryDate : option string;
  supplier : option string;
  batchNotes : option string
}.
End AddBatchDetails.

Module StockReleaseDetails.
Record t : Type := mk {
  quantityReleased : Z;
  releasedTo : string;
  reason : option string;
  releaseDate : option string
}.
End StockReleaseDetails.

Module StockOutDetails.
Record t : Type := mk {
  quantityConsumed : Z;
  reason : string;
  consumptionDate : option string
}.
End StockOutDetails.

Module BulkReleaseItemEntry.
Record t : Type := mk {
  itemId : string;
  quantityReleased : Z
}.
End BulkReleaseItemEntry.

Module BulkReleaseCommonDetails.
Record t : Type := mk {
  releasedTo : string;
  reason : option string;
  releaseDate : option string
}.
End BulkReleaseCommonDetails.

Module BulkAddItemEntry.
Record t : Type := mk {
  itemId : string;
  quantityAdded : Z;
  expiryDate : option string;
  supplier : option string;
  batchNotes : option string
}.
End BulkAddItemEntry.

Module UseStockManagement.

Import Js.
Import StockService.

(** The hook's view of the world: its React state [allItemsState] and the
    storage behind the service. *)
Record Hook : Type := mkHook {
  allItemsState : list StockItem.t;
  storage : Store
}.

(** [prevItems.map(item => item.id === updatedItem.id ? updatedItem : item)]. *)
Definition replaceItem (updatedItem : StockItem.t)
    (prevItems : list StockItem.t) : list StockItem.t :=
  map (fun item =>
         if String.eqb (StockItem.id item) (StockItem.id updatedItem)
         then updatedItem else item)
      prevItems.

Definition dquote : string := String (ascii_of_nat 34) EmptyString.

(** [d ? getFormattedDate(new Date(d)) : getFormattedDate()]; on a date of
    the [YYYY-MM-DD] form [getFormattedDate(new Date(d))] is [d]. *)
Definition dateOr (today : string) (d : option string) : string :=
  if truthy d then orEmpty d else today.

Definition addStockBatchToItem (today newBatchId : string) (itemId : string)
    (batchDetails : AddBatchDetails.t) (h : Hook)
  : Result StockItem.t * Hook :=
  match find (hasItemId itemId) (allItemsState h) with
  | None => (Rejected ItemNotFoundToAddStockBatch, h)
  | Some currentItem =>
      let newBatchData :=
        mkBatchData (AddBatchDetails.quantityAdded batchDetails)
          (AddBatchDetails.expiryDate batchDetails)
          (AddBatchDetails.supplier batchDetails)
          (AddBatchDetails.batchNotes batchDetails) in
      match addBatchToItem today newBatchId itemId newBatchData
              (StockItem.unit currentItem) (storage h) with
      | (Resolved updatedItem, store') =>
          (Resolved updatedItem,
           mkHook (replaceItem updatedItem (allItemsState h)) store')
      | (Rejected err, store') =>
          (Rejected err, mkHook (allItemsState h) store')
      end
  end.

Definition releaseOperationNotes (today : string)
    (details : StockReleaseDetails.t) : NotesGenerator :=
  fun batch qtyReleasedFromBatch itemUnit =>
    let releaseDateStr := dateOr today (StockReleaseDetails.releaseDate details) in
    let note :=
      ("[Stock Release - " ++ releaseDateStr ++ "]: Released "
       ++ JsString.ofNumber qtyReleasedFromBatch ++ " " ++ itemUnit
       ++ " to " ++ dquote ++ StockReleaseDetails.releasedTo details ++ dquote
       ++ " from batch ID " ++ Batch.id batch ++ ".")%string in
    if truthy (StockReleaseDetails.reason details)
    then (note ++ " Reason: " ++ orEmpty (StockReleaseDetails.reason details)
          ++ ".")%string
    else note.

Definition consumptionOperationNotes (today : string)
    (details : StockOutDetails.t) : NotesGenerator :=
  fun batch qtyConsumedFromBatch itemUnit =>
    let consumptionDateStr :=
      dateOr today (StockOutDetails.consumptionDate details) in
    ("[Stock Out - " ++ consumptionDateStr ++ "]: Consumed "
     ++ JsString.ofNumber qtyConsumedFromBatch ++ " " ++ itemUnit
     ++ " from batch ID " ++ Batch.id batch ++ ". Reason: "
     ++ StockOutDetails.reason details ++ ".")%string.

(** The common shape of [recordStockRelease] and [recordStockOut]. *)
Definition recordDepletion (today : string) (itemId : string)
    (quantity : Z) (gen : NotesGenerator) (h : Hook)
  : Result StockItem.t * Hook :=
  match find (hasItemId itemId) (allItemsState h) with
  | None => (Rejected ItemNotFound, h)
  | Some currentItem =>
      if quantity <=? 0 then (Rejected QuantityMustBePositive, h)
      else if Types.getTotalQuantity currentItem <? quantity
      then (Rejected NotEnoughStockHook, h)
      else
        match modifyItemBatchesForRelease today itemId quantity (Some gen)
                FEFO (storage h) with
        | (Resolved (updatedItem, _), store') =>
            (Resolved updatedItem,
             mkHook (replaceItem updatedItem (allItemsState h)) store')
        | (Rejected err, store') =>
            (Rejected err, mkHook (allItemsState h) store')
        end
  end.

Definition recordStockRelease (today : string) (itemId : string)
    (details : StockReleaseDetails.t) (h : Hook) : Result StockItem.t * Hook :=
  recordDepletion today itemId (StockReleaseDetails.quantityReleased details)
    (releaseOperationNotes today details) h.

Definition recordStockOut (today : string) (itemId : string)
    (details : StockOutDetails.t) (h : Hook) : Result StockItem.t * Hook :=
  recordDepletion today itemId (StockOutDetails.quantityConsumed details)
    (consumptionOperationNotes today details) h.

(** The [error] texts of the bulk operations. *)
Inductive BulkErrorText : Type :=
| ItemNotFoundText                 (* 'Item not found.' *)
| QuantityMustBePositiveText       (* 'Quantity must be > 0.' *)
| QuantityAddedMustBePositiveText  (* 'Quantity added must be > 0.' *)
| NotEnoughStockText (available : Z)
    (* `Not enough stock. Available: ${..}` *)
| ApiErrorText (e : Error).        (* `API Error: ${err.message}` *)

Record BulkError : Type := mkBulkError {
  itemId : string;
  name : string;
  error : BulkErrorText
}.

Record ProcessedRelease : Type := mkProcessedRelease {
  item : StockItem.t;
  quantityReleased : Z;
  affectedBatches : list Affected
}.

Record ProcessedBulkReleaseResult : Type := mkBulkReleaseResult {
  success : bool;
  processedItems : list ProcessedRelease;
  errors : list BulkError;
  commonDetails : BulkReleaseCommonDetails.t;
  voucherId : string
}.

Definition releaseOpNotes (today voucher : string)
    (common : BulkReleaseCommonDetails.t) : NotesGenerator :=
  fun batch qtyReleasedFromBatch itemUnit =>
    let releaseDateStr :=
      dateOr today (BulkReleaseCommonDetails.releaseDate common) in
    let note :=
      ("[Bulk Stock Release - " ++ releaseDateStr ++ " | Voucher: " ++ voucher
       ++ "]: Released " ++ JsString.ofNumber qtyReleasedFromBatch ++ " "
       ++ itemUnit ++ " to " ++ dquote
       ++ BulkReleaseCommonDetails.releasedTo common ++ dquote
       ++ " from batch ID " ++ Batch.id batch ++ ".")%string in
    if truthy (BulkReleaseCommonDetails.reason common)
    then (note ++ " Reason: "
          ++ orEmpty (BulkReleaseCommonDetails.reason common) ++ ".")%string
    else note.

(** The variables that the [for (const entry of itemsToRelease)] loop
    updates. *)
Record ReleaseLoop : Type := mkReleaseLoop {
  loopProcessed : list ProcessedRelease;
  loopErrors : list BulkError;
  overallSuccess : bool;
  updatedItemsBuffer : list StockItem.t;
  loopStorage : Store
}.

Definition pushError (e : BulkError) (st : ReleaseLoop) : ReleaseLoop :=
  mkReleaseLoop (loopProcessed st) (loopErrors st ++ [e]) false
    (updatedItemsBuffer st) (loopStorage st).

(** One iteration of the loop of [processBulkStockRelease]. The checks
    read [allItemsState], the state captured when the callback was
    created; the service reads the storage. *)
Definition releaseEntry (today voucher : string)
    (allItems : list StockItem.t) (common : BulkReleaseCommonDetails.t)
    (st : ReleaseLoop) (entry : BulkReleaseItemEntry.t) : ReleaseLoop :=
  let entryId := BulkReleaseItemEntry.itemId entry in
  let qty := BulkReleaseItemEntry.quantityReleased entry in
  match find (hasItemId entryId) allItems with
  | None =>
      pushError (mkBulkError entryId "Unknown Item" ItemNotFoundText) st
  | Some currentItem =>
      if qty <=? 0 then
        pushError (mkBulkError entryId (StockItem.name currentItem)
                     QuantityMustBePositiveText) st
      else if Types.getTotalQuantity currentItem <? qty then
        pushError (mkBulkError entryId (StockItem.name currentItem)
                     (NotEnoughStockText (Types.getTotalQuantity currentItem)))
          st
      else
        match modifyItemBatchesForRelease today entryId qty
                (Some (releaseOpNotes today voucher common)) FEFO
                (loopStorage st) with
        | (Resolved (updatedItem, affected), store') =>
            mkReleaseLoop
              (loopProcessed st ++ [mkProcessedRelease updatedItem qty affected])
              (loopErrors st) (overallSuccess st)
              (updatedItemsBuffer st ++ [updatedItem]) store'
        | (Rejected err, store') =>
            mkReleaseLoop (loopProcessed st)
              (loopErrors st
               ++ [mkBulkError entryId (StockItem.name currentItem)
                     (ApiErrorText err)])
              false (updatedItemsBuffer st) store'
        end
  end.

(** [new Map(buffer.map(item => [item.id, item])).get(id)]: the last
    buffered item of that id. *)
Definition bufferGet (buffer : list StockItem.t) (id : string)
  : option StockItem.t :=
  find (hasItemId id) (rev buffer).

Definition applyBuffer (buffer prevItems : list StockItem.t)
  : list StockItem.t :=
  match buffer with
  | [] => prevItems
  | _ =>
      map (fun item =>
             match bufferGet buffer (StockItem.id item) with
             | Some updated => updated
             | None => item
             end)
          prevItems
  end.

Definition processBulkStockRelease (today voucher : string)
    (common : BulkReleaseCommonDetails.t)
    (itemsToRelease : list BulkReleaseItemEntry.t) (h : Hook)
  : ProcessedBulkReleaseResult * Hook :=
  let st :=
    fold_left (releaseEntry today voucher (allItemsState h) common)
      itemsToRelease
      (mkReleaseLoop [] [] true [] (storage h)) in
  (mkBulkReleaseResult
     (overallSuccess st && (0 <? Z.of_nat (List.length (loopProcessed st))))
     (loopProcessed st) (loopErrors st) common voucher,
   mkHook (applyBuffer (updatedItemsBuffer st) (allItemsState h))
     (loopStorage st)).

Record ProcessedBulkAddStockResult : Type := mkBulkAddResult {
  addSuccess : bool;
  addProcessedItems : list StockItem.t;
  addErrors : list BulkError
}.

Record AddLoop : Type := mkAddLoop {
  addLoopProcessed : list StockItem.t;
  addLoopErrors : list BulkError;
  addOverallSuccess : bool;
  addLoopStorage : Store
}.

(** One iteration of the loop of [processBulkAddStock]; [newBatchId] is
    the identifier that the service draws for this entry. *)
Definition addEntry (today : string) (allItems : list StockItem.t)
    (st : AddLoop) (entryAndId : BulkAddItemEntry.t * string) : AddLoop :=
  let '(entry, newBatchId) := entryAndId in
  let entryId := BulkAddItemEntry.itemId entry in
  let qty := BulkAddItemEntry.quantityAdded entry in
  match find (hasItemId entryId) allItems with
  | None =>
      mkAddLoop (addLoopProcessed st)
        (addLoopErrors st
         ++ [mkBulkError entryId ("Item ID " ++ entryId)%string ItemNotFoundText])
        false (addLoopStorage st)
  | Some currentItem =>
      if qty <=? 0 then
        mkAddLoop (addLoopProcessed st)
          (addLoopErrors st
           ++ [mkBulkError entryId (StockItem.name currentItem)
                 QuantityAddedMustBePositiveText])
          false (addLoopStorage st)
      else
        let systemNote :=
          ("[Bulk Add Stock - " ++ today ++ "]: Added "
           ++ JsString.ofNumber qty ++ " " ++ StockItem.unit currentItem
           ++ ".")%string in
        let finalBatchNotes :=
          JsString.trim
            (systemNote ++ " " ++ orEmpty (BulkAddItemEntry.batchNotes entry))%string in
        let newBatchData :=
          mkBatchData qty (BulkAddItemEntry.expiryDate entry)
            (BulkAddItemEntry.supplier entry) (Some finalBatchNotes) in
        match addBatchToItem today newBatchId entryId newBatchData
                (StockItem.unit currentItem) (addLoopStorage st) with
        | (Resolved updatedItem, store') =>
            mkAddLoop (addLoopProcessed st ++ [updatedItem])
              (addLoopErrors st) (addOverallSuccess st) store'
        | (Rejected err, store') =>
            mkAddLoop (addLoopProcessed st)
              (addLoopErrors st
               ++ [mkBulkError entryId (StockItem.name currentItem)
                     (ApiErrorText err)])
              false store'
        end
  end.

Definition processBulkAddStock (today : string)
    (itemsToAddStock : list (BulkAddItemEntry.t * string)) (h : Hook)
  : ProcessedBulkAddStockResult * Hook :=
  let st :=
    fold_left (addEntry today (allItemsState h)) itemsToAddStock
      (mkAddLoop [] [] true (storage h)) in
  (mkBulkAddResult
     (addOverallSuccess st
      && (0 <? Z.of_nat (List.length (addLoopProcessed st))))
     (addLoopProcessed st) (addLoopErrors st),
   mkHook (applyBuffer (addLoopProcessed st) (allItemsState h))
     (addLoopStorage st)).

End UseStockManagement.

(* ================================================================== *)
(** ** [src/components/StockAnalysisView.tsx] *)

Module StockAnalysisView.

Import Js.

(** *** The tagged-line patterns

    The six regular expressions have one shape,
    [\[<tag> - (\d{4}-\d{2}-\d{2})<gap>\]: <verb> (\d+)] with flag [i],
    where [<gap>] is empty or the lazy [.*?]. *)
Record TagRegex : Type := mkTagRegex {
  tag : string;
  lazyGap : bool;
  verb : string
}.

Definition initialStockRegex := mkTagRegex "Initial Stock" false "Added".
Definition stockAdditionRegex := mkTagRegex "Stock Addition" false "Added".
Definition bulkStockAddRegex := mkTagRegex "Bulk Add Stock" false "Added".
Definition stockOutRegex := mkTagRegex "Stock Out" false "Consumed".
Definition stockReleaseRegex := mkTagRegex "Stock Release" false "Released".
Definition bulkStockReleaseRegex :=
  mkTagRegex "Bulk Stock Release" true "Released".

(** Case folding of flag [i] on the ASCII letters. *)
Definition upper (c : ascii) : ascii :=
  let n := nat_of_ascii c in
  if ((97 <=? n) && (n <=? 122))%nat then ascii_of_nat (n - 32) else c.

(** The text after the literal [lit] at the head of [s]. *)
Fixpoint matchLiteral (lit s : string) : option string :=
  match lit with
  | EmptyString => Some s
  | String a lit' =>
      match s with
      | String b s' =>
          if Ascii.eqb (upper a) (upper b) then matchLiteral lit' s' else None
      | EmptyString => None
      end
  end.

Definition isDigit (c : ascii) : bool :=
  match JsDate.digitVal c with Some _ => true | None => false end.

(** [(\d{4}-\d{2}-\d{2})]: the captured text and what follows it. *)
Definition matchDate (s : string) : option (string * string) :=
  match s with
  | String y1 (String y2 (String y3 (String y4 (String s1
    (String m1 (String m2 (String s2 (String d1 (String d2 rest))))))))) =>
      if isDigit y1 && isDigit y2 && isDigit y3 && isDigit y4
         && JsDate.isDash s1 && isDigit m1 && isDigit m2
         && JsDate.isDash s2 && isDigit d1 && isDigit d2
      then Some (String y1 (String y2 (String y3 (String y4 (String s1
                 (String m1 (String m2 (String s2 (String d1 (String d2
                  EmptyString))))))))), rest)
      else None
  | _ => None
  end.

(** The longest run of digits at the head of [s]. *)
Fixpoint takeDigits (s : string) : string :=
  match s with
  | String c s' => if isDigit c then String c (takeDigits s') else EmptyString
  | EmptyString => EmptyString
  end.

(** [(\d+)]: greedy, at least one digit. *)
Definition matchDigits (s : string) : option string :=
  match takeDigits s with
  | EmptyString => None
  | ds => Some ds
  end.

(** [parseInt(ds, 10)] on a run of digits. *)
Definition parseInt (ds : string) : Z :=
  (fix go (acc : Z) (s : string) : Z :=
     match s with
     | String c s' =>
         match JsDate.digitVal c with
         | Some d => go (10 * acc + d) s'
         | None => acc
         end
     | EmptyString => acc
     end) 0 ds.

Definition matchTail (r : TagRegex) (s : string) : option string :=
  match matchLiteral ("]: " ++ verb r ++ " ")%string s with
  | Some rest => matchDigits rest
  | None => None
  end.

Definition isLineTerminator (c : ascii) : bool :=
  let n := nat_of_ascii c in ((n =? 10) || (n =? 13))%nat.

(** [.*?] before the tail: the tail is tried at the nearest place first;
    [.] steps over any character that does not end a line. *)
Fixpoint matchLazyTail (r : TagRegex) (s : string) : option string :=
  match matchTail r s with
  | Some ds => Some ds
  | None =>
      match s with
      | String c s' =>
          if isLineTerminator c then None else matchLazyTail r s'
      | EmptyString => None
      end
  end.

(** A match that starts at the head of [s]: the two captures. *)
Definition matchHere (r : TagRegex) (s : string) : option (string * string) :=
  match matchLiteral ("[" ++ tag r ++ " - ")%string s with
  | Some s1 =>
      match matchDate s1 with
      | Some (d, s2) =>
          match (if lazyGap r then matchLazyTail r s2 else matchTail r s2) with
          | Some ds => Some (d, ds)
          | None => None
          end
      | None => None
      end
  | None => None
  end.

(** [noteLine.match(r)]: the leftmost match. *)
Fixpoint exec (r : TagRegex) (s : string) : option (string * string) :=
  match matchHere r s with
  | Some m => Some m
  | None =>
      match s with
      | String _ s' => exec r s'
      | EmptyString => None
      end
  end.

(** [a.match(r1) || a.match(r2) || a.match(r3)]. *)
Definition firstOf (r1 r2 r3 : TagRegex) (s : string)
  : option (string * string) :=
  match exec r1 s with
  | Some m => Some m
  | None =>
      match exec r2 s with
      | Some m => Some m
      | None => exec r3 s
      end
  end.

(** *** The analysis *)

Record ItemMovement : Type := mkItemMovement {
  itemId : string;
  itemName : string;
  itemUnit : string;
  quantityIn : Z;
  quantityOut : Z
}.

(** The variables that [handleAnalyzeStockMovement] accumulates;
    [itemMovementsData] lists the entries of the [Map] in insertion
    order, its key being the entry's [itemId]. *)
Record Analysis : Type := mkAnalysis {
  overallStockInQuantity : Z;
  overallStockOutQuantity : Z;
  overallStockInTransactions : Z;
  overallStockOutTransactions : Z;
  itemMovementsData : list ItemMovement
}.

(** [if (!map.has(id)) map.set(id, init); f(map.get(id))]. *)
Fixpoint upsert (id : string) (init : ItemMovement)
    (f : ItemMovement -> ItemMovement) (m : list ItemMovement)
  : list ItemMovement :=
  match m with
  | [] => [f init]
  | e :: m' =>
      if String.eqb (itemId e) id then f e :: m' else e :: upsert id init f m'
  end.

Definition addIn (q : Z) (e : ItemMovement) : ItemMovement :=
  mkItemMovement (itemId e) (itemName e) (itemUnit e) (quantityIn e + q)
    (quantityOut e).

Definition addOut (q : Z) (e : ItemMovement) : ItemMovement :=
  mkItemMovement (itemId e) (itemName e) (itemUnit e) (quantityIn e)
    (quantityOut e + q).

Definition inRange (startDateObj endDateObj noteDate : number) : bool :=
  geb noteDate startDateObj && leb noteDate endDateObj.

(** The body of [notesArray.forEach]. *)
Definition analyzeLine (startDateObj endDateObj : number)
    (item : StockItem.t) (a : Analysis) (noteLine : string) : Analysis :=
  let init :=
    mkItemMovement (StockItem.id item) (StockItem.name item)
      (StockItem.unit item) 0 0 in
  match firstOf initialStockRegex stockAdditionRegex bulkStockAddRegex
          noteLine with
  | Some (d, ds) =>
      let quantity := parseInt ds in
      if inRange startDateObj endDateObj (JsDate.getTime d) then
        mkAnalysis (overallStockInQuantity a + quantity)
          (overallStockOutQuantity a)
          (overallStockInTransactions a + 1)
          (overallStockOutTransactions a)
          (upsert (StockItem.id item) init (addIn quantity)
             (itemMovementsData a))
      else a
  | None =>
      match firstOf stockOutRegex stockReleaseRegex bulkStockReleaseRegex
              noteLine with
      | Some (d, ds) =>
          let quantity := parseInt ds in
          if inRange startDateObj endDateObj (JsDate.getTime d) then
            mkAnalysis (overallStockInQuantity a)
              (overallStockOutQuantity a + quantity)
              (overallStockInTransactions a)
              (overallStockOutTransactions a + 1)
              (upsert (StockItem.id item) init (addOut quantity)
                 (itemMovementsData a))
          else a
      | None => a
      end
  end.

Definition analyzeBatch (startDateObj endDateObj : number)
    (item : StockItem.t) (a : Analysis) (batch : Batch.t) : Analysis :=
  if truthy (Batch.notes batch) then
    fold_left (analyzeLine startDateObj endDateObj item)
      (JsString.splitLines (orEmpty (Batch.notes batch))) a
  else a.

Definition analyzeItem (startDateObj endDateObj : number)
    (a : Analysis) (item : StockItem.t) : Analysis :=
  fold_left (analyzeBatch startDateObj endDateObj item)
    (StockItem.batches item) a.

Record ItemMovementDetails : Type := mkItemMovementDetails {
  movement : ItemMovement;
  itemNetChange : Z
}.

Record StockMovementOverallSummary : Type := mkSummary {
  totalStockInQuantity : Z;
  totalStockOutQuantity : Z;
  stockInTransactions : Z;
  stockOutTransactions : Z;
  netChange : Z
}.

Record StockMovementAnalysisResult : Type := mkResult {
  overallSummary : StockMovementOverallSummary;
  itemsBreakdown : list ItemMovementDetails
}.

Definition dayStart (tza : Z) (d : string) : number :=
  option_map (fun t => JsDate.setHours tza t 0 0 0 0) (JsDate.getTime d).

Definition dayEnd (tza : Z) (d : string) : number :=
  option_map (fun t => JsDate.setHours tza t 23 59 59 999) (JsDate.getTime d).

(** [handleAnalyzeStockMovement], for the local time zone offset [tza];
    [None] when a date is missing (the [alert] branch), otherwise the
    value given to [setStockMovementAnalysis]. *)
Definition handleAnalyzeStockMovement (tza : Z) (startDate endDate : string)
    (allItems : list StockItem.t) : option StockMovementAnalysisResult :=
  if String.eqb startDate EmptyString || String.eqb endDate EmptyString
  then None
  else
    let a :=
      fold_left (analyzeItem (dayStart tza startDate) (dayEnd tza endDate))
        allItems (mkAnalysis 0 0 0 0 []) in
    Some (mkResult
            (mkSummary (overallStockInQuantity a) (overallStockOutQuantity a)
               (overallStockInTransactions a) (overallStockOutTransactions a)
               (overallStockInQuantity a - overallStockOutQuantity a))
            (map (fun data =>
                    mkItemMovementDetails data
                      (quantityIn data - quantityOut data))
               (itemMovementsData a))).

(** The row of item [id] in a breakdown. *)
Definition breakdownOf (id : string) (r : StockMovementAnalysisResult)
  : option ItemMovementDetails :=
  find (fun d => String.eqb (itemId (movement d)) id) (itemsBreakdown r).

End StockAnalysisView.

(* ================================================================== *)
(** ** Notions of the specification *)

Module Spec.

Import Js.
Import StockService.

(** A batch collection that respects the data model: quantities are not
    negative. *)
Definition nonNegative (batches : list Batch.t) : Prop :=
  Forall (fun b => 0 <= Batch.quantity b) batches.

(** Batch identifiers are unique within the owning item. *)
Definition uniqueIds (batches : list Batch.t) : Prop :=
  NoDup (map Batch.id batches).

(** The dates of a batch are calendar dates in the [YYYY-MM-DD] form. *)
Definition datedBatch (b : Batch.t) : bool :=
  JsDate.isDate (Batch.dateAdded b)
  && match Batch.expiryDate b with
     | Some e => JsDate.isDate e
     | None => true
     end.

(** The day of a date, for comparisons of calendar dates. *)
Definition dayOf (d : string) : Z := sortValue (JsDate.getTime d).

(** The FEFO order in the words of the specification: by expiry date
    ascending, batches without expiry date after all those that have one,
    ties (equal expiry, or no expiry on both sides) by [dateAdded]
    ascending. *)
Definition fefoOrder (a b : Batch.t) : Prop :=
  match Batch.expiryDate a, Batch.expiryDate b with
  | Some ea, Some eb =>
      dayOf ea < dayOf eb
      \/ (dayOf ea = dayOf eb
          /\ dayOf (Batch.dateAdded a) <= dayOf (Batch.dateAdded b))
  | Some _, None => True
  | None, Some _ => False
  | None, None => dayOf (Batch.dateAdded a) <= dayOf (Batch.dateAdded b)
  end.

(** The algorithm in the words of the specification: iterate the sorted
    batches; drain [min(batch.quantity, remaining)] from each; record the
    allocation; decrement [remaining]; stop when [remaining] is 0. *)
Fixpoint plan (sorted : list Batch.t) (remaining : Z) : list Affected :=
  match sorted with
  | [] => []
  | batch :: rest =>
      if remaining =? 0 then []
      else
        let drained := Z.min (Batch.quantity batch) remaining in
        mkAffected (Batch.id batch) drained :: plan rest (remaining - drained)
  end.

(** What a plan does to a batch: the batch named by an allocation is
    drained by the allocated quantity, the others are left alone. *)
Definition drained (gen : option NotesGenerator) (itemUnit : string)
    (allocations : list Affected) (b : Batch.t) : Batch.t :=
  match find (fun a => String.eqb (batchId a) (Batch.id b)) allocations with
  | Some a => releaseFromBatch gen itemUnit (releasedQuantity a) b
  | None => b
  end.



(** The fields of a date as one number, and the dates that the parser
    accepts. *)
Definition dateKey (f : Z * Z * Z) : Z :=
  let '(y, m, d) := f in 10000 * y + 100 * m + d.

Definition validFields (f : Z * Z * Z) : Prop :=
  let '(y, m, d) := f in
  0 <= y <= 9999 /\ 1 <= m <= 12 /\ 1 <= d <= JsDate.daysInMonth y m.

(** The day number of parsed fields. *)
Definition dayOfFields (f : Z * Z * Z) : Z :=
  let '(y, m, d) := f in JsDate.dayNumber y m d.

(** A batch that counts for the soonest expiry: stock left, an expiry
    date, and that date not strictly before today. *)
Definition activeExpiry (today : string) (b : Batch.t) (e : string) : Prop :=
  0 < Batch.quantity b /\ Batch.expiryDate b = Some e
  /\ dayOf today <= dayOf e.

End Spec.

Module BulkSpec.

Import Js.
Import StockService.
Import UseStockManagement.



End BulkSpec.

Module MovementSpec.

Import Js.
Import StockAnalysisView.

(** What one note line adds to the stock-in side when the range is
    [startDateObj .. endDateObj]: the quantity and the number of
    transactions (one or none). *)
Definition lineIn (startDateObj endDateObj : number) (noteLine : string)
  : Z * Z :=
  match firstOf initialStockRegex stockAdditionRegex bulkStockAddRegex
          noteLine with
  | Some (d, ds) =>
      if inRange startDateObj endDateObj (JsDate.getTime d)
      then (parseInt ds, 1) else (0, 0)
  | None => (0, 0)
  end.

(** The note lines of a batch and of an item, in the order in which the
    analysis reads them. *)
Definition batchLines (batch : Batch.t) : list string :=
  if truthy (Batch.notes batch)
  then JsString.splitLines (orEmpty (Batch.notes batch)) else [].

Definition itemLines (item : StockItem.t) : list string :=
  flat_map batchLines (StockItem.batches item).

Definition itemIn (startDateObj endDateObj : number) (item : StockItem.t) : Z :=
  sumOf (fun l => fst (lineIn startDateObj endDateObj l)) (itemLines item).

Definition itemInCount (startDateObj endDateObj : number) (item : StockItem.t)
  : Z :=
  sumOf (fun l => snd (lineIn startDateObj endDateObj l)) (itemLines item).

(** The stock-in quantity that a table of movements holds for an item,
    0 when the item has no row. *)
Definition quantityInOf (id : string) (m : list ItemMovement) : Z :=
  match find (fun e => String.eqb (itemId e) id) m with
  | Some e => quantityIn e
  | None => 0
  end.

(** The same for the breakdown of a result. *)
Definition reportedIn (id : string) (r : StockMovementAnalysisResult) : Z :=
  match breakdownOf id r with
  | Some d => quantityIn (movement d)
  | None => 0
  end.

(** Text without an opening square bracket, the character every tagged
    line starts with. *)
Fixpoint noBracket (s : string) : bool :=
  match s with
  | EmptyString => true
  | String c s' => negb (Ascii.eqb c "["%char) && noBracket s'
  end.

(** Text on one line. *)
Fixpoint oneLine (s : string) : bool :=
  match s with
  | EmptyString => true
  | String c s' => negb (Ascii.eqb c (ascii_of_nat 10)) && oneLine s'
  end.

End MovementSpec.

(* ================================================================== *)
(** ** The rest of [src/services/stockService.ts] *)

(** [Pick<StockItem, 'id' | 'name' | 'category' | 'unit' | 'minThreshold'
    | 'notes' | 'originCountry'>]. For the two optional fields the argument
    of [updateItem] either lacks the key ([None]) or carries a value that
    may be [undefined] ([Some None]). *)
Module ItemDefinition.
Record t : Type := mk {
  id : string;
  name : string;
  category : ItemCategory;
  unit : string;
  minThreshold : Z;
  notes : option (option string);
  originCountry : option (option string)
}.
End ItemDefinition.

Module StockServiceItems.

Import Js.
Import StockService.

Definition getAllItems (store : Store) : Result (list StockItem.t) :=
  Resolved (getItemsFromStorage store).

Definition getItemById (id : string) (store : Store)
  : Result (option StockItem.t) :=
  Resolved
    (find (fun item => String.eqb (StockItem.id item) id)
       (getItemsFromStorage store)).

(** A key of [{...currentItem, ...updatedItemData}]: the value given,
    [undefined] included, when the second object has the key. *)
Definition spread {A : Type} (current : option A) (given : option (option A))
  : option A :=
  match given with
  | Some v => v
  | None => current
  end.

Definition updateItem (today : string) (updatedItemData : ItemDefinition.t)
    (store : Store) : Result StockItem.t * Store :=
  let items := getItemsFromStorage store in
  match find (hasItemId (ItemDefinition.id updatedItemData)) items with
  | None => (Rejected ItemNotFoundForUpdate, store)
  | Some currentItem =>
      let finalItem :=
        StockItem.mk (ItemDefinition.id updatedItemData)
          (ItemDefinition.name updatedItemData)
          (ItemDefinition.category updatedItemData)
          (ItemDefinition.unit updatedItemData)
          (ItemDefinition.minThreshold updatedItemData)
          (StockItem.batches currentItem) today
          (spread (StockItem.notes currentItem)
             (ItemDefinition.notes updatedItemData))
          (spread (StockItem.originCountry currentItem)
             (ItemDefinition.originCountry updatedItemData)) in
      (Resolved finalItem,
       saveItemsToStorage
         (mutateFirst (hasItemId (ItemDefinition.id updatedItemData))
            (fun _ => finalItem) items))
  end.

End StockServiceItems.

(** The two keys of [localStorage] and [initializeLocalStorage]; [seed]
    stands for [getInitialSeedData()]. *)
Module LocalStorage.

Record t : Type := mk {
  stockAppItems : option (list StockItem.t);
  stockAppInitialItemsLoaded : option string
}.

Definition initializeLocalStorage (seed : list StockItem.t) (ls : t) : t :=
  if Js.truthy (stockAppInitialItemsLoaded ls) then ls
  else mk (Some seed) (Some "true"%string).

(** [if (!itemsJson) return []]. *)
Definition getItemsFromStorage (ls : t) : list StockItem.t :=
  match stockAppItems ls with
  | Some items => items
  | None => []
  end.

Definition saveItemsToStorage (items : list StockItem.t) (ls : t) : t :=
  mk (Some items) (stockAppInitialItemsLoaded ls).

End LocalStorage.

(* ================================================================== *)
(** ** The rest of [src/hooks/useStockManagement.ts] *)

Module StockTakeEntry.
Record t : Type := mk {
  itemId : string;
  batchId : string;
  countedQuantity : Z;
  reason : option string
}.
End StockTakeEntry.

Module UseStockManagementItems.

Import Js.
Import StockService.
Import StockServiceItems.
Import UseStockManagement.

Definition addItem (today newId newBatchId : string)
    (name : string) (category : ItemCategory) (unit : string)
    (minThreshold : Z) (itemNotes originCountry : option string)
    (firstBatch : BatchData) (h : Hook) : Result StockItem.t * Hook :=
  match StockService.addItem today newId newBatchId name category unit
          minThreshold itemNotes originCountry firstBatch (storage h) with
  | (Resolved newItem, store') =>
      (Resolved newItem, mkHook (allItemsState h ++ [newItem]) store')
  | (Rejected err, store') => (Rejected err, mkHook (allItemsState h) store')
  end.

Definition updateItemDefinition (today : string) (itemData : ItemDefinition.t)
    (h : Hook) : Result StockItem.t * Hook :=
  match updateItem today itemData (storage h) with
  | (Resolved updatedItem, store') =>
      (Resolved updatedItem,
       mkHook (replaceItem updatedItem (allItemsState h)) store')
  | (Rejected err, store') => (Rejected err, mkHook (allItemsState h) store')
  end.

Definition deleteItem (id : string) (h : Hook) : Result unit * Hook :=
  match StockService.deleteItem id (storage h) with
  | (Resolved _, store') =>
      (Resolved tt,
       mkHook (filter (fun item => negb (String.eqb (StockItem.id item) id))
                 (allItemsState h))
         store')
  | (Rejected err, store') => (Rejected err, mkHook (allItemsState h) store')
  end.

(** The assignments of [performStockTake] to [batchToUpdate]. *)
Definition countBatch (today : string) (entry : StockTakeEntry.t)
    (batchToUpdate : Batch.t) : Batch.t :=
  Batch.withNotes
    (Some (JsString.trim
       (orEmpty (Batch.notes batchToUpdate) ++ JsString.newline
        ++ "[Stock Take - " ++ today ++ "]: Counted "
        ++ JsString.ofNumber (StockTakeEntry.countedQuantity entry) ++ ". "
        ++ orEmpty (StockTakeEntry.reason entry))%string))
    (Batch.withQuantity (StockTakeEntry.countedQuantity entry) batchToUpdate).

(** [performStockTake]: the objects of [allItemsState] are assigned in
    place; the service is not called. The items of the state are taken
    as distinct objects, as they are when their identifiers differ. *)
Definition performStockTake (today : string) (entries : list StockTakeEntry.t)
    (h : Hook) : Hook :=
  match entries, allItemsState h with
  | entry :: _, _ :: _ =>
      match find (hasItemId (StockTakeEntry.itemId entry)) (allItemsState h) with
      | Some itemToUpdate =>
          match find (hasBatchId (StockTakeEntry.batchId entry))
                  (StockItem.batches itemToUpdate) with
          | Some _ =>
              mkHook
                (mutateFirst (hasItemId (StockTakeEntry.itemId entry))
                   (fun item =>
                      StockItem.withLastUpdated today
                        (StockItem.withBatches
                           (mutateFirst
                              (hasBatchId (StockTakeEntry.batchId entry))
                              (countBatch today entry)
                              (StockItem.batches item))
                           item))
                   (allItemsState h))
                (storage h)
          | None => h
          end
      | None => h
      end
  | _, _ => h
  end.

End UseStockManagementItems.

(* ================================================================== *)
(** ** [overallInitialAnalysisData] of [src/components/StockAnalysisView.tsx] *)

Module LowStockInfo.
Record t : Type := mk {
  id : string;
  name : string;
  currentQuantity : Z;
  minThreshold : Z;
  unit : string;
  difference : Z
}.
End LowStockInfo.

Module BatchInfo.
Record t : Type := mk {
  itemId : string;
  itemName : string;
  itemUnit : string;
  batchId : string;
  quantity : Z;
  expiryDate : option string;
  supplier : option string;
  dateAdded : string
}.
End BatchInfo.

Module StockOverview.

Import Js.

Record Overview : Type := mkOverview {
  totalUniqueItems : Z;
  totalQuantityAllItems : Z;
  lowStockItems : list LowStockInfo.t;
  outOfStockItemsCount : Z;
  soonExpiringBatches : list BatchInfo.t;
  expiredBatches : list BatchInfo.t
}.

(** [a < b] on numbers: false as soon as one is NaN. *)
Definition ltb (a b : number) : bool :=
  match a, b with
  | Some x, Some y => x <? y
  | _, _ => false
  end.

(** The first [allItems.forEach]: the count and the pushed rows. *)
Definition stockLevel (acc : Z * list LowStockInfo.t) (item : StockItem.t)
  : Z * list LowStockInfo.t :=
  let totalQty := Types.getTotalQuantity item in
  let outOfStockItemsCount :=
    if totalQty =? 0 then fst acc + 1 else fst acc in
  let lowStockItems :=
    if (0 <? totalQty) && (totalQty <=? StockItem.minThreshold item)
    then snd acc
         ++ [LowStockInfo.mk (StockItem.id item) (StockItem.name item) totalQty
               (StockItem.minThreshold item) (StockItem.unit item)
               (StockItem.minThreshold item - totalQty)]
    else snd acc in
  (outOfStockItemsCount, lowStockItems).

Definition batchInfo (item : StockItem.t) (batch : Batch.t) : BatchInfo.t :=
  BatchInfo.mk (StockItem.id item) (StockItem.name item) (StockItem.unit item)
    (Batch.id batch) (Batch.quantity batch) (Batch.expiryDate batch)
    (Batch.supplier batch) (Batch.dateAdded batch).

(** The body of [item.batches.forEach] in the second pass; the pair holds
    [soonExpiringBatches] and [expiredBatches]. *)
Definition expiryLevel (today thirtyDaysFromNow : Z) (item : StockItem.t)
    (acc : list BatchInfo.t * list BatchInfo.t) (batch : Batch.t)
  : list BatchInfo.t * list BatchInfo.t :=
  if (0 <? Batch.quantity batch) && truthy (Batch.expiryDate batch) then
    let expiry := JsDate.getTime (orEmpty (Batch.expiryDate batch)) in
    if ltb expiry (Some today) then (fst acc, snd acc ++ [batchInfo item batch])
    else if geb expiry (Some today) && leb expiry (Some thirtyDaysFromNow)
    then (fst acc ++ [batchInfo item batch], snd acc)
    else acc
  else acc.

(** [(a, b) => (a.expiryDate && b.expiryDate) ? ... - ... : 0]. *)
Definition byExpiry (a b : BatchInfo.t) : number :=
  if truthy (BatchInfo.expiryDate a) && truthy (BatchInfo.expiryDate b)
  then sub (JsDate.getTime (orEmpty (BatchInfo.expiryDate a)))
           (JsDate.getTime (orEmpty (BatchInfo.expiryDate b)))
  else Some 0.

(** [overallInitialAnalysisData]. [localeCompare] is the collation of the
    engine; [now] is the time value of [new Date()]; [tza] is the offset
    of the local time zone, taken as constant, so that
    [setDate(getDate() + 30)] adds thirty days of [msPerDay]. *)
Definition overallInitialAnalysisData
    (localeCompare : string -> string -> Z) (tza now : Z)
    (allItems : list StockItem.t) : Overview :=
  match allItems with
  | [] => mkOverview 0 0 [] 0 [] []
  | _ =>
      let levels := fold_left stockLevel allItems (0, []) in
      let today := JsDate.setHours tza now 0 0 0 0 in
      let thirtyDaysFromNow := today + 30 * JsDate.msPerDay in
      let expiries :=
        fold_left
          (fun acc item =>
             fold_left (expiryLevel today thirtyDaysFromNow item)
               (StockItem.batches item) acc)
          allItems ([], []) in
      mkOverview (Z.of_nat (List.length allItems))
        (sumOf Types.getTotalQuantity allItems)
        (sort (fun a b =>
                 Some (localeCompare (LowStockInfo.name a) (LowStockInfo.name b)))
           (snd levels))
        (fst levels)
        (sort byExpiry (fst expiries))
        (sort byExpiry (snd expiries))
  end.

End StockOverview.

(* ================================================================== *)
(** ** Notions for the further properties *)

Module LedgerSpec.

Import Js.
Import StockService.

(** Item identifiers are unique within a collection. *)
Definition uniqueItems (items : list StockItem.t) : Prop :=
  NoDup (map StockItem.id items).

(** Two collections that hold the same identifiers at the same places and
    differ at most at the items whose identifier is [id]. *)
Definition onlyItemChanged (id : string) (items items' : list StockItem.t)
  : Prop :=
  Forall2
    (fun a b =>
       StockItem.id b = StockItem.id a /\ (StockItem.id a <> id -> b = a))
    items items'.

(** The FIFO order: by [dateAdded] ascending. *)
Definition fifoOrder (a b : Batch.t) : Prop :=
  Spec.dayOf (Batch.dateAdded a) <= Spec.dayOf (Batch.dateAdded b).

(** The fields of a batch that identify the lot. *)
Definition sameLot (b b' : Batch.t) : Prop :=
  Batch.id b' = Batch.id b
  /\ Batch.expiryDate b' = Batch.expiryDate b
  /\ Batch.supplier b' = Batch.supplier b
  /\ Batch.dateAdded b' = Batch.dateAdded b.

(** The definition of an item: everything but its batches and the date
    of its last change. *)
Definition sameDefinition (i i' : StockItem.t) : Prop :=
  StockItem.id i' = StockItem.id i
  /\ StockItem.name i' = StockItem.name i
  /\ StockItem.category i' = StockItem.category i
  /\ StockItem.unit i' = StockItem.unit i
  /\ StockItem.minThreshold i' = StockItem.minThreshold i
  /\ StockItem.notes i' = StockItem.notes i
  /\ StockItem.originCountry i' = StockItem.originCountry i.

(** What one release does to a batch record, whatever the batch. *)
Definition releasedFrom (gen : option NotesGenerator) (b b' : Batch.t) : Prop :=
  sameLot b b'
  /\ (0 <= Batch.quantity b -> 0 <= Batch.quantity b' <= Batch.quantity b)
  /\ (gen = None -> Batch.notes b' = Batch.notes b).

End LedgerSpec.
Module HookSpec.

Import Js.
Import StockService.
Import UseStockManagement.

(** The state of the hook shows what the storage holds. *)
Definition inSync (h : Hook) : Prop := allItemsState h = storage h.

(** Every stored batch has a quantity that is not negative. *)
Definition storedNonNegative (items : list StockItem.t) : Prop :=
  Forall (fun item => Spec.nonNegative (StockItem.batches item)) items.

End HookSpec.
Module ReportSpec.

Import Js.
Import StockAnalysisView.

(** The totals of a breakdown. *)
Definition rowsIn (r : StockMovementAnalysisResult) : Z :=
  sumOf (fun d => quantityIn (movement d)) (itemsBreakdown r).

Definition rowsOut (r : StockMovementAnalysisResult) : Z :=
  sumOf (fun d => quantityOut (movement d)) (itemsBreakdown r).

Definition rowsNet (r : StockMovementAnalysisResult) : Z :=
  sumOf itemNetChange (itemsBreakdown r).

(** A row that is labelled with an item of the collection. *)
Definition rowOf (allItems : list StockItem.t) (d : ItemMovementDetails)
  : Prop :=
  exists item,
    In item allItems
    /\ itemId (movement d) = StockItem.id item
    /\ itemName (movement d) = StockItem.name item
    /\ itemUnit (movement d) = StockItem.unit item.

(** The report of a period in which nothing moved. *)
Definition emptyReport : StockMovementAnalysisResult :=
  mkResult (mkSummary 0 0 0 0 0) [].

End ReportSpec.
Module NoteSpec.

Import Js.
Import StockService.
Import StockAnalysisView.

(** The loop of [parseInt] on a run of digits, from an accumulator. *)
Fixpoint parseFrom (acc : Z) (s : string) : Z :=
  match s with
  | String c s' =>
      match JsDate.digitVal c with
      | Some d => parseFrom (10 * acc + d) s'
      | None => acc
      end
  | EmptyString => acc
  end.

(** The value of a decimal numeral read from the left. *)
Fixpoint uintFrom (acc : Z) (d : Decimal.uint) : Z :=
  match d with
  | Decimal.Nil => acc
  | Decimal.D0 l => uintFrom (10 * acc) l
  | Decimal.D1 l => uintFrom (10 * acc + 1) l
  | Decimal.D2 l => uintFrom (10 * acc + 2) l
  | Decimal.D3 l => uintFrom (10 * acc + 3) l
  | Decimal.D4 l => uintFrom (10 * acc + 4) l
  | Decimal.D5 l => uintFrom (10 * acc + 5) l
  | Decimal.D6 l => uintFrom (10 * acc + 6) l
  | Decimal.D7 l => uintFrom (10 * acc + 7) l
  | Decimal.D8 l => uintFrom (10 * acc + 8) l
  | Decimal.D9 l => uintFrom (10 * acc + 9) l
  end.

(** A text of decimal digits only. *)
Fixpoint digits (s : string) : bool :=
  match s with
  | EmptyString => true
  | String c s' => isDigit c && digits s'
  end.

(** Text that a user typed and that holds no tag and no line break. *)
Definition plain (s : string) : bool :=
  MovementSpec.noBracket s && MovementSpec.oneLine s.

(** Text without a closing square bracket and without the characters
    that [.] does not match. *)
Fixpoint noClose (s : string) : bool :=
  match s with
  | EmptyString => true
  | String c s' =>
      negb (Ascii.eqb c "]"%char) && negb (isLineTerminator c) && noClose s'
  end.

(** What one note line adds to the stock-out side when the range is
    [startDateObj .. endDateObj]: the quantity and the number of
    transactions; nothing when the line counts as stock in. *)
Definition lineOut (startDateObj endDateObj : number) (noteLine : string)
  : Z * Z :=
  match firstOf initialStockRegex stockAdditionRegex bulkStockAddRegex
          noteLine with
  | Some _ => (0, 0)
  | None =>
      match firstOf stockOutRegex stockReleaseRegex bulkStockReleaseRegex
              noteLine with
      | Some (d, ds) =>
          if inRange startDateObj endDateObj (JsDate.getTime d)
          then (parseInt ds, 1) else (0, 0)
      | None => (0, 0)
      end
  end.

Definition itemOut (startDateObj endDateObj : number) (item : StockItem.t) : Z :=
  sumOf (fun l => fst (lineOut startDateObj endDateObj l))
    (MovementSpec.itemLines item).

Definition itemOutCount (startDateObj endDateObj : number)
    (item : StockItem.t) : Z :=
  sumOf (fun l => snd (lineOut startDateObj endDateObj l))
    (MovementSpec.itemLines item).

(** The stock-out quantity that a table of movements holds for an item,
    0 when the item has no row. *)
Definition quantityOutOf (id : string) (m : list ItemMovement) : Z :=
  match find (fun e => String.eqb (itemId e) id) m with
  | Some e => quantityOut e
  | None => 0
  end.

Definition reportedOut (id : string) (r : StockMovementAnalysisResult) : Z :=
  match breakdownOf id r with
  | Some d => quantityOut (movement d)
  | None => 0
  end.

(** A line in the form of the six patterns: tag, date, what stands
    between the date and the closing bracket, verb, quantity, rest. *)
Definition tagged (r : TagRegex) (d gap : string) (q : Z) (rest : string)
  : string :=
  ("[" ++ tag r ++ " - " ++ d ++ gap ++ "]: " ++ verb r ++ " "
   ++ JsString.ofNumber q ++ " " ++ rest)%string.

(** The patterns that count as stock in and those that count as stock
    out. *)
Definition inKind (r : TagRegex) : Prop :=
  r = initialStockRegex \/ r = stockAdditionRegex \/ r = bulkStockAddRegex.

Definition outKind (r : TagRegex) : Prop :=
  r = stockOutRegex \/ r = stockReleaseRegex \/ r = bulkStockReleaseRegex.

(** What a line of a given date and quantity is worth in a range. *)
Definition worth (startDateObj endDateObj : number) (d : string) (q : Z)
  : Z * Z :=
  if inRange startDateObj endDateObj (JsDate.getTime d) then (q, 1) else (0, 0).

(** A notes generator whose lines are read back by the analysis: one
    line, not empty, worth the released quantity as stock out on [d] and
    nothing as stock in. *)
Definition writesOutLines (startDateObj endDateObj : number) (d : string)
    (g : NotesGenerator) : Prop :=
  forall (batch : Batch.t) (q : Z) (itemUnit : string),
    0 <= q -> plain itemUnit = true -> plain (Batch.id batch) = true ->
    MovementSpec.oneLine (g batch q itemUnit) = true
    /\ truthy (Some (g batch q itemUnit)) = true
    /\ lineOut startDateObj endDateObj (g batch q itemUnit)
       = worth startDateObj endDateObj d q
    /\ MovementSpec.lineIn startDateObj endDateObj (g batch q itemUnit) = (0, 0).

End NoteSpec.

Module HookNotes.

Import Js.
Import StockService.
Import UseStockManagement.

(** The three generators that the hook hands to the service, each with
    the date it writes, for texts of the user that hold no tag and no
    line break. *)
Inductive hookGenerator (today : string) : NotesGenerator -> string -> Prop :=
| ofRelease (details : StockReleaseDetails.t) :
    NoteSpec.plain (StockReleaseDetails.releasedTo details) = true ->
    NoteSpec.plain (orEmpty (StockReleaseDetails.reason details)) = true ->
    hookGenerator today (releaseOperationNotes today details)
      (dateOr today (StockReleaseDetails.releaseDate details))
| ofConsumption (details : StockOutDetails.t) :
    NoteSpec.plain (StockOutDetails.reason details) = true ->
    hookGenerator today (consumptionOperationNotes today details)
      (dateOr today (StockOutDetails.consumptionDate details))
| ofBulkRelease (voucher : string) (common : BulkReleaseCommonDetails.t) :
    NoteSpec.plain voucher = true ->
    NoteSpec.noClose voucher = true ->
    NoteSpec.plain (BulkReleaseCommonDetails.releasedTo common) = true ->
    NoteSpec.plain (orEmpty (BulkReleaseCommonDetails.reason common)) = true ->
    hookGenerator today (releaseOpNotes today voucher common)
      (dateOr today (BulkReleaseCommonDetails.releaseDate common)).

End HookNotes.
Module OverviewSpec.

Import Js.
Import StockOverview.

(** An item that is low on stock: something left, and not more than the
    threshold. *)
Definition isLow (item : StockItem.t) : bool :=
  (0 <? Types.getTotalQuantity item)
  && (Types.getTotalQuantity item <=? StockItem.minThreshold item).

Definition isOut (item : StockItem.t) : bool :=
  Types.getTotalQuantity item =? 0.

Definition lowRow (item : StockItem.t) : LowStockInfo.t :=
  LowStockInfo.mk (StockItem.id item) (StockItem.name item)
    (Types.getTotalQuantity item) (StockItem.minThreshold item)
    (StockItem.unit item)
    (StockItem.minThreshold item - Types.getTotalQuantity item).

(** The start of the current local day and the end of the window of
    thirty days, as time values. *)
Definition todayStart (tza now : Z) : Z := JsDate.setHours tza now 0 0 0 0.

Definition windowEnd (tza now : Z) : Z :=
  todayStart tza now + 30 * JsDate.msPerDay.

(** The local day that [now] falls on, counted from the epoch. *)
Definition localDay (tza now : Z) : Z := (now + tza) / JsDate.msPerDay.

(** The batches that have stock and an expiry date. *)
Definition dated (batch : Batch.t) : bool :=
  (0 <? Batch.quantity batch) && truthy (Batch.expiryDate batch).

Definition expiryOf (batch : Batch.t) : Z :=
  Spec.dayOf (orEmpty (Batch.expiryDate batch)).

Definition isExpired (tza now : Z) (batch : Batch.t) : bool :=
  dated batch && (expiryOf batch <? todayStart tza now).

Definition isSoon (tza now : Z) (batch : Batch.t) : bool :=
  dated batch && (todayStart tza now <=? expiryOf batch)
  && (expiryOf batch <=? windowEnd tza now).

(** The rows of the batches that satisfy [cond], items and batches in
    their order. *)
Definition rowsWhere (cond : Batch.t -> bool) (allItems : list StockItem.t)
  : list BatchInfo.t :=
  flat_map
    (fun item => map (batchInfo item) (filter cond (StockItem.batches item)))
    allItems.


(** Every batch of every item has calendar dates. *)
Definition allDated (allItems : list StockItem.t) : Prop :=
  Forall (fun item => forallb Spec.datedBatch (StockItem.batches item) = true)
    allItems.

End OverviewSpec.

(* ================================================================== *)
(** * Properties *)

Import Js StockService.

(** ** Sums, first-match assignment and sorting *)

Section ListFacts.

Context {A : Type}.

Lemma fold_sum_shift (f : A -> Z) (l : list A) (a : Z) :
  fold_left (fun sum x => sum + f x) l a
  = a + fold_left (fun sum x => sum + f x) l 0.
Proof.
  revert a; induction l as [|x l IH]; intros a; simpl.
  - lia.
  - rewrite IH, (IH (f x)). lia.
Qed.

Lemma sumOf_nil (f : A -> Z) : sumOf f [] = 0.
Proof. reflexivity. Qed.

Lemma sumOf_cons (f : A -> Z) (x : A) (l : list A) :
  sumOf f (x :: l) = f x + sumOf f l.
Proof. unfold sumOf; simpl. now rewrite fold_sum_shift. Qed.

Lemma sumOf_perm (f : A -> Z) (l l' : list A) :
  Permutation l l' -> sumOf f l = sumOf f l'.
Proof.
  induction 1; rewrite ?sumOf_cons; try lia; reflexivity.
Qed.

Lemma insertBy_perm (cmp : A -> A -> number) (x : A) (l : list A) :
  Permutation (insertBy cmp x l) (x :: l).
Proof.
  induction l as [|y l IH]; simpl.
  - apply Permutation_refl.
  - destruct (sortValue (cmp x y) <=? 0).
    + apply Permutation_refl.
    + eapply perm_trans; [apply perm_skip, IH | apply perm_swap].
Qed.

Lemma sort_perm (cmp : A -> A -> number) (l : list A) :
  Permutation (sort cmp l) l.
Proof.
  induction l as [|x l IH]; simpl.
  - apply perm_nil.
  - eapply perm_trans; [apply insertBy_perm | now apply perm_skip].
Qed.

Lemma mutateFirst_absent (p : A -> bool) (f : A -> A) (l : list A) :
  find p l = None -> mutateFirst p f l = l.
Proof.
  induction l as [|x l IH]; simpl; intros H; [reflexivity|].
  destruct (p x); [discriminate | now rewrite IH].
Qed.

Lemma mutateFirst_map {B : Type} (g : A -> B) (p : A -> bool) (f : A -> A)
    (l : list A) :
  (forall x, g (f x) = g x) -> map g (mutateFirst p f l) = map g l.
Proof.
  intros Hg; induction l as [|x l IH]; simpl; [reflexivity|].
  destruct (p x); simpl; [now rewrite Hg | now rewrite IH].
Qed.

(** A comparator that decides a total preorder [R] on the values that
    satisfy [P] makes [sort] return a list sorted by [R]. *)
Section Sorting.

Variable cmp : A -> A -> number.
Variable R : A -> A -> Prop.
Variable P : A -> Prop.
Hypothesis cmp_le : forall x y, P x -> P y -> sortValue (cmp x y) <= 0 -> R x y.
Hypothesis cmp_gt : forall x y, P x -> P y -> 0 < sortValue (cmp x y) -> R y x.
Hypothesis R_trans : forall x y z, P x -> P y -> P z -> R x y -> R y z -> R x z.

Lemma insertBy_sorted (x : A) (l : list A) :
  P x -> Forall P l -> StronglySorted R l ->
  StronglySorted R (insertBy cmp x l).
Proof.
  intros Px Pl Hs; induction Hs as [|y l Hs IH Hy]; simpl.
  - constructor; constructor.
  - inversion Pl as [|? ? Py Pl']; subst.
    destruct (sortValue (cmp x y) <=? 0) eqn:E.
    + apply Z.leb_le in E.
      assert (Rxy : R x y) by now apply cmp_le.
      constructor; [now constructor|].
      constructor; [exact Rxy|].
      rewrite Forall_forall in *; intros z Hz.
      apply (R_trans x y z); auto.
    + apply Z.leb_gt in E.
      constructor; [now apply IH|].
      eapply Permutation_Forall; [apply Permutation_sym, insertBy_perm|].
      constructor; [now apply cmp_gt | exact Hy].
Qed.

Lemma sort_sorted (l : list A) :
  Forall P l -> StronglySorted R (sort cmp l).
Proof.
  induction 1 as [|x l Px Pl IH]; simpl.
  - constructor.
  - apply insertBy_sorted; auto.
    eapply Permutation_Forall; [apply Permutation_sym, sort_perm | exact Pl].
Qed.

End Sorting.

End ListFacts.

(** ** Deleting an item *)

(** C10. [deleteItem] always resolves; afterwards the stored collection is
    the former one without the items of that id; when no stored item has
    the id the collection is unchanged; deleting twice is deleting once. *)
Theorem deleteItem_filters_and_is_idempotent :
  forall (id : string) (store : Store),
    fst (deleteItem id store) = Resolved tt
    /\ snd (deleteItem id store)
       = filter (fun item => negb (hasItemId id item)) store
    /\ (find (hasItemId id) store = None -> snd (deleteItem id store) = store)
    /\ snd (deleteItem id (snd (deleteItem id store)))
       = snd (deleteItem id store).
Proof.
  intros id store; unfold deleteItem, getItemsFromStorage, saveItemsToStorage;
    simpl.
  repeat split.
  - induction store as [|x l IH]; simpl; [reflexivity|].
    unfold hasItemId at 1.
    destruct (String.eqb (StockItem.id x) id); simpl; intros H;
      [discriminate | now rewrite IH].
  - induction store as [|x l IH]; simpl; [reflexivity|].
    destruct (String.eqb (StockItem.id x) id) eqn:E; simpl; [exact IH|].
    now rewrite E, IH.
Qed.

Lemma deleteItem_filters_and_is_idempotent_witness :
  let ghost := "zz"%string in
  let store :=
    [StockItem.mk "A" "Gauze" GENERAL_SUPPLIES "packs" 50 [] "2025-01-01" None None] in
  fst (deleteItem ghost store) = Resolved tt /\ snd (deleteItem ghost store) = store.
Proof.
  intros ghost store.
  destruct (deleteItem_filters_and_is_idempotent ghost store) as (H1 & _ & H3 & _).
  split; [exact H1 | apply H3; reflexivity].
Defined.


(** ** The depletion loop *)

Section ReleaseLoop.

Variable gen : option NotesGenerator.
Variable itemUnit : string.

Lemma releaseFromBatch_id (can : Z) (b : Batch.t) :
  Batch.id (releaseFromBatch gen itemUnit can b) = Batch.id b.
Proof. unfold releaseFromBatch; destruct gen; reflexivity. Qed.

Lemma releaseFromBatch_quantity (can : Z) (b : Batch.t) :
  Batch.quantity (releaseFromBatch gen itemUnit can b) = Batch.quantity b - can.
Proof. unfold releaseFromBatch; destruct gen; reflexivity. Qed.

Lemma releaseLoop_ids (sorted : list Batch.t) :
  forall batches r,
    map Batch.id (fst (releaseLoop gen itemUnit sorted batches r))
    = map Batch.id batches.
Proof.
  induction sorted as [|b rest IH]; intros batches r; simpl; [reflexivity|].
  destruct (r <=? 0); [reflexivity|].
  destruct (find (hasBatchId (Batch.id b)) batches) as [orig|]; [|apply IH].
  destruct (releaseLoop gen itemUnit rest _ _) as [final affected] eqn:E.
  simpl. change final with (fst (final, affected)). rewrite <- E, IH.
  apply mutateFirst_map. intros x; apply releaseFromBatch_id.
Qed.

Lemma find_by_id (batches : list Batch.t) (b : Batch.t) :
  NoDup (map Batch.id batches) -> In b batches ->
  find (hasBatchId (Batch.id b)) batches = Some b.
Proof.
  induction batches as [|x l IH]; simpl; intros Hnd Hin; [contradiction|].
  inversion Hnd as [|? ? Hx Hl]; subst.
  unfold hasBatchId at 1.
  destruct (String.eqb (Batch.id x) (Batch.id b)) eqn:E.
  - destruct Hin as [->|Hin]; [reflexivity|].
    apply String.eqb_eq in E. exfalso; apply Hx. rewrite E.
    now apply in_map.
  - destruct Hin as [->|Hin]; [now rewrite String.eqb_refl in E | now apply IH].
Qed.

Lemma mutateFirst_unique (i : string) (f : Batch.t -> Batch.t)
    (batches : list Batch.t) :
  NoDup (map Batch.id batches) ->
  mutateFirst (hasBatchId i) f batches
  = map (fun c => if hasBatchId i c then f c else c) batches.
Proof.
  induction batches as [|x l IH]; simpl; intros Hnd; [reflexivity|].
  inversion Hnd as [|? ? Hx Hl]; subst.
  destruct (hasBatchId i x) eqn:E.
  - f_equal. symmetry. erewrite map_ext_in; [apply map_id|].
    intros c Hc; simpl. destruct (hasBatchId i c) eqn:Ec; [|reflexivity].
    unfold hasBatchId in *. apply String.eqb_eq in E, Ec.
    exfalso; apply Hx. rewrite E, <- Ec. now apply in_map.
  - now rewrite IH.
Qed.

Lemma mutateFirst_keeps (i : string) (f : Batch.t -> Batch.t)
    (batches : list Batch.t) (c : Batch.t) :
  In c batches -> hasBatchId i c = false ->
  In c (mutateFirst (hasBatchId i) f batches).
Proof.
  induction batches as [|x l IH]; simpl; intros Hin Hc; [contradiction|].
  destruct Hin as [->|Hin].
  - rewrite Hc; now left.
  - destruct (hasBatchId i x); [now right | right; now apply IH].
Qed.

Lemma plan_ids (sorted : list Batch.t) :
  forall r a, In a (Spec.plan sorted r) -> In (batchId a) (map Batch.id sorted).
Proof.
  induction sorted as [|b rest IH]; intros r a; simpl; [contradiction|].
  destruct (r =? 0); simpl; [contradiction|].
  intros [<-|Ha]; [now left | right; eapply IH; eauto].
Qed.

(** With unique identifiers the loop computes the plan of the
    specification and drains exactly the planned batches. *)
Lemma releaseLoop_exact (sorted : list Batch.t) :
  forall batches r,
    0 <= r ->
    Forall (fun b => 0 < Batch.quantity b) sorted ->
    NoDup (map Batch.id sorted) ->
    NoDup (map Batch.id batches) ->
    (forall b, In b sorted -> In b batches) ->
    releaseLoop gen itemUnit sorted batches r
    = (map (Spec.drained gen itemUnit (Spec.plan sorted r)) batches,
       Spec.plan sorted r).
Proof.
  induction sorted as [|b rest IH]; intros batches r Hr Hpos Hnd Hndb Hin; simpl.
  - unfold Spec.drained; simpl. now rewrite map_id.
  - destruct (r <=? 0) eqn:Er.
    + apply Z.leb_le in Er. assert (r = 0) as -> by lia. simpl.
      unfold Spec.drained; simpl. now rewrite map_id.
    + apply Z.leb_gt in Er.
      assert (Er0 : (r =? 0) = false) by (apply Z.eqb_neq; lia).
      rewrite Er0.
      rewrite (find_by_id batches b Hndb (Hin b (or_introl eq_refl))).
      inversion Hpos as [|? ? Hb Hrest]; subst.
      inversion Hnd as [|? ? Hbn Hndr]; subst.
      set (can := Z.min (Batch.quantity b) r).
      assert (Hother : forall c, In c rest -> hasBatchId (Batch.id b) c = false).
      { intros c Hc. unfold hasBatchId. apply String.eqb_neq. intros Heq.
        apply Hbn. rewrite <- Heq. now apply in_map. }
      rewrite IH; try assumption.
      * f_equal. rewrite (mutateFirst_unique _ _ _ Hndb), map_map.
        apply map_ext. intros c. unfold Spec.drained at 2; simpl.
        unfold hasBatchId. rewrite String.eqb_sym.
        destruct (String.eqb (Batch.id b) (Batch.id c)) eqn:Ec; [|reflexivity].
        unfold Spec.drained. rewrite releaseFromBatch_id.
        destruct (find _ (Spec.plan rest (r - can))) as [a|] eqn:Fa; [|reflexivity].
        exfalso. apply find_some in Fa. destruct Fa as [Fa1 Fa2].
        apply String.eqb_eq in Fa2, Ec. apply Hbn.
        rewrite Ec, <- Fa2. eapply plan_ids; eauto.
      * subst can; lia.
      * rewrite <- (mutateFirst_map Batch.id (hasBatchId (Batch.id b))
                      (releaseFromBatch gen itemUnit can) batches) in Hndb;
          [exact Hndb | intros; apply releaseFromBatch_id].
      * intros c Hc. apply mutateFirst_keeps; [apply Hin; now right | now apply Hother].
Qed.

End ReleaseLoop.

Lemma mutateFirst_sum {A : Type} (g : A -> Z) (p : A -> bool) (f : A -> A)
    (l : list A) (x : A) :
  find p l = Some x ->
  sumOf g (mutateFirst p f l) = sumOf g l - g x + g (f x).
Proof.
  induction l as [|y l IH]; simpl; [discriminate|].
  destruct (p y).
  - intros [= ->]. rewrite !sumOf_cons. lia.
  - intros H. rewrite !sumOf_cons, IH by assumption. lia.
Qed.

(** What the loop drains from the batches is what it allocates. *)
Lemma releaseLoop_total (gen : option NotesGenerator) (u : string)
    (sorted : list Batch.t) :
  forall batches r,
    sumOf Batch.quantity (fst (releaseLoop gen u sorted batches r))
    = sumOf Batch.quantity batches
      - sumOf releasedQuantity (snd (releaseLoop gen u sorted batches r)).
Proof.
  induction sorted as [|b rest IH]; intros batches r; simpl.
  - unfold sumOf at 3; simpl. lia.
  - destruct (r <=? 0); [unfold sumOf at 3; simpl; lia|].
    destruct (find (hasBatchId (Batch.id b)) batches) as [orig|] eqn:F;
      [|apply IH].
    specialize (IH (mutateFirst (hasBatchId (Batch.id b))
                      (releaseFromBatch gen u (Z.min (Batch.quantity orig) r))
                      batches)
                   (r - Z.min (Batch.quantity orig) r)).
    destruct (releaseLoop gen u rest _ _) as [final affected]. simpl in *.
    rewrite IH, (mutateFirst_sum _ _ _ _ _ F), releaseFromBatch_quantity,
      sumOf_cons. simpl. lia.
Qed.


Lemma sumOf_nonneg (l : list Batch.t) :
  Forall (fun b => 0 < Batch.quantity b) l -> 0 <= sumOf Batch.quantity l.
Proof.
  induction 1 as [|b l Hb Hl IH]; [now rewrite sumOf_nil|].
  rewrite sumOf_cons; lia.
Qed.

Lemma plan_sum (sorted : list Batch.t) :
  forall r,
    Forall (fun b => 0 < Batch.quantity b) sorted ->
    0 <= r <= sumOf Batch.quantity sorted ->
    sumOf releasedQuantity (Spec.plan sorted r) = r.
Proof.
  induction sorted as [|b rest IH]; intros r Hpos Hr; simpl.
  - unfold sumOf in *; simpl in *. lia.
  - destruct (r =? 0) eqn:E.
    + apply Z.eqb_eq in E. unfold sumOf; simpl. lia.
    + apply Z.eqb_neq in E. inversion Hpos as [|? ? Hb Hrest]; subst.
      rewrite sumOf_cons in Hr. rewrite sumOf_cons; simpl.
      pose proof (sumOf_nonneg rest Hrest).
      rewrite IH; [lia | assumption | lia].
Qed.

Lemma plan_bounds (sorted : list Batch.t) :
  forall r,
    0 <= r ->
    Forall (fun b => 0 < Batch.quantity b) sorted ->
    Forall (fun a => exists b, In b sorted /\ Batch.id b = batchId a
                               /\ 0 < releasedQuantity a <= Batch.quantity b)
      (Spec.plan sorted r).
Proof.
  induction sorted as [|b rest IH]; intros r Hr Hpos; simpl; [constructor|].
  destruct (r =? 0) eqn:E; [constructor|].
  apply Z.eqb_neq in E. inversion Hpos as [|? ? Hb Hrest]; subst.
  constructor.
  - exists b; simpl. repeat split; [now left | lia | lia].
  - eapply Forall_impl; [|apply IH; [lia | assumption]].
    intros a (c & Hc & Hid & Hq). exists c.
    split; [now right | split; assumption].
Qed.

Lemma NoDup_ids_filter (f : Batch.t -> bool) (l : list Batch.t) :
  NoDup (map Batch.id l) -> NoDup (map Batch.id (filter f l)).
Proof.
  induction l as [|x l IH]; simpl; intros Hnd; [constructor|].
  inversion Hnd as [|? ? Hx Hl]; subst.
  destruct (f x); simpl; [|now apply IH].
  constructor; [|now apply IH].
  intros Hin. apply Hx. apply in_map_iff in Hin. destruct Hin as (c & Hc1 & Hc2).
  apply filter_In in Hc2. apply in_map_iff. exists c. tauto.
Qed.

Lemma sortedBatches_perm (strategy : ReleaseStrategy) (batches : list Batch.t) :
  Permutation (sortedBatches strategy batches) (filter isCandidate batches).
Proof. destruct strategy; apply sort_perm. Qed.

Lemma sortedBatches_positive (strategy : ReleaseStrategy) (batches : list Batch.t) :
  Forall (fun b => 0 < Batch.quantity b) (sortedBatches strategy batches).
Proof.
  eapply Permutation_Forall; [apply Permutation_sym, sortedBatches_perm|].
  apply Forall_forall. intros b Hb. apply filter_In in Hb.
  destruct Hb as [_ Hb]. unfold isCandidate in Hb. now apply Z.ltb_lt in Hb.
Qed.

Lemma sortedBatches_unique (strategy : ReleaseStrategy) (batches : list Batch.t) :
  NoDup (map Batch.id batches) ->
  NoDup (map Batch.id (sortedBatches strategy batches)).
Proof.
  intros Hnd. eapply Permutation_NoDup.
  - apply Permutation_map, Permutation_sym, sortedBatches_perm.
  - now apply NoDup_ids_filter.
Qed.

Lemma sortedBatches_incl (strategy : ReleaseStrategy) (batches : list Batch.t) :
  forall b, In b (sortedBatches strategy batches) -> In b batches.
Proof.
  intros b Hb. eapply Permutation_in in Hb; [|apply sortedBatches_perm].
  apply filter_In in Hb. tauto.
Qed.

Lemma sumOf_candidates (l : list Batch.t) :
  Spec.nonNegative l ->
  sumOf Batch.quantity (filter isCandidate l) = sumOf Batch.quantity l.
Proof.
  induction 1 as [|b l Hb Hl IH]; [reflexivity|]. simpl.
  unfold isCandidate at 1. destruct (0 <? Batch.quantity b) eqn:E.
  - now rewrite !sumOf_cons, IH.
  - apply Z.ltb_ge in E. rewrite sumOf_cons, IH. lia.
Qed.

Lemma totalAvailable_total (strategy : ReleaseStrategy) (item : StockItem.t) :
  Spec.nonNegative (StockItem.batches item) ->
  totalAvailable strategy item = Types.getTotalQuantity item.
Proof.
  intros H. unfold totalAvailable, Types.getTotalQuantity.
  rewrite (sumOf_perm _ _ _ (sortedBatches_perm strategy _)).
  now apply sumOf_candidates.
Qed.

Lemma find_mutateFirst {A : Type} (p : A -> bool) (y : A) (l : list A) (x : A) :
  find p l = Some x -> p y = true ->
  find p (mutateFirst p (fun _ => y) l) = Some y.
Proof.
  induction l as [|z l IH]; simpl; intros Hf Hy; [discriminate|].
  destruct (p z) eqn:E; simpl.
  - now rewrite Hy.
  - rewrite E. now apply IH.
Qed.

(** The form of a successful call of [modifyItemBatchesForRelease]. *)
Lemma modifyItemBatchesForRelease_resolved
    (today itemId : string) (q : Z) (gen : option NotesGenerator)
    (strategy : ReleaseStrategy) (store : Store) (item : StockItem.t) :
  find (hasItemId itemId) store = Some item ->
  q <= totalAvailable strategy item ->
  let loop :=
    releaseLoop gen (StockItem.unit item)
      (sortedBatches strategy (StockItem.batches item))
      (StockItem.batches item) q in
  let updated :=
    StockItem.withLastUpdated today (StockItem.withBatches (fst loop) item) in
  modifyItemBatchesForRelease today itemId q gen strategy store
  = (Resolved (updated, snd loop),
     mutateFirst (hasItemId itemId) (fun _ => updated) store).
Proof.
  intros Hf Hq loop updated. unfold modifyItemBatchesForRelease.
  unfold getItemsFromStorage, saveItemsToStorage. rewrite Hf.
  unfold totalAvailable in Hq.
  destruct (_ <? q) eqn:E; [apply Z.ltb_lt in E; lia|].
  subst updated loop. now destruct (releaseLoop _ _ _ _ _).
Qed.

Lemma modifyItemBatchesForRelease_short
    (today itemId : string) (q : Z) (gen : option NotesGenerator)
    (strategy : ReleaseStrategy) (store : Store) (item : StockItem.t) :
  find (hasItemId itemId) store = Some item ->
  totalAvailable strategy item < q ->
  modifyItemBatchesForRelease today itemId q gen strategy store
  = (Rejected (NotEnoughStock (totalAvailable strategy item) q), store).
Proof.
  intros Hf Hq. unfold modifyItemBatchesForRelease, getItemsFromStorage.
  rewrite Hf. unfold totalAvailable in Hq. apply Z.ltb_lt in Hq.
  now rewrite Hq.
Qed.

(** The allocations of a request that is not negative and within what is
    available, on distinct batch identifiers. *)
Lemma release_plan_conserves
    (today itemId : string) (q : Z) (gen : option NotesGenerator)
    (strategy : ReleaseStrategy) (store : Store) (item : StockItem.t) :
  find (hasItemId itemId) store = Some item ->
  Spec.uniqueIds (StockItem.batches item) ->
  0 <= q ->
  q <= totalAvailable strategy item ->
  exists updated store',
    modifyItemBatchesForRelease today itemId q gen strategy store
    = (Resolved
         (updated, Spec.plan (sortedBatches strategy (StockItem.batches item)) q),
       store')
    /\ sumOf releasedQuantity
         (Spec.plan (sortedBatches strategy (StockItem.batches item)) q)
       = q.
Proof.
  intros Hf Hu Hq0 Hq.
  rewrite (modifyItemBatchesForRelease_resolved _ _ _ _ _ _ _ Hf Hq).
  rewrite releaseLoop_exact; try assumption;
    [| apply sortedBatches_positive | now apply sortedBatches_unique
     | apply sortedBatches_incl].
  eexists _, _. split; [reflexivity|].
  apply plan_sum; [apply sortedBatches_positive | split; assumption].
Qed.

(** ** Over-release is rejected and nothing is written *)

(** C3. A request above the total available stock of a stored item is
    rejected with the not-enough-stock error and the stored collection is
    the same afterwards, so the item with every batch quantity, every batch
    note and its [lastUpdated] is as before. The total available is the
    sum over the batches of positive quantity, which is the item's total
    quantity when no batch quantity is negative. *)
Theorem excessive_release_rejected_without_mutation :
  forall (today itemId : string) (q : Z) (gen : option NotesGenerator)
         (strategy : ReleaseStrategy) (store : Store) (item : StockItem.t),
    find (hasItemId itemId) store = Some item ->
    totalAvailable strategy item < q ->
    modifyItemBatchesForRelease today itemId q gen strategy store
    = (Rejected (NotEnoughStock (totalAvailable strategy item) q), store)
    /\ find (hasItemId itemId)
         (snd (modifyItemBatchesForRelease today itemId q gen strategy store))
       = Some item
    /\ (Spec.nonNegative (StockItem.batches item) ->
        totalAvailable strategy item = Types.getTotalQuantity item).
Proof.
  intros today itemId q gen strategy store item Hf Hq.
  pose proof (modifyItemBatchesForRelease_short today itemId q gen strategy
                store item Hf Hq) as E.
  split; [exact E|]. split; [now rewrite E|].
  apply totalAvailable_total.
Qed.

Lemma excessive_release_rejected_without_mutation_witness :
  let b1 := Batch.mk "b1" 10 None None "2025-01-05" (Some "lot 7"%string) in
  let b2 := Batch.mk "b2" 10 (Some "2025-03-01"%string) None "2025-01-06" None in
  let item :=
    StockItem.mk "A" "Gauze" GENERAL_SUPPLIES "packs" 50 [b1; b2] "2025-01-06"
      None None in
  modifyItemBatchesForRelease "2025-01-10" "A" 21 None FEFO [item]
  = (Rejected (NotEnoughStock 20 21), [item]).
Proof.
  intros b1 b2 item.
  apply (excessive_release_rejected_without_mutation
           "2025-01-10" "A" 21 None FEFO [item] item);
    [reflexivity | vm_compute; reflexivity].
Defined.

(** ** Conservation of the released quantity *)

(** C2 as stated fails for a negative request: the call succeeds (the
    request does not exceed what is available), the loop stops at once and
    the allocations are empty, so they do not sum to the request. *)
Lemma negative_request_allocates_nothing :
  let b1 := Batch.mk "b1" 10 None None "2025-01-05" None in
  let item :=
    StockItem.mk "A" "Gauze" GENERAL_SUPPLIES "packs" 50 [b1] "2025-01-06"
      None None in
  let q := -5 in
  q <= totalAvailable FEFO item
  /\ exists updated affected store',
       modifyItemBatchesForRelease "2025-01-10" "A" q None FEFO [item]
       = (Resolved (updated, affected), store')
       /\ sumOf releasedQuantity affected <> q.
Proof.
  intros b1 item q. split; [vm_compute; discriminate|].
  eexists _, _, _. split; [vm_compute; reflexivity|].
  vm_compute; discriminate.
Qed.

(** Why the identifiers must be distinct, as [types.ts] says they are:
    when two batches carry the same identifier the second iteration finds
    the first batch again, now empty, and allocates nothing from it. *)
Lemma shared_identifier_allocates_short :
  let b1 := Batch.mk "b" 5 None None "2025-01-05" None in
  let b2 := Batch.mk "b" 5 None None "2025-01-06" None in
  let item :=
    StockItem.mk "A" "Gauze" GENERAL_SUPPLIES "packs" 50 [b1; b2]
      "2025-01-06" None None in
  fst (modifyItemBatchesForRelease "2025-01-10" "A" 10 None FEFO [item])
  = Resolved
      (StockItem.mk "A" "Gauze" GENERAL_SUPPLIES "packs" 50
         [Batch.mk "b" 0 None None "2025-01-05" None; b2] "2025-01-10"
         None None,
       [mkAffected "b" 5; mkAffected "b" 0]).
Proof. vm_compute. reflexivity. Qed.

(** C2, amended. For a request that is not negative and at most the
    total available, on an item whose batch identifiers are distinct, the
    call succeeds; its allocations are the plan of the specification over
    the sorted candidate batches (drain [min(quantity, remaining)] from
    each in order, stop when nothing remains); they sum to the request;
    each is positive, names a batch of the item and does not exceed the
    quantity that batch had before. *)
Theorem release_allocations_sum_to_request :
  forall (today itemId : string) (q : Z) (gen : option NotesGenerator)
         (strategy : ReleaseStrategy) (store : Store) (item : StockItem.t),
    find (hasItemId itemId) store = Some item ->
    Spec.uniqueIds (StockItem.batches item) ->
    0 <= q ->
    q <= totalAvailable strategy item ->
    exists updated affected store',
      modifyItemBatchesForRelease today itemId q gen strategy store
      = (Resolved (updated, affected), store')
      /\ affected
         = Spec.plan (sortedBatches strategy (StockItem.batches item)) q
      /\ sumOf releasedQuantity affected = q
      /\ Forall (fun a =>
                   exists b, In b (StockItem.batches item)
                             /\ Batch.id b = batchId a
                             /\ 0 < releasedQuantity a <= Batch.quantity b)
           affected.
Proof.
  intros today itemId q gen strategy store item Hf Hu Hq0 Hq.
  rewrite (modifyItemBatchesForRelease_resolved _ _ _ _ _ _ _ Hf Hq).
  rewrite releaseLoop_exact; try assumption;
    [| apply sortedBatches_positive | now apply sortedBatches_unique
     | apply sortedBatches_incl].
  eexists _, _, _. split; [reflexivity|]. simpl. split; [reflexivity|].
  split.
  - apply plan_sum; [apply sortedBatches_positive | split; assumption].
  - eapply Forall_impl;
      [| apply plan_bounds; [assumption | apply sortedBatches_positive]].
    intros a (b & Hb & Hid & Hr). exists b. split; [|split; assumption].
    eapply sortedBatches_incl; eauto.
Qed.

Lemma release_allocations_sum_to_request_witness :
  let b1 := Batch.mk "b1" 30 (Some "2025-06-01"%string) None "2025-01-05" None in
  let b2 := Batch.mk "b2" 20 (Some "2025-01-01"%string) None "2025-01-06" None in
  let item :=
    StockItem.mk "A" "Gauze" GENERAL_SUPPLIES "packs" 50 [b1; b2] "2025-01-06"
      None None in
  exists updated affected store',
    modifyItemBatchesForRelease "2025-01-10" "A" 25 None FEFO [item]
    = (Resolved (updated, affected), store')
    /\ affected = [mkAffected "b2" 20; mkAffected "b1" 5]
    /\ sumOf releasedQuantity affected = 25.
Proof.
  intros b1 b2 item.
  destruct (release_allocations_sum_to_request
              "2025-01-10" "A" 25 None FEFO [item] item)
    as (updated & affected & store' & H1 & H2 & H3 & _).
  - reflexivity.
  - unfold Spec.uniqueIds; simpl.
    repeat constructor; simpl; intuition discriminate.
  - lia.
  - vm_compute; discriminate.
  - exists updated, affected, store'. split; [exact H1|]. split; [|exact H3].
    rewrite H2. reflexivity.
Defined.

(** ** Batch notes only grow *)



Lemma Forall2_same {A : Type} (R : A -> A -> Prop) (l : list A) :
  (forall x, R x x) -> Forall2 R l l.
Proof. intros H; induction l; constructor; auto. Qed.

Lemma Forall2_compose {A : Type} (R : A -> A -> Prop) (l1 l2 l3 : list A) :
  (forall x y z, R x y -> R y z -> R x z) ->
  Forall2 R l1 l2 -> Forall2 R l2 l3 -> Forall2 R l1 l3.
Proof.
  intros Ht H12; revert l3.
  induction H12 as [|x y l1 l2 Hxy H12 IH]; intros l3 H23;
    inversion H23; subst; constructor; eauto.
Qed.



Lemma releaseLoop_nothing_requested (gen : option NotesGenerator) (u : string)
    (sorted batches : list Batch.t) (r : Z) :
  r <= 0 -> releaseLoop gen u sorted batches r = (batches, []).
Proof.
  intros Hr. destruct sorted; simpl; [reflexivity|].
  apply Z.leb_le in Hr. now rewrite Hr.
Qed.


(** A successful call can only come from a request within what is
    available. *)
Lemma resolved_within_available
    (today itemId : string) (q : Z) (gen : option NotesGenerator)
    (strategy : ReleaseStrategy) (store store' : Store) (item : StockItem.t)
    (r : StockItem.t * list Affected) :
  find (hasItemId itemId) store = Some item ->
  modifyItemBatchesForRelease today itemId q gen strategy store
  = (Resolved r, store') ->
  q <= totalAvailable strategy item.
Proof.
  intros Hf H. destruct (Z.lt_ge_cases (totalAvailable strategy item) q) as [Hlt|]; [|assumption].
  rewrite (modifyItemBatchesForRelease_short
             today itemId q gen strategy store item Hf Hlt) in H.
  discriminate.
Qed.

Lemma resolved_inj {A : Type} (a b : A) : Resolved a = Resolved b -> a = b.
Proof. congruence. Qed.

(** A successful call stores the item it returns, drained by what it
    allocated. *)
Lemma modify_resolved_facts
    (today itemId : string) (q : Z) (gen : option NotesGenerator)
    (strategy : ReleaseStrategy) (store store' : Store)
    (item updated : StockItem.t) (affected : list Affected) :
  find (hasItemId itemId) store = Some item ->
  modifyItemBatchesForRelease today itemId q gen strategy store
  = (Resolved (updated, affected), store') ->
  find (hasItemId itemId) store' = Some updated
  /\ Types.getTotalQuantity updated
     = Types.getTotalQuantity item - sumOf releasedQuantity affected.
Proof.
  intros Hf H.
  pose proof (resolved_within_available _ _ _ _ _ _ _ _ _ Hf H) as Hq.
  rewrite (modifyItemBatchesForRelease_resolved _ _ _ _ _ _ _ Hf Hq) in H.
  apply pair_equal_spec in H. destruct H as [H <-].
  apply resolved_inj, pair_equal_spec in H. destruct H as [<- <-]. split.
  - eapply find_mutateFirst; [exact Hf|].
    apply find_some in Hf. exact (proj2 Hf).
  - unfold Types.getTotalQuantity. simpl. apply releaseLoop_total.
Qed.



(** ** The FEFO order *)

Lemma isDate_getTime (d : string) :
  JsDate.isDate d = true -> JsDate.getTime d = Some (Spec.dayOf d).
Proof.
  unfold JsDate.isDate, Spec.dayOf.
  destruct (JsDate.getTime d); [reflexivity | discriminate].
Qed.

Lemma isDate_truthy (d : string) :
  JsDate.isDate d = true -> truthy (Some d) = true.
Proof. destruct d; [discriminate | reflexivity]. Qed.

Ltac dated_fields :=
  repeat match goal with
    | H : Spec.datedBatch _ = true |- _ =>
        unfold Spec.datedBatch in H; apply andb_prop in H; destruct H
    end.

Lemma fefoCompare_cases (x y : Batch.t) :
  Spec.datedBatch x = true -> Spec.datedBatch y = true ->
  sortValue (fefoCompare x y)
  = match Batch.expiryDate x, Batch.expiryDate y with
    | Some ex, Some ey =>
        if Spec.dayOf ex - Spec.dayOf ey =? 0
        then Spec.dayOf (Batch.dateAdded x) - Spec.dayOf (Batch.dateAdded y)
        else Spec.dayOf ex - Spec.dayOf ey
    | Some _, None => -1
    | None, Some _ => 1
    | None, None =>
        Spec.dayOf (Batch.dateAdded x) - Spec.dayOf (Batch.dateAdded y)
    end.
Proof.
  intros Hx Hy. dated_fields. unfold fefoCompare, dateAddedDiff.
  rewrite (isDate_getTime (Batch.dateAdded x)), (isDate_getTime (Batch.dateAdded y))
    by assumption.
  destruct (Batch.expiryDate x) as [ex|], (Batch.expiryDate y) as [ey|];
    rewrite ?(isDate_truthy ex), ?(isDate_truthy ey) by assumption;
    simpl; try reflexivity.
  rewrite (isDate_getTime ex), (isDate_getTime ey) by assumption. simpl.
  now destruct (Spec.dayOf ex - Spec.dayOf ey =? 0).
Qed.

Lemma fefoCompare_le (x y : Batch.t) :
  Spec.datedBatch x = true -> Spec.datedBatch y = true ->
  sortValue (fefoCompare x y) <= 0 -> Spec.fefoOrder x y.
Proof.
  intros Hx Hy. rewrite (fefoCompare_cases x y Hx Hy). unfold Spec.fefoOrder.
  destruct (Batch.expiryDate x), (Batch.expiryDate y); try lia; try tauto.
  destruct (_ =? 0) eqn:E; [apply Z.eqb_eq in E | apply Z.eqb_neq in E]; lia.
Qed.

Lemma fefoCompare_gt (x y : Batch.t) :
  Spec.datedBatch x = true -> Spec.datedBatch y = true ->
  0 < sortValue (fefoCompare x y) -> Spec.fefoOrder y x.
Proof.
  intros Hx Hy. rewrite (fefoCompare_cases x y Hx Hy). unfold Spec.fefoOrder.
  destruct (Batch.expiryDate x), (Batch.expiryDate y); try lia; try tauto.
  destruct (_ =? 0) eqn:E; [apply Z.eqb_eq in E | apply Z.eqb_neq in E]; lia.
Qed.

Lemma fefoOrder_trans (x y z : Batch.t) :
  Spec.fefoOrder x y -> Spec.fefoOrder y z -> Spec.fefoOrder x z.
Proof.
  unfold Spec.fefoOrder.
  destruct (Batch.expiryDate x), (Batch.expiryDate y), (Batch.expiryDate z);
    try tauto; lia.
Qed.

Lemma sortedBatches_fefo (batches : list Batch.t) :
  forallb Spec.datedBatch batches = true ->
  StronglySorted Spec.fefoOrder (sortedBatches FEFO batches).
Proof.
  intros Hd. unfold sortedBatches.
  apply (sort_sorted fefoCompare Spec.fefoOrder
           (fun b => Spec.datedBatch b = true)).
  - apply fefoCompare_le.
  - apply fefoCompare_gt.
  - intros x y z _ _ _. apply fefoOrder_trans.
  - apply Forall_forall. intros b Hb. apply filter_In in Hb.
    rewrite forallb_forall in Hd. apply Hd. tauto.
Qed.

Lemma find_present (i : string) (batches : list Batch.t) :
  In i (map Batch.id batches) -> find (hasBatchId i) batches <> None.
Proof.
  induction batches as [|x l IH]; simpl; [tauto|].
  intros [E|Hin]; unfold hasBatchId at 1.
  - rewrite E, String.eqb_refl. discriminate.
  - destruct (String.eqb (Batch.id x) i); [discriminate | now apply IH].
Qed.

(** The allocations name the sorted batches in their order. *)
Lemma releaseLoop_follows_order (gen : option NotesGenerator) (u : string)
    (sorted : list Batch.t) :
  forall batches r,
    (forall b, In b sorted -> In (Batch.id b) (map Batch.id batches)) ->
    exists k,
      map batchId (snd (releaseLoop gen u sorted batches r))
      = firstn k (map Batch.id sorted).
Proof.
  induction sorted as [|b rest IH]; intros batches r Hin; simpl.
  - exists 0%nat. reflexivity.
  - destruct (r <=? 0); [exists 0%nat; reflexivity|].
    destruct (find (hasBatchId (Batch.id b)) batches) as [orig|] eqn:F.
    + destruct (IH (mutateFirst (hasBatchId (Batch.id b))
                      (releaseFromBatch gen u (Z.min (Batch.quantity orig) r))
                      batches)
                   (r - Z.min (Batch.quantity orig) r)) as [k Hk].
      * intros c Hc. rewrite mutateFirst_map;
          [apply Hin; now right | intros; apply releaseFromBatch_id].
      * destruct (releaseLoop gen u rest _ _) as [final affected].
        exists (S k). simpl in *. now rewrite Hk.
    + exfalso. revert F. apply find_present, Hin. now left.
Qed.

(** C1. On batches whose dates are calendar dates, the FEFO order of the
    depletion lists exactly the candidate batches (quantity above 0),
    sorted by expiry date ascending with the batches without expiry date
    after all the others and ties broken by [dateAdded] ascending; a
    successful release of a positive quantity allocates from these batches
    in that order. On [{qty:10, no expiry}, {qty:10, exp:2025-03-01}] a
    request of 15 takes 10 from the dated batch and then 5 from the other
    one. *)
Theorem fefo_orders_candidates_by_expiry :
  (forall batches : list Batch.t,
      forallb Spec.datedBatch batches = true ->
      Permutation (sortedBatches FEFO batches) (filter isCandidate batches)
      /\ StronglySorted Spec.fefoOrder (sortedBatches FEFO batches))
  /\ (forall (today itemId : string) (q : Z) (gen : option NotesGenerator)
             (store : Store) (item : StockItem.t),
         find (hasItemId itemId) store = Some item ->
         0 < q -> q <= totalAvailable FEFO item ->
         exists updated affected store' k,
           modifyItemBatchesForRelease today itemId q gen FEFO store
           = (Resolved (updated, affected), store')
           /\ map batchId affected
              = firstn k (map Batch.id
                            (sortedBatches FEFO (StockItem.batches item))))
  /\ (forall (today itemId id1 id2 added1 added2 : string)
             (supplier1 supplier2 notes1 notes2 : option string)
             (gen : option NotesGenerator) (store : Store) (item : StockItem.t),
         find (hasItemId itemId) store = Some item ->
         id1 <> id2 ->
         StockItem.batches item
         = [Batch.mk id1 10 None supplier1 added1 notes1;
            Batch.mk id2 10 (Some "2025-03-01"%string) supplier2 added2 notes2] ->
         exists updated store',
           modifyItemBatchesForRelease today itemId 15 gen FEFO store
           = (Resolved (updated, [mkAffected id2 10; mkAffected id1 5]), store')).
Proof.
  split; [|split].
  - intros batches Hd.
    split; [apply sortedBatches_perm | now apply sortedBatches_fefo].
  - intros today itemId q gen store item Hf Hq0 Hq.
    rewrite (modifyItemBatchesForRelease_resolved _ _ _ _ _ _ _ Hf Hq).
    destruct (releaseLoop_follows_order gen (StockItem.unit item)
                (sortedBatches FEFO (StockItem.batches item))
                (StockItem.batches item) q) as [k Hk].
    + intros b Hb. apply in_map. eapply sortedBatches_incl; eauto.
    + eexists _, _, _, k. split; [reflexivity | exact Hk].
  - intros today itemId id1 id2 added1 added2 supplier1 supplier2 notes1 notes2
      gen store item Hf Hne Hb.
    assert (E12 : String.eqb id1 id2 = false) by now apply String.eqb_neq.
    assert (Hq : 15 <= totalAvailable FEFO item).
    { unfold totalAvailable. rewrite Hb. vm_compute. discriminate. }
    rewrite (modifyItemBatchesForRelease_resolved _ _ _ _ _ _ _ Hf Hq).
    rewrite Hb. eexists _, _. f_equal. f_equal.
    cbn. unfold hasBatchId; cbn. rewrite E12, !String.eqb_refl. cbn.
    unfold hasBatchId; cbn. rewrite !String.eqb_refl. reflexivity.
Qed.

(** ** Calendar dates and their strings *)

Lemma digitVal_spec (c : ascii) (v : Z) :
  JsDate.digitVal c = Some v -> v = Z.of_N (N_of_ascii c) - 48 /\ 0 <= v <= 9.
Proof.
  unfold JsDate.digitVal.
  destruct (_ && _) eqn:E; [|discriminate]. intros [= <-].
  apply andb_prop in E. destruct E as [E1 E2].
  apply Z.leb_le in E1, E2. lia.
Qed.

Lemma digit_compare (c1 c2 : ascii) (v1 v2 : Z) :
  JsDate.digitVal c1 = Some v1 -> JsDate.digitVal c2 = Some v2 ->
  Ascii.compare c1 c2 = (v1 ?= v2).
Proof.
  intros H1 H2. apply digitVal_spec in H1, H2. unfold Ascii.compare.
  rewrite <- N2Z.inj_compare.
  destruct (Z.compare_spec v1 v2);
    [apply Z.compare_eq_iff | apply Z.compare_lt_iff | apply Z.compare_gt_iff]; lia.
Qed.

Lemma some_eq {A : Type} (x y : A) : Some x = Some y -> x = y.
Proof. congruence. Qed.

Lemma isDash_eq c : JsDate.isDash c = true -> c = "-"%char.
Proof. unfold JsDate.isDash. apply Ascii.eqb_eq. Qed.

Ltac open_digits H :=
  repeat match type of H with
    | context [JsDate.digitVal ?c] =>
        let v := fresh "v" in
        let E := fresh "E" in
        destruct (JsDate.digitVal c) as [v|] eqn:E; [|discriminate H]
    end.

Lemma parseFields_compare (a b : string) (fa fb : Z * Z * Z) :
  JsDate.parseFields a = Some fa -> JsDate.parseFields b = Some fb ->
  String.compare a b = (Spec.dateKey fa ?= Spec.dateKey fb)
  /\ Spec.validFields fa /\ Spec.validFields fb.
Proof.
  intros Ha Hb. unfold JsDate.parseFields in Ha, Hb.
  destruct a as [|y1 [|y2 [|y3 [|y4 [|s1 [|m1 [|m2 [|s2 [|d1 [|d2 [|? ?]]]]]]]]]]];
    try discriminate Ha.
  destruct b as [|z1 [|z2 [|z3 [|z4 [|t1 [|n1 [|n2 [|t2 [|e1 [|e2 [|? ?]]]]]]]]]]];
    try discriminate Hb.
  destruct (JsDate.isDash s1 && JsDate.isDash s2) eqn:Da; [|discriminate].
  destruct (JsDate.isDash t1 && JsDate.isDash t2) eqn:Db; [|discriminate].
  apply andb_prop in Da, Db. destruct Da as [Da1 Da2], Db as [Db1 Db2].
  apply isDash_eq in Da1, Da2, Db1, Db2. subst.
  unfold JsDate.num4, JsDate.num2 in Ha, Hb.
  open_digits Ha. open_digits Hb.
  cbv beta iota zeta in Ha, Hb.
  destruct (_ && _) eqn:Ra in Ha; [|discriminate].
  destruct (_ && _) eqn:Rb in Hb; [|discriminate].
  apply some_eq in Ha, Hb. subst fa fb.
  repeat match goal with
         | H : JsDate.digitVal _ = Some _ |- _ =>
             pose proof (proj2 (digitVal_spec _ _ H)); revert H
         end.
  intros.
  repeat (apply andb_prop in Ra; destruct Ra as [Ra ?]).
  repeat (apply andb_prop in Rb; destruct Rb as [Rb ?]).
  repeat match goal with
         | H : (_ <=? _) = true |- _ => apply Z.leb_le in H
         end.
  split; [|unfold Spec.validFields; cbv beta iota zeta; lia].
  cbn [String.compare].
  repeat match goal with
         | |- context [Ascii.compare ?c1 ?c2] =>
             first [ erewrite (digit_compare c1 c2) by eassumption
                   | change (Ascii.compare c1 c2) with Eq ]
         end.
  unfold Spec.dateKey; cbv beta iota zeta.
  repeat match goal with
         | |- context [match (?x ?= ?y) with _ => _ end] =>
             destruct (Z.compare_spec x y)
         end;
    symmetry;
    first [ apply Z.compare_eq_iff; lia | apply Z.compare_lt_iff; lia
          | apply Z.compare_gt_iff; lia ].
Qed.

Lemma dayFromYear_next (y : Z) :
  JsDate.dayFromYear (y + 1)
  = JsDate.dayFromYear y + 365 + (if JsDate.isLeap y then 1 else 0).
Proof.
  unfold JsDate.dayFromYear, JsDate.isLeap.
  destruct (y mod 4 =? 0) eqn:E4, (y mod 100 =? 0) eqn:E100,
           (y mod 400 =? 0) eqn:E400; cbn [andb orb negb];
    rewrite ?Z.eqb_eq, ?Z.eqb_neq in *;
    Z.div_mod_to_equations; lia.
Qed.

Lemma dayFromYear_mono (y1 y2 : Z) :
  y1 <= y2 -> JsDate.dayFromYear y1 <= JsDate.dayFromYear y2.
Proof.
  intros H. replace y2 with (y1 + Z.of_nat (Z.to_nat (y2 - y1))) by lia.
  generalize (Z.to_nat (y2 - y1)) as n. clear H y2.
  induction n as [|n IH]; [rewrite Z.add_0_r; lia|].
  replace (y1 + Z.of_nat (S n)) with (y1 + Z.of_nat n + 1) by lia.
  rewrite dayFromYear_next. destruct (JsDate.isLeap _); lia.
Qed.

Lemma daysInMonth_range (y m : Z) : 28 <= JsDate.daysInMonth y m <= 31.
Proof.
  unfold JsDate.daysInMonth.
  destruct (m =? 2); [destruct (JsDate.isLeap y); lia|].
  destruct (_ || _); lia.
Qed.

Ltac month_cases m :=
  let H := fresh in
  assert (H : m = 1 \/ m = 2 \/ m = 3 \/ m = 4 \/ m = 5 \/ m = 6 \/ m = 7
              \/ m = 8 \/ m = 9 \/ m = 10 \/ m = 11 \/ m = 12) by lia;
  repeat destruct H as [H|H]; subst m.

Lemma monthStart_next (y m : Z) :
  1 <= m <= 11 ->
  JsDate.monthStart y (m + 1) = JsDate.monthStart y m + JsDate.daysInMonth y m.
Proof.
  intros Hm. month_cases m; try lia;
    cbn [Z.add Pos.add Pos.succ Pos.add_carry];
    unfold JsDate.monthStart, JsDate.daysInMonth;
    generalize (JsDate.isLeap y) as l; intros l;
    cbv [Z.eqb Pos.eqb orb]; destruct l; lia.
Qed.

Lemma monthStart_mono (y m1 m2 : Z) :
  1 <= m1 -> m1 <= m2 -> m2 <= 12 ->
  JsDate.monthStart y m1 <= JsDate.monthStart y m2.
Proof.
  intros H1 H12 H2.
  replace m2 with (m1 + Z.of_nat (Z.to_nat (m2 - m1))) in * by lia.
  revert H2. generalize (Z.to_nat (m2 - m1)) as n. clear H12.
  induction n as [|n IH]; intros H2; [rewrite Z.add_0_r; lia|].
  replace (m1 + Z.of_nat (S n)) with (m1 + Z.of_nat n + 1) in * by lia.
  rewrite monthStart_next by lia.
  pose proof (daysInMonth_range y (m1 + Z.of_nat n)). 
  assert (JsDate.monthStart y m1 <= JsDate.monthStart y (m1 + Z.of_nat n)) by (apply IH; lia).
  lia.
Qed.

Lemma year_offset_bound (y m d : Z) :
  1 <= m <= 12 -> 1 <= d <= JsDate.daysInMonth y m ->
  0 <= JsDate.monthStart y m + (d - 1)
    <= 364 + (if JsDate.isLeap y then 1 else 0).
Proof.
  intros Hm Hd. month_cases m; unfold JsDate.monthStart, JsDate.daysInMonth in *;
    revert Hd; generalize (JsDate.isLeap y) as l; intros l;
    cbv [Z.eqb Pos.eqb orb]; destruct l; lia.
Qed.

Lemma dayNumber_strict (fa fb : Z * Z * Z) :
  Spec.validFields fa -> Spec.validFields fb -> Spec.dateKey fa < Spec.dateKey fb ->
  Spec.dayOfFields fa < Spec.dayOfFields fb.
Proof.
  destruct fa as [[ya ma] da], fb as [[yb mb] db].
  unfold Spec.validFields, Spec.dateKey, Spec.dayOfFields, JsDate.dayNumber.
  intros (Hya & Hma & Hda) (Hyb & Hmb & Hdb) Hk.
  pose proof (daysInMonth_range ya ma). pose proof (daysInMonth_range yb mb).
  assert (C : ya < yb \/ (ya = yb /\ ma < mb) \/ (ya = yb /\ ma = mb /\ da < db))
    by lia.
  destruct C as [C|[[-> C]|(-> & -> & C)]].
  - pose proof (year_offset_bound ya ma da Hma Hda).
    pose proof (year_offset_bound yb mb db Hmb Hdb).
    pose proof (dayFromYear_next ya).
    pose proof (dayFromYear_mono (ya + 1) yb ltac:(lia)). lia.
  - pose proof (monthStart_next yb ma ltac:(lia)).
    pose proof (monthStart_mono yb (ma + 1) mb ltac:(lia) ltac:(lia) ltac:(lia)).
    lia.
  - lia.
Qed.

Lemma getTime_fields (d : string) :
  JsDate.isDate d = true ->
  exists f, JsDate.parseFields d = Some f
            /\ Spec.dayOf d = Spec.dayOfFields f * JsDate.msPerDay.
Proof.
  unfold JsDate.isDate, Spec.dayOf, JsDate.getTime.
  destruct (JsDate.parseFields d) as [[[y m] dd]|]; [|discriminate].
  intros _. eexists; split; reflexivity.
Qed.

(** On calendar dates in the [YYYY-MM-DD] form, the order of the strings is
    the order of the days. *)
Lemma date_leb_iff (a b : string) :
  JsDate.isDate a = true -> JsDate.isDate b = true ->
  (String.leb a b = true <-> Spec.dayOf a <= Spec.dayOf b).
Proof.
  intros Ha Hb.
  destruct (getTime_fields a Ha) as (fa & Pa & Da).
  destruct (getTime_fields b Hb) as (fb & Pb & Db).
  destruct (parseFields_compare a b fa fb Pa Pb) as (Hc & Va & Vb).
  destruct (parseFields_compare b a fb fa Pb Pa) as (Hc' & _ & _).
  unfold String.leb. rewrite Hc, Da, Db. unfold JsDate.msPerDay.
  destruct (Z.compare_spec (Spec.dateKey fa) (Spec.dateKey fb)) as [E|L|G].
  - assert (fa = fb).
    { destruct fa as [[ya ma] da], fb as [[yb mb] db].
      unfold Spec.validFields, Spec.dateKey in *.
      pose proof (daysInMonth_range ya ma). pose proof (daysInMonth_range yb mb).
      assert (ya = yb) by lia. assert (ma = mb) by lia. assert (da = db) by lia.
      congruence. }
    subst fb. split; [lia | reflexivity].
  - pose proof (dayNumber_strict fa fb Va Vb L). split; [lia | reflexivity].
  - pose proof (dayNumber_strict fb fa Vb Va ltac:(lia)).
    split; [discriminate | lia].
Qed.

(** ** Soonest expiry *)

Lemma expiryCompare_dates (a b : string) :
  JsDate.isDate a = true -> JsDate.isDate b = true ->
  sortValue (Types.expiryCompare a b) = Spec.dayOf a - Spec.dayOf b.
Proof.
  intros Ha Hb. unfold Types.expiryCompare.
  now rewrite (isDate_getTime a Ha), (isDate_getTime b Hb).
Qed.

Lemma active_expiries_sorted (l : list string) :
  Forall (fun d => JsDate.isDate d = true) l ->
  StronglySorted (fun a b => Spec.dayOf a <= Spec.dayOf b)
    (sort Types.expiryCompare l).
Proof.
  apply (sort_sorted Types.expiryCompare (fun a b => Spec.dayOf a <= Spec.dayOf b)
           (fun d => JsDate.isDate d = true)).
  - intros x y Hx Hy. rewrite (expiryCompare_dates x y Hx Hy). lia.
  - intros x y Hx Hy. rewrite (expiryCompare_dates x y Hx Hy). lia.
  - intros x y z _ _ _. lia.
Qed.

(** What the filter of [getSoonestExpiryDate] keeps, in calendar terms. *)
Lemma isActiveBatch_spec (today : string) (b : Batch.t) :
  JsDate.isDate today = true -> Spec.datedBatch b = true ->
  (Types.isActiveBatch today b = true
   <-> exists e, Spec.activeExpiry today b e).
Proof.
  intros Ht Hb. unfold Types.isActiveBatch, Spec.activeExpiry, Types.strGeb.
  dated_fields. destruct (Batch.expiryDate b) as [e|]; cbv [orEmpty].
  - rewrite (isDate_truthy e) by assumption.
    rewrite andb_true_r, andb_true_iff, Z.ltb_lt.
    rewrite (date_leb_iff today e) by assumption.
    split.
    + intros [H1 H2]. exists e. auto.
    + intros (e' & H1 & H2 & H3). injection H2 as <-. auto.
  - change (truthy None) with false.
    rewrite andb_false_r. split; [discriminate|].
    intros (e & _ & Hnone & _). discriminate.
Qed.

Lemma active_expiries (today : string) (batches : list Batch.t) (d : string) :
  JsDate.isDate today = true -> forallb Spec.datedBatch batches = true ->
  (In d (map (fun batch => orEmpty (Batch.expiryDate batch))
           (filter (Types.isActiveBatch today) batches))
   <-> exists b, In b batches /\ Spec.activeExpiry today b d).
Proof.
  intros Ht Hd. rewrite forallb_forall in Hd. rewrite in_map_iff. split.
  - intros (b & Hb1 & Hb2). apply filter_In in Hb2. destruct Hb2 as [Hin Hact].
    apply (isActiveBatch_spec today b Ht (Hd b Hin)) in Hact.
    destruct Hact as (e & He). exists b. split; [exact Hin|].
    destruct He as (H1 & H2 & H3). rewrite H2 in Hb1. simpl in Hb1.
    subst e. repeat split; assumption.
  - intros (b & Hin & He). exists b. split.
    + destruct He as (_ & H2 & _). now rewrite H2.
    + apply filter_In. split; [exact Hin|].
      apply (isActiveBatch_spec today b Ht (Hd b Hin)). now exists d.
Qed.

(** C6. With calendar dates, [getSoonestExpiryDate] returns the expiry
    date of a batch that has stock and does not expire strictly before
    today, and no such batch expires earlier; it returns nothing exactly
    when there is no such batch. A batch with stock that expires today
    makes the result present and not later than today. A batch without
    stock, without expiry date or expired strictly before today can be
    removed without changing the result. *)
Theorem soonest_expiry_is_earliest_active :
  forall (today : string) (item : StockItem.t),
    JsDate.isDate today = true ->
    forallb Spec.datedBatch (StockItem.batches item) = true ->
    match Types.getSoonestExpiryDate today item with
    | Some d =>
        (exists b, In b (StockItem.batches item)
                   /\ Spec.activeExpiry today b d)
        /\ (forall b e, In b (StockItem.batches item) ->
                        Spec.activeExpiry today b e ->
                        Spec.dayOf d <= Spec.dayOf e)
    | None =>
        forall b e, In b (StockItem.batches item) ->
                    ~ Spec.activeExpiry today b e
    end
    /\ (forall b, In b (StockItem.batches item) -> 0 < Batch.quantity b ->
                  Batch.expiryDate b = Some today ->
                  exists d, Types.getSoonestExpiryDate today item = Some d
                            /\ Spec.dayOf d <= Spec.dayOf today)
    /\ (forall before x after,
           StockItem.batches item = (before ++ x :: after)%list ->
           (Batch.quantity x <= 0
            \/ Batch.expiryDate x = None
            \/ exists e, Batch.expiryDate x = Some e
                         /\ Spec.dayOf e < Spec.dayOf today) ->
           Types.getSoonestExpiryDate today
             (StockItem.withBatches (before ++ after)%list item)
           = Types.getSoonestExpiryDate today item).
Proof.
  intros today item Ht Hd.
  assert (Main :
    match Types.getSoonestExpiryDate today item with
    | Some d =>
        (exists b, In b (StockItem.batches item)
                   /\ Spec.activeExpiry today b d)
        /\ (forall b e, In b (StockItem.batches item) ->
                        Spec.activeExpiry today b e ->
                        Spec.dayOf d <= Spec.dayOf e)
    | None =>
        forall b e, In b (StockItem.batches item) ->
                    ~ Spec.activeExpiry today b e
    end).
  { unfold Types.getSoonestExpiryDate.
    set (l := map _ (filter _ _)).
    assert (Hl : forall d, In d l <-> exists b, In b (StockItem.batches item)
                                               /\ Spec.activeExpiry today b d)
      by (intros d; now apply active_expiries).
    assert (Hdates : Forall (fun d => JsDate.isDate d = true) l).
    { apply Forall_forall. intros d Hin. apply Hl in Hin.
      destruct Hin as (b & Hb & _ & He & _).
      rewrite forallb_forall in Hd. specialize (Hd b Hb).
      dated_fields. rewrite He in *. assumption. }
    pose proof (active_expiries_sorted l Hdates) as Hs.
    pose proof (sort_perm Types.expiryCompare l) as Hp.
    destruct (sort Types.expiryCompare l) as [|d rest]; simpl.
    - intros b e Hb He.
      assert (Hin : In e l) by (apply Hl; now exists b).
      apply Permutation_nil in Hp.
      rewrite Hp in Hin. contradiction.
    - split.
      + apply Hl. eapply Permutation_in; [exact Hp | now left].
      + intros b e Hb He.
        assert (Hin : In e (d :: rest)).
        { eapply Permutation_in; [apply Permutation_sym, Hp|].
          apply Hl. now exists b. }
        inversion Hs as [|? ? _ Hall]; subst.
        destruct Hin as [<-|Hin]; [lia|].
        rewrite Forall_forall in Hall. now apply Hall. }
  split; [exact Main|]. split.
  - intros b Hb Hq He.
    assert (Ha : Spec.activeExpiry today b today)
      by (unfold Spec.activeExpiry; repeat split; [assumption | assumption | lia]).
    destruct (Types.getSoonestExpiryDate today item) as [d|].
    + exists d. split; [reflexivity|]. now apply (proj2 Main b today).
    + exfalso. exact (Main b today Hb Ha).
  - intros before x after Hb Hx. unfold Types.getSoonestExpiryDate.
    rewrite Hb. simpl. rewrite !filter_app. simpl.
    assert (Hdx : Spec.datedBatch x = true).
    { rewrite forallb_forall in Hd. apply Hd. rewrite Hb.
      apply in_or_app. right. now left. }
    destruct (Types.isActiveBatch today x) eqn:E; [|reflexivity].
    exfalso. apply (isActiveBatch_spec today x Ht Hdx) in E.
    destruct E as (e & H1 & H2 & H3).
    destruct Hx as [Hx|[Hx|(e' & Hx1 & Hx2)]]; [lia | congruence |].
    rewrite Hx1 in H2. injection H2 as ->. lia.
Qed.

Lemma soonest_expiry_is_earliest_active_witness :
  let b1 := Batch.mk "b1" 30 (Some "2025-06-01"%string) None "2025-01-05" None in
  let b2 := Batch.mk "b2" 0 (Some "2025-02-01"%string) None "2025-01-06" None in
  let b3 := Batch.mk "b3" 5 (Some "2025-01-09"%string) None "2025-01-02" None in
  let b4 := Batch.mk "b4" 5 (Some "2025-01-10"%string) None "2025-01-02" None in
  let item :=
    StockItem.mk "A" "Gauze" GENERAL_SUPPLIES "packs" 50 [b1; b2; b3; b4]
      "2025-01-06" None None in
  exists d, Types.getSoonestExpiryDate "2025-01-10" item = Some d
            /\ Spec.dayOf d <= Spec.dayOf "2025-01-10"%string.
Proof.
  intros b1 b2 b3 b4 item.
  destruct (soonest_expiry_is_earliest_active "2025-01-10" item)
    as (_ & H & _); [reflexivity | reflexivity |].
  apply (H b4); [simpl; tauto | reflexivity | reflexivity].
Defined.

Lemma fefo_orders_candidates_by_expiry_witness :
  let b1 := Batch.mk "b1" 10 None None "2025-01-05" None in
  let b2 := Batch.mk "b2" 10 (Some "2025-03-01"%string) None "2025-01-06" None in
  let item :=
    StockItem.mk "A" "Gauze" GENERAL_SUPPLIES "packs" 50 [b1; b2] "2025-01-06"
      None None in
  StronglySorted Spec.fefoOrder (sortedBatches FEFO [b1; b2])
  /\ exists updated store',
       modifyItemBatchesForRelease "2025-01-10" "A" 15 None FEFO [item]
       = (Resolved (updated, [mkAffected "b2" 10; mkAffected "b1" 5]), store').
Proof.
  intros b1 b2 item.
  destruct fefo_orders_candidates_by_expiry as (H1 & _ & H3). split.
  - apply (H1 [b1; b2]). reflexivity.
  - apply (H3 "2025-01-10"%string "A"%string "b1"%string "b2"%string
             "2025-01-05"%string "2025-01-06"%string
             None None None None None [item] item);
      [reflexivity | discriminate | reflexivity].
Defined.

(** ** Bulk release *)

Import UseStockManagement.

Lemma modify_rejected_unchanged
    (today itemId : string) (q : Z) (gen : option NotesGenerator)
    (strategy : ReleaseStrategy) (store store' : Store) (e : Error) :
  modifyItemBatchesForRelease today itemId q gen strategy store
  = (Rejected e, store') -> store' = store.
Proof.
  unfold modifyItemBatchesForRelease, getItemsFromStorage.
  destruct (find _ store) as [item|]; [|congruence].
  destruct (_ <? q); [congruence|].
  destruct (releaseLoop _ _ _ _ _). discriminate.
Qed.

Section BulkRelease.

Variables today voucher : string.
Variable allItems : list StockItem.t.
Variable common : BulkReleaseCommonDetails.t.

Let gen := Some (releaseOpNotes today voucher common).






End BulkRelease.





(** ** Additions *)

(** What [addBatchToItem] does on a stored item, whatever the quantity. *)
Lemma addBatchToItem_resolved (today newBatchId itemId : string)
    (batchData : BatchData) (itemUnit : string) (store : Store)
    (stored : StockItem.t) :
  find (hasItemId itemId) store = Some stored ->
  let newBatch := newBatchOf today newBatchId batchData itemUnit in
  let updated :=
    StockItem.withLastUpdated today
      (StockItem.withBatches (StockItem.batches stored ++ [newBatch]) stored) in
  addBatchToItem today newBatchId itemId batchData itemUnit store
  = (Resolved updated, mutateFirst (hasItemId itemId) (fun _ => updated) store)
  /\ find (hasItemId itemId)
       (mutateFirst (hasItemId itemId) (fun _ => updated) store)
     = Some updated.
Proof.
  intros Hf newBatch updated. unfold addBatchToItem, getItemsFromStorage.
  rewrite Hf. split; [reflexivity|].
  eapply find_mutateFirst; [exact Hf|].
  apply find_some in Hf. exact (proj2 Hf).
Qed.

Lemma releaseLoop_nonneg (gen : option NotesGenerator) (u : string)
    (sorted : list Batch.t) :
  forall batches r,
    Spec.nonNegative batches ->
    Spec.nonNegative (fst (releaseLoop gen u sorted batches r)).
Proof.
  induction sorted as [|b rest IH]; intros batches r Hn; simpl; [exact Hn|].
  destruct (r <=? 0); [exact Hn|].
  destruct (find (hasBatchId (Batch.id b)) batches) as [orig|] eqn:F;
    [|now apply IH].
  specialize (IH (mutateFirst (hasBatchId (Batch.id b))
                    (releaseFromBatch gen u (Z.min (Batch.quantity orig) r))
                    batches)
                 (r - Z.min (Batch.quantity orig) r)).
  destruct (releaseLoop gen u rest _ _) as [final affected]. simpl in *.
  apply IH. clear IH. revert F. unfold Spec.nonNegative in *.
  induction Hn as [|x l Hx Hl IHl]; simpl; [constructor|].
  destruct (hasBatchId (Batch.id b) x).
  - intros [= ->]. constructor; [|exact Hl].
    rewrite releaseFromBatch_quantity. lia.
  - intros F. constructor; [exact Hx | now apply IHl].
Qed.

(** C5 (defect of the code). [addStockBatchToItem] checks that the item
    is known and nothing else: on an item that the state and the storage
    hold it resolves for every [quantityAdded], zero and negative ones
    included, and stores one new batch of that quantity with today's date
    as [dateAdded]; no invalid-quantity error exists on this path. *)
Theorem addStockBatchToItem_accepts_any_quantity :
  forall (today newBatchId itemId : string) (details : AddBatchDetails.t)
         (h : Hook) (currentItem stored : StockItem.t),
    find (hasItemId itemId) (allItemsState h) = Some currentItem ->
    find (hasItemId itemId) (storage h) = Some stored ->
    exists updated h' newBatch,
      addStockBatchToItem today newBatchId itemId details h
      = (Resolved updated, h')
      /\ find (hasItemId itemId) (storage h') = Some updated
      /\ StockItem.batches updated
         = (StockItem.batches stored ++ [newBatch])%list
      /\ Batch.quantity newBatch = AddBatchDetails.quantityAdded details
      /\ Batch.dateAdded newBatch = today
      /\ Batch.id newBatch = newBatchId.
Proof.
  intros today newBatchId itemId details h currentItem stored Hc Hs.
  unfold addStockBatchToItem. rewrite Hc.
  destruct (addBatchToItem_resolved today newBatchId itemId
              (mkBatchData (AddBatchDetails.quantityAdded details)
                 (AddBatchDetails.expiryDate details)
                 (AddBatchDetails.supplier details)
                 (AddBatchDetails.batchNotes details))
              (StockItem.unit currentItem) (storage h) stored Hs) as [E F].
  rewrite E. eexists _, _, _. split; [reflexivity|].
  split; [exact F|]. repeat split.
Qed.

Lemma addStockBatchToItem_accepts_any_quantity_witness :
  let a := StockItem.mk "A" "Gauze" GENERAL_SUPPLIES "packs" 5
             [Batch.mk "a1" 20 None None "2025-01-05" None] "2025-01-05"
             None None in
  let h := mkHook [a] [a] in
  let details := AddBatchDetails.mk (-5) None None None in
  exists updated h',
    addStockBatchToItem "2025-01-10" "a2" "A" details h = (Resolved updated, h')
    /\ map Batch.quantity (StockItem.batches updated) = [20; -5].
Proof.
  intros a h details.
  destruct (addStockBatchToItem_accepts_any_quantity
              "2025-01-10" "a2" "A" details h a a eq_refl eq_refl)
    as (updated & h' & newBatch & E & _ & Hb & Hq & _).
  exists updated, h'. split; [exact E|].
  rewrite Hb, map_app. cbn [map]. rewrite Hq. reflexivity.
Defined.

(** C4 (defect of the code, the one of C5). [addBatchToItem] stores the
    supplied quantity unchecked, so a negative supplied quantity is
    persisted as a negative batch quantity instead of being rejected. The
    depletion keeps the invariant: after a successful release on batches
    without negative quantity no batch quantity is negative. *)
Theorem addBatchToItem_persists_negative_quantity :
  (forall (today newBatchId itemId : string) (batchData : BatchData)
          (itemUnit : string) (store : Store) (stored : StockItem.t),
      find (hasItemId itemId) store = Some stored ->
      quantity batchData < 0 ->
      exists updated store',
        addBatchToItem today newBatchId itemId batchData itemUnit store
        = (Resolved updated, store')
        /\ find (hasItemId itemId) store' = Some updated
        /\ ~ Spec.nonNegative (StockItem.batches updated))
  /\ (forall (today itemId : string) (q : Z) (gen : option NotesGenerator)
             (strategy : ReleaseStrategy) (store store' : Store)
             (item updated : StockItem.t) (affected : list Affected),
         find (hasItemId itemId) store = Some item ->
         Spec.nonNegative (StockItem.batches item) ->
         modifyItemBatchesForRelease today itemId q gen strategy store
         = (Resolved (updated, affected), store') ->
         Spec.nonNegative (StockItem.batches updated)).
Proof.
  split.
  - intros today newBatchId itemId batchData itemUnit store stored Hf Hq.
    destruct (addBatchToItem_resolved today newBatchId itemId batchData
                itemUnit store stored Hf) as [E F].
    eexists _, _. split; [exact E|]. split; [exact F|].
    simpl. unfold Spec.nonNegative. rewrite Forall_app.
    intros [_ H]. inversion H as [|? ? Hn _]; subst. simpl in Hn. lia.
  - intros today itemId q gen strategy store store' item updated affected
      Hf Hn H.
    pose proof (resolved_within_available _ _ _ _ _ _ _ _ _ Hf H) as Hq.
    rewrite (modifyItemBatchesForRelease_resolved _ _ _ _ _ _ _ Hf Hq) in H.
    apply pair_equal_spec in H. destruct H as [H _].
    apply resolved_inj, pair_equal_spec in H. destruct H as [<- _].
    simpl. now apply releaseLoop_nonneg.
Qed.

Lemma addBatchToItem_persists_negative_quantity_witness :
  let a := StockItem.mk "A" "Gauze" GENERAL_SUPPLIES "packs" 5
             [Batch.mk "a1" 20 None None "2025-01-05" None] "2025-01-05"
             None None in
  exists updated store',
    addBatchToItem "2025-01-10" "a2" "A" (mkBatchData (-5) None None None)
      "packs" [a]
    = (Resolved updated, store')
    /\ find (hasItemId "A") store' = Some updated
    /\ ~ Spec.nonNegative (StockItem.batches updated).
Proof.
  intros a.
  apply (proj1 addBatchToItem_persists_negative_quantity
           "2025-01-10"%string "a2"%string "A"%string
           (mkBatchData (-5) None None None) "packs"%string [a] a);
    [reflexivity | simpl; lia].
Defined.

(** ** Movement reconstruction *)

Import StockAnalysisView.

Lemma sumOf_app {A : Type} (f : A -> Z) (l1 l2 : list A) :
  sumOf f (l1 ++ l2) = sumOf f l1 + sumOf f l2.
Proof.
  induction l1 as [|x l1 IH].
  - rewrite app_nil_l, sumOf_nil. lia.
  - rewrite <- app_comm_cons, !sumOf_cons, IH. lia.
Qed.

Section Movement.

Variables startDateObj endDateObj : number.

Let lineIn := MovementSpec.lineIn startDateObj endDateObj.

Lemma quantityInOf_upsert_in (id k : string) (init : ItemMovement) (q : Z)
    (m : list ItemMovement) :
  itemId init = k -> quantityIn init = 0 ->
  MovementSpec.quantityInOf id (upsert k init (addIn q) m)
  = MovementSpec.quantityInOf id m + (if String.eqb k id then q else 0).
Proof.
  intros Hk H0. unfold MovementSpec.quantityInOf.
  induction m as [|e m IH]; simpl.
  - rewrite Hk. destruct (String.eqb k id); simpl; lia.
  - destruct (String.eqb (itemId e) k) eqn:Ek; simpl.
    + apply String.eqb_eq in Ek. rewrite Ek.
      destruct (String.eqb k id); simpl; lia.
    + destruct (String.eqb (itemId e) id) eqn:Ei; [|exact IH].
      apply String.eqb_eq in Ei. rewrite <- Ei, String.eqb_sym, Ek. lia.
Qed.

Lemma quantityInOf_upsert_out (id k : string) (init : ItemMovement) (q : Z)
    (m : list ItemMovement) :
  quantityIn init = 0 ->
  MovementSpec.quantityInOf id (upsert k init (addOut q) m)
  = MovementSpec.quantityInOf id m.
Proof.
  intros H0. unfold MovementSpec.quantityInOf.
  induction m as [|e m IH]; simpl.
  - destruct (String.eqb (itemId init) id); simpl; lia.
  - destruct (String.eqb (itemId e) k); simpl;
      destruct (String.eqb (itemId e) id); simpl; auto.
Qed.

(** The stock-in side of the three accumulators after one line. *)
Lemma analyzeLine_in (item : StockItem.t) (id : string) (a : Analysis)
    (line : string) :
  let a' := analyzeLine startDateObj endDateObj item a line in
  overallStockInQuantity a' = overallStockInQuantity a + fst (lineIn line)
  /\ overallStockInTransactions a'
     = overallStockInTransactions a + snd (lineIn line)
  /\ MovementSpec.quantityInOf id (itemMovementsData a')
     = MovementSpec.quantityInOf id (itemMovementsData a)
       + (if String.eqb (StockItem.id item) id then fst (lineIn line) else 0).
Proof.
  unfold analyzeLine, lineIn, MovementSpec.lineIn.
  destruct (firstOf initialStockRegex _ _ line) as [[d ds]|].
  - destruct (inRange _ _ _); simpl.
    + rewrite quantityInOf_upsert_in by reflexivity. repeat split.
    + destruct (String.eqb _ id); repeat split; lia.
  - destruct (firstOf stockOutRegex _ _ line) as [[d ds]|]; simpl.
    + destruct (inRange _ _ _); simpl.
      * rewrite quantityInOf_upsert_out by reflexivity.
        destruct (String.eqb _ id); repeat split; lia.
      * destruct (String.eqb _ id); repeat split; lia.
    + destruct (String.eqb _ id); repeat split; lia.
Qed.

Lemma analyzeLines_in (item : StockItem.t) (id : string) (lines : list string) :
  forall a,
    let a' := fold_left (analyzeLine startDateObj endDateObj item) lines a in
    overallStockInQuantity a'
    = overallStockInQuantity a + sumOf (fun l => fst (lineIn l)) lines
    /\ overallStockInTransactions a'
       = overallStockInTransactions a + sumOf (fun l => snd (lineIn l)) lines
    /\ MovementSpec.quantityInOf id (itemMovementsData a')
       = MovementSpec.quantityInOf id (itemMovementsData a)
         + (if String.eqb (StockItem.id item) id
            then sumOf (fun l => fst (lineIn l)) lines else 0).
Proof.
  induction lines as [|l lines IH]; intros a; simpl.
  - unfold sumOf; simpl. destruct (String.eqb _ id); repeat split; lia.
  - destruct (IH (analyzeLine startDateObj endDateObj item a l)) as (H1 & H2 & H3).
    destruct (analyzeLine_in item id a l) as (L1 & L2 & L3).
    rewrite H1, H2, H3, L1, L2, L3, !sumOf_cons.
    destruct (String.eqb _ id); repeat split; lia.
Qed.

Lemma analyzeItem_lines (a : Analysis) (item : StockItem.t) :
  analyzeItem startDateObj endDateObj a item
  = fold_left (analyzeLine startDateObj endDateObj item)
      (MovementSpec.itemLines item) a.
Proof.
  unfold analyzeItem, MovementSpec.itemLines.
  revert a. induction (StockItem.batches item) as [|b bs IH]; intros a; simpl;
    [reflexivity|].
  rewrite fold_left_app, IH. f_equal.
  unfold analyzeBatch, MovementSpec.batchLines.
  now destruct (truthy (Batch.notes b)).
Qed.

Lemma analyzeItems_in (id : string) (items : list StockItem.t) :
  forall a,
    let a' := fold_left (analyzeItem startDateObj endDateObj) items a in
    overallStockInQuantity a'
    = overallStockInQuantity a
      + sumOf (MovementSpec.itemIn startDateObj endDateObj) items
    /\ overallStockInTransactions a'
       = overallStockInTransactions a
         + sumOf (MovementSpec.itemInCount startDateObj endDateObj) items
    /\ MovementSpec.quantityInOf id (itemMovementsData a')
       = MovementSpec.quantityInOf id (itemMovementsData a)
         + sumOf (fun item =>
                    if String.eqb (StockItem.id item) id
                    then MovementSpec.itemIn startDateObj endDateObj item
                    else 0) items.
Proof.
  induction items as [|item items IH]; intros a; simpl.
  - unfold sumOf; simpl. repeat split; lia.
  - destruct (IH (analyzeItem startDateObj endDateObj a item)) as (H1 & H2 & H3).
    rewrite H1, H2, H3, !sumOf_cons, analyzeItem_lines.
    destruct (analyzeLines_in item id (MovementSpec.itemLines item) a)
      as (L1 & L2 & L3).
    rewrite L1, L2, L3.
    unfold MovementSpec.itemIn, MovementSpec.itemInCount. fold lineIn.
    destruct (String.eqb _ id); repeat split; lia.
Qed.

End Movement.

(** *** Tagged lines and free text *)

Lemma append_assoc (a b c : string) :
  ((a ++ b) ++ c)%string = (a ++ (b ++ c))%string.
Proof. induction a as [|x a IH]; simpl; [reflexivity | now rewrite IH]. Qed.

Lemma upper_bracket (c : ascii) :
  Ascii.eqb c "["%char = false ->
  Ascii.eqb (upper "["%char) (upper c) = false.
Proof.
  destruct c as [[] [] [] [] [] [] [] []]; vm_compute; congruence.
Qed.

Lemma matchHere_other (r : TagRegex) (c : ascii) (s : string) :
  Ascii.eqb c "["%char = false -> matchHere r (String c s) = None.
Proof.
  intros H. unfold matchHere. cbn [append matchLiteral].
  now rewrite (upper_bracket c H).
Qed.

Lemma exec_skip (r : TagRegex) (p s : string) :
  MovementSpec.noBracket p = true -> exec r (p ++ s) = exec r s.
Proof.
  induction p as [|c p IH]; simpl; intros H; [reflexivity|].
  apply andb_prop in H. destruct H as [Hc Hp]. apply negb_true_iff in Hc.
  now rewrite (matchHere_other r c _ Hc), IH.
Qed.

Lemma exec_free_text (r : TagRegex) (s : string) :
  MovementSpec.noBracket s = true -> exec r s = None.
Proof.
  induction s as [|c s IH]; simpl; intros H; [reflexivity|].
  apply andb_prop in H. destruct H as [Hc Hs]. apply negb_true_iff in Hc.
  now rewrite (matchHere_other r c _ Hc), IH.
Qed.

Lemma noBracket_app (a b : string) :
  MovementSpec.noBracket (a ++ b)
  = MovementSpec.noBracket a && MovementSpec.noBracket b.
Proof.
  induction a as [|c a IH]; simpl; [reflexivity|].
  now rewrite IH, andb_assoc.
Qed.

Lemma noBracket_trimEnd (s : string) :
  MovementSpec.noBracket s = true ->
  MovementSpec.noBracket (JsString.trimEnd s) = true.
Proof.
  induction s as [|c s IH]; simpl; intros H; [reflexivity|].
  apply andb_prop in H. destruct H as [Hc Hs]. specialize (IH Hs).
  destruct (JsString.trimEnd s) eqn:E.
  - destruct (JsString.isSpace c); simpl; [reflexivity | now rewrite Hc].
  - simpl in *. now rewrite Hc, IH.
Qed.

Lemma noBracket_lines (s : string) :
  MovementSpec.noBracket s = true ->
  Forall (fun l => MovementSpec.noBracket l = true) (JsString.splitLines s).
Proof.
  induction s as [|c s IH]; simpl; intros H; [repeat constructor|].
  apply andb_prop in H. destruct H as [Hc Hs]. specialize (IH Hs).
  destruct (Ascii.eqb c (ascii_of_nat 10)); [now constructor|].
  destruct (JsString.splitLines s) as [|l ls].
  - repeat constructor. simpl. now rewrite Hc.
  - inversion IH; subst. constructor; [|assumption]. simpl. now rewrite Hc.
Qed.

Lemma splitLines_head (p s : string) :
  MovementSpec.oneLine p = true ->
  exists l ls,
    JsString.splitLines s = l :: ls
    /\ JsString.splitLines (p ++ s) = (p ++ l)%string :: ls.
Proof.
  induction p as [|c p IH]; simpl; intros H.
  - destruct s as [|c s]; simpl; [eexists _, _; split; reflexivity|].
    destruct (Ascii.eqb c (ascii_of_nat 10)); [eexists _, _; split; reflexivity|].
    destruct (JsString.splitLines s); eexists _, _; split; reflexivity.
  - apply andb_prop in H. destruct H as [Hc Hp]. apply negb_true_iff in Hc.
    destruct (IH Hp) as (l & ls & E1 & E2). exists l, ls.
    split; [exact E1|]. now rewrite Hc, E2.
Qed.

Lemma trimEnd_keeps (c : ascii) (s : string) :
  JsString.isSpace c = false ->
  JsString.trimEnd (String c s) = String c (JsString.trimEnd s).
Proof. intros H. simpl. rewrite H. now destruct (JsString.trimEnd s). Qed.

Lemma trimEnd_app (a b : string) :
  JsString.trimEnd b <> EmptyString ->
  JsString.trimEnd (a ++ b) = (a ++ JsString.trimEnd b)%string.
Proof.
  intros Hb. induction a as [|c a IH]; simpl; [reflexivity|].
  rewrite IH. destruct (a ++ JsString.trimEnd b)%string eqn:E; [|reflexivity].
  exfalso. destruct a; simpl in E; [contradiction | discriminate].
Qed.

Lemma matchLiteral_self (lit s : string) :
  matchLiteral lit (lit ++ s) = Some s.
Proof.
  induction lit as [|c lit IH]; simpl; [reflexivity|].
  now rewrite Ascii.eqb_refl.
Qed.

Lemma isDigit_digitVal (c : ascii) (v : Z) :
  JsDate.digitVal c = Some v -> isDigit c = true.
Proof. unfold isDigit. now intros ->. Qed.

Lemma digit_plain (c : ascii) (v : Z) :
  JsDate.digitVal c = Some v ->
  Ascii.eqb c "["%char = false /\ Ascii.eqb c (ascii_of_nat 10) = false.
Proof.
  intros H. split; apply Ascii.eqb_neq; intros ->; vm_compute in H;
    discriminate.
Qed.

(** A calendar date is matched by [\d{4}-\d{2}-\d{2}], has no bracket and
    no line break. *)
Lemma date_text (d : string) :
  JsDate.isDate d = true ->
  (forall s, matchDate (d ++ s) = Some (d, s))
  /\ MovementSpec.noBracket d = true
  /\ MovementSpec.oneLine d = true.
Proof.
  unfold JsDate.isDate, JsDate.getTime, JsDate.parseFields.
  destruct d as [|y1 [|y2 [|y3 [|y4 [|s1 [|m1 [|m2 [|s2 [|d1 [|d2 [|? ?]]]]]]]]]]];
    try discriminate.
  destruct (JsDate.isDash s1 && JsDate.isDash s2) eqn:Da; [|discriminate].
  apply andb_prop in Da. destruct Da as [Da1 Da2].
  apply isDash_eq in Da1, Da2. subst s1 s2.
  unfold JsDate.num4, JsDate.num2.
  destruct (JsDate.digitVal y1) eqn:E1; [|discriminate].
  destruct (JsDate.digitVal y2) eqn:E2; [|discriminate].
  destruct (JsDate.digitVal y3) eqn:E3; [|discriminate].
  destruct (JsDate.digitVal y4) eqn:E4; [|discriminate].
  destruct (JsDate.digitVal m1) eqn:E5; [|discriminate].
  destruct (JsDate.digitVal m2) eqn:E6; [|discriminate].
  destruct (JsDate.digitVal d1) eqn:E7; [|discriminate].
  destruct (JsDate.digitVal d2) eqn:E8; [|discriminate].
  intros _.
  repeat match goal with
         | H : JsDate.digitVal _ = Some _ |- _ =>
             pose proof (isDigit_digitVal _ _ H);
             destruct (digit_plain _ _ H); clear H
         end.
  split; [|split].
  - intros s. cbn [append matchDate].
    repeat match goal with H : isDigit _ = true |- _ => rewrite H; clear H end.
    reflexivity.
  - cbn [MovementSpec.noBracket].
    repeat match goal with
           | H : Ascii.eqb _ "["%char = false |- _ => rewrite H; clear H
           end.
    reflexivity.
  - cbn [MovementSpec.oneLine].
    repeat match goal with
           | H : Ascii.eqb _ (ascii_of_nat 10) = false |- _ => rewrite H; clear H
           end.
    reflexivity.
Qed.

(** The note date of a line written today lies in the range
    [today .. today], whatever the time zone. *)
Lemma today_in_range (tza : Z) (today : string) :
  JsDate.isDate today = true ->
  - JsDate.msPerDay < tza < JsDate.msPerDay ->
  inRange (dayStart tza today) (dayEnd tza today) (JsDate.getTime today) = true.
Proof.
  intros Hd Ht. unfold inRange, dayStart, dayEnd, JsDate.getTime in *.
  unfold JsDate.isDate, JsDate.getTime in Hd.
  destruct (JsDate.parseFields today) as [[[y m] d]|]; [|discriminate].
  simpl. unfold JsDate.setHours, JsDate.msPerDay in *.
  apply andb_true_iff. split; apply Z.leb_le;
    generalize (JsDate.dayNumber y m d) as k; intros k;
    Z.div_mod_to_equations; lia.
Qed.

Lemma oneLine_app (a b : string) :
  MovementSpec.oneLine (a ++ b)
  = MovementSpec.oneLine a && MovementSpec.oneLine b.
Proof.
  induction a as [|c a IH]; simpl; [reflexivity|].
  now rewrite IH, andb_assoc.
Qed.

Lemma free_text_line (s e : number) (l : string) :
  MovementSpec.noBracket l = true -> MovementSpec.lineIn s e l = (0, 0).
Proof.
  intros H. unfold MovementSpec.lineIn, firstOf.
  now rewrite !(exec_free_text _ l H).
Qed.

(** The line that [addBatchToItem] writes for 15 units today counts as
    one stock-in of 15 in the range [today .. today]. *)
Lemma stock_addition_line (tza : Z) (today l : string) :
  JsDate.isDate today = true ->
  - JsDate.msPerDay < tza < JsDate.msPerDay ->
  MovementSpec.noBracket l = true ->
  MovementSpec.lineIn (dayStart tza today) (dayEnd tza today)
    (("[Stock Addition - " ++ today ++ "]: Added 15 ") ++ l)%string
  = (15, 1).
Proof.
  intros Hd Ht Hl. destruct (date_text today Hd) as (Hm & Hb & _).
  unfold MovementSpec.lineIn, firstOf.
  assert (E1 : exec initialStockRegex
                 (("[Stock Addition - " ++ today ++ "]: Added 15 ") ++ l)%string
               = None).
  { rewrite !append_assoc.
    change ("[Stock Addition - " ++ today ++ "]: Added 15 " ++ l)%string
      with (String "["%char
              ("Stock Addition - " ++ today ++ "]: Added 15 " ++ l)%string).
    cbn [exec].
    assert (M : forall x, matchHere initialStockRegex
                            (String "["%char ("Stock Addition - " ++ x)%string)
                          = None) by reflexivity.
    rewrite M.
    rewrite <- !append_assoc. rewrite exec_skip; [now apply exec_free_text|].
    rewrite !noBracket_app, Hb. reflexivity. }
  rewrite E1.
  assert (E2 : exec stockAdditionRegex
                 (("[Stock Addition - " ++ today ++ "]: Added 15 ") ++ l)%string
               = Some (today, "15"%string)).
  { rewrite !append_assoc.
    assert (X : forall x, exec stockAdditionRegex x
                          = match matchHere stockAdditionRegex x with
                            | Some m => Some m
                            | None => match x with
                                      | String _ x' => exec stockAdditionRegex x'
                                      | EmptyString => None
                                      end
                            end) by (intros x; destruct x; reflexivity).
    rewrite X. unfold matchHere.
    change ("[" ++ tag stockAdditionRegex ++ " - ")%string
      with "[Stock Addition - "%string.
    rewrite matchLiteral_self, Hm.
    change (lazyGap stockAdditionRegex) with false. cbv iota.
    unfold matchTail.
    change ("]: " ++ verb stockAdditionRegex ++ " ")%string
      with "]: Added "%string.
    change ("]: Added 15 " ++ l)%string
      with ("]: Added " ++ ("15 " ++ l))%string.
    rewrite matchLiteral_self. reflexivity. }
  rewrite E2, (today_in_range tza today Hd Ht). reflexivity.
Qed.

Lemma prefix_other (p : string) (c : ascii) (n : string) :
  c <> "["%char -> String.prefix (String "["%char p) (String c n) = false.
Proof.
  intros H. cbn [String.prefix].
  destruct (ascii_dec "["%char c) as [E|E]; [congruence | reflexivity].
Qed.

Lemma isSystemNote_free_text (n : string) :
  MovementSpec.noBracket n = true -> isSystemNote n = false.
Proof.
  destruct n as [|c n]; [reflexivity|]. cbn [MovementSpec.noBracket]. intros H.
  apply andb_prop in H. destruct H as [Hc _]. apply negb_true_iff in Hc.
  apply Ascii.eqb_neq in Hc.
  unfold isSystemNote, JsString.startsWith.
  now rewrite !prefix_other by assumption.
Qed.

(** The note lines of the batch that the addition of 15 units creates,
    when the unit and the user's note are free text. *)
Lemma new_batch_lines (today newBatchId unit : string)
    (expiry supplier userNotes : option string) :
  JsDate.isDate today = true ->
  MovementSpec.noBracket unit = true ->
  MovementSpec.noBracket (orEmpty userNotes) = true ->
  exists l ls,
    MovementSpec.batchLines
      (newBatchOf today newBatchId (mkBatchData 15 expiry supplier userNotes) unit)
    = (("[Stock Addition - " ++ today ++ "]: Added 15 ") ++ l)%string :: ls
    /\ MovementSpec.noBracket l = true
    /\ Forall (fun x => MovementSpec.noBracket x = true) ls.
Proof.
  intros Hd Hu Hn. destruct (date_text today Hd) as (_ & Hb & Ho).
  set (n := orEmpty userNotes) in *.
  set (R := (unit ++ String "."%char (JsString.trimEnd (String " "%char n)))%string).
  assert (HR : MovementSpec.noBracket R = true).
  { subst R. rewrite noBracket_app, Hu. cbn [andb MovementSpec.noBracket].
    change (negb (Ascii.eqb "."%char "["%char)) with true. cbn [andb].
    apply noBracket_trimEnd. cbn [MovementSpec.noBracket].
    change (negb (Ascii.eqb " "%char "["%char)) with true. exact Hn. }
  assert (Hnote :
    Batch.notes (newBatchOf today newBatchId
                   (mkBatchData 15 expiry supplier userNotes) unit)
    = Some (("[Stock Addition - " ++ today ++ "]: Added 15 ") ++ R)%string).
  { unfold newBatchOf, systemNotePrefix. cbn [Batch.notes notes quantity].
    fold n. rewrite (isSystemNote_free_text n Hn), andb_false_r.
    change (JsString.ofNumber 15) with "15"%string.
    f_equal. unfold JsString.trim.
    replace (("[Stock Addition - " ++ today ++ "]: Added " ++ "15" ++ " "
              ++ unit ++ ". ") ++ n)%string
      with ((("[Stock Addition - " ++ today ++ "]: Added 15 ") ++ unit)
            ++ String "."%char (String " "%char n))%string
      by (rewrite !append_assoc; reflexivity).
    assert (S : forall x, JsString.trimStart (String "["%char x) = String "["%char x)
      by reflexivity.
    change ((("[Stock Addition - " ++ today ++ "]: Added 15 ") ++ unit)
            ++ String "."%char (String " "%char n))%string
      with (String "["%char
              ((("Stock Addition - " ++ today ++ "]: Added 15 ") ++ unit)
               ++ String "."%char (String " "%char n)))%string.
    rewrite S.
    change (String "["%char
              ((("Stock Addition - " ++ today ++ "]: Added 15 ") ++ unit)
               ++ String "."%char (String " "%char n)))%string
      with ((("[Stock Addition - " ++ today ++ "]: Added 15 ") ++ unit)
            ++ String "."%char (String " "%char n))%string.
    rewrite trimEnd_app.
    - rewrite (trimEnd_keeps "."%char) by reflexivity.
      subst R. now rewrite append_assoc.
    - rewrite (trimEnd_keeps "."%char) by reflexivity. discriminate. }
  unfold MovementSpec.batchLines. rewrite Hnote.
  change (truthy (Some (("[Stock Addition - " ++ today ++ "]: Added 15 ") ++ R)%string))
    with true. cbv iota. cbn [orEmpty].
  destruct (splitLines_head ("[Stock Addition - " ++ today ++ "]: Added 15 ")%string R)
    as (l & ls & E1 & E2).
  { rewrite !oneLine_app, Ho. reflexivity. }
  exists l, ls. split; [exact E2|].
  pose proof (noBracket_lines R HR) as F. rewrite E1 in F.
  inversion F; subst. split; assumption.
Qed.

Lemma free_text_lines_sum (s e : number) (h : Z * Z -> Z) (ls : list string) :
  h (0, 0) = 0 ->
  Forall (fun x => MovementSpec.noBracket x = true) ls ->
  sumOf (fun l => h (MovementSpec.lineIn s e l)) ls = 0.
Proof.
  intros H0. induction 1 as [|l ls Hl Hls IH]; [reflexivity|].
  rewrite sumOf_cons, IH, (free_text_line s e l Hl), H0. reflexivity.
Qed.

Lemma reportedIn_table (id : string) (a : Analysis)
    (summary : StockMovementOverallSummary) :
  MovementSpec.reportedIn id
    (mkResult summary
       (map (fun data =>
               mkItemMovementDetails data (quantityIn data - quantityOut data))
          (itemMovementsData a)))
  = MovementSpec.quantityInOf id (itemMovementsData a).
Proof.
  unfold MovementSpec.reportedIn, MovementSpec.quantityInOf, breakdownOf.
  cbn [itemsBreakdown].
  induction (itemMovementsData a) as [|e m IH]; simpl; [reflexivity|].
  destruct (String.eqb (itemId e) id); [reflexivity | exact IH].
Qed.

Lemma date_not_empty (d : string) :
  JsDate.isDate d = true -> String.eqb d EmptyString = false.
Proof. destruct d; [discriminate | reflexivity]. Qed.

(** C8 as stated fails for an item that already has a stock-in line of
    today: created today with 30 units, after the addition of 15 the
    reconstruction over [today .. today] reports 45 in for the item and
    two stock-in transactions. It also fails when the user's note starts
    like a tagged line: the service then writes no tag of its own and the
    reconstruction does not see the addition. *)
Lemma addition_after_creation_today_reports_both :
  (let today := "2025-01-10"%string in
   let x :=
     StockItem.mk "X" "EndoSheath" ENDOSCOPY "pieces" 5
       [Batch.mk "x1" 30 None None today
          (Some "[Initial Stock - 2025-01-10]: Added 30 pieces."%string)]
       today None None in
   let store' :=
     snd (addBatchToItem today "x2" "X" (mkBatchData 15 None None None)
            "pieces" [x]) in
   exists r row,
     handleAnalyzeStockMovement 0 today today store' = Some r
     /\ breakdownOf "X" r = Some row
     /\ quantityIn (movement row) = 45
     /\ quantityIn (movement row) <> 15
     /\ stockInTransactions (overallSummary r) = 2)
  /\ (let today := "2025-01-10"%string in
      let x :=
        StockItem.mk "X" "Gauze" GENERAL_SUPPLIES "packs" 5
          [Batch.mk "x1" 200 None None "2025-01-02"
             (Some "[Initial Stock - 2025-01-02]: Added 200 packs."%string)]
          "2025-01-02" None None in
      let store' :=
        snd (addBatchToItem today "x2" "X"
               (mkBatchData 15 None None
                  (Some "[Stock Addition] see order 7"%string))
               "packs" [x]) in
      exists r,
        handleAnalyzeStockMovement 0 today today store' = Some r
        /\ breakdownOf "X" r = None
        /\ stockInTransactions (overallSummary r) = 0).
Proof.
  split.
  - intros today x store'. eexists _, _.
    split; [vm_compute; reflexivity|].
    split; [vm_compute; reflexivity|].
    split; [reflexivity|]. split; [discriminate | reflexivity].
  - intros today x store'. eexists.
    split; [vm_compute; reflexivity|]. split; reflexivity.
Qed.

(** C8, amended. After an add-batch of 15 units on a stored item whose
    unit and user note contain no opening square bracket, the
    reconstruction of the stored collection over [today .. today] reports,
    against the reconstruction just before the addition, 15 more units in
    overall, one more stock-in transaction, and 15 more units in for the
    item; so an item without stock-in of today before the addition is
    reported with [quantityIn] 15. This holds in every time zone. *)
Theorem addition_of_15_reported_by_analysis :
  forall (tza : Z) (today newBatchId itemId unit : string)
         (expiry supplier userNotes : option string)
         (store : Store) (stored : StockItem.t),
    find (hasItemId itemId) store = Some stored ->
    JsDate.isDate today = true ->
    - JsDate.msPerDay < tza < JsDate.msPerDay ->
    MovementSpec.noBracket unit = true ->
    MovementSpec.noBracket (orEmpty userNotes) = true ->
    exists updated store' before after,
      addBatchToItem today newBatchId itemId
        (mkBatchData 15 expiry supplier userNotes) unit store
      = (Resolved updated, store')
      /\ handleAnalyzeStockMovement tza today today store = Some before
      /\ handleAnalyzeStockMovement tza today today store' = Some after
      /\ totalStockInQuantity (overallSummary after)
         = totalStockInQuantity (overallSummary before) + 15
      /\ stockInTransactions (overallSummary after)
         = stockInTransactions (overallSummary before) + 1
      /\ MovementSpec.reportedIn itemId after
         = MovementSpec.reportedIn itemId before + 15
      /\ (MovementSpec.reportedIn itemId before = 0 ->
          exists row, breakdownOf itemId after = Some row
                      /\ quantityIn (movement row) = 15).
Proof.
  intros tza today newBatchId itemId unit expiry supplier userNotes store stored
    Hf Hd Ht Hu Hn.
  destruct (addBatchToItem_resolved today newBatchId itemId
              (mkBatchData 15 expiry supplier userNotes) unit store stored Hf)
    as [E _].
  set (newBatch := newBatchOf today newBatchId
                     (mkBatchData 15 expiry supplier userNotes) unit) in *.
  set (updated := StockItem.withLastUpdated today
                    (StockItem.withBatches
                       (StockItem.batches stored ++ [newBatch]) stored)) in *.
  set (store' := mutateFirst (hasItemId itemId) (fun _ => updated) store) in *.
  set (s := dayStart tza today). set (e := dayEnd tza today).
  destruct (new_batch_lines today newBatchId unit expiry supplier userNotes
              Hd Hu Hn) as (l & ls & Hlines & Hl & Hls).
  fold newBatch in Hlines.
  assert (Hnew : forall h, h (0, 0) = 0 ->
            sumOf (fun x => h (MovementSpec.lineIn s e x))
              (MovementSpec.itemLines updated)
            = sumOf (fun x => h (MovementSpec.lineIn s e x))
                (MovementSpec.itemLines stored) + h (15, 1)).
  { intros h H0. unfold MovementSpec.itemLines. subst updated.
    cbn [StockItem.batches StockItem.withLastUpdated StockItem.withBatches].
    rewrite flat_map_app, sumOf_app. f_equal.
    cbn [flat_map]. rewrite app_nil_r, Hlines, sumOf_cons.
    subst s e. rewrite (stock_addition_line tza today l Hd Ht Hl).
    rewrite (free_text_lines_sum _ _ h ls H0 Hls). lia. }
  assert (Hid : String.eqb (StockItem.id stored) itemId = true)
    by (apply find_some in Hf; exact (proj2 Hf)).
  unfold handleAnalyzeStockMovement.
  rewrite (date_not_empty today Hd). cbn [orb]. fold s e.
  eexists updated, store', _, _.
  split; [exact E|]. split; [reflexivity|]. split; [reflexivity|].
  cbn [overallSummary totalStockInQuantity stockInTransactions].
  rewrite !reportedIn_table.
  destruct (analyzeItems_in s e itemId store (mkAnalysis 0 0 0 0 []))
    as (B1 & B2 & B3).
  destruct (analyzeItems_in s e itemId store' (mkAnalysis 0 0 0 0 []))
    as (A1 & A2 & A3).
  assert (D1 : sumOf (MovementSpec.itemIn s e) store'
               = sumOf (MovementSpec.itemIn s e) store + 15).
  { subst store'. rewrite (mutateFirst_sum _ _ _ _ _ Hf).
    unfold MovementSpec.itemIn at 2 3. rewrite (Hnew fst eq_refl). simpl. lia. }
  assert (D2 : sumOf (MovementSpec.itemInCount s e) store'
               = sumOf (MovementSpec.itemInCount s e) store + 1).
  { subst store'. rewrite (mutateFirst_sum _ _ _ _ _ Hf).
    unfold MovementSpec.itemInCount at 2 3. rewrite (Hnew snd eq_refl). simpl. lia. }
  assert (D3 : sumOf (fun item =>
                        if String.eqb (StockItem.id item) itemId
                        then MovementSpec.itemIn s e item else 0) store'
               = sumOf (fun item =>
                          if String.eqb (StockItem.id item) itemId
                          then MovementSpec.itemIn s e item else 0) store + 15).
  { subst store'. rewrite (mutateFirst_sum _ _ _ _ _ Hf).
    change (StockItem.id updated) with (StockItem.id stored). rewrite Hid.
    unfold MovementSpec.itemIn. rewrite (Hnew fst eq_refl). simpl. lia. }
  rewrite A1, A2, A3, B1, B2, B3, D1, D2, D3. cbn [overallStockInQuantity
    overallStockInTransactions itemMovementsData MovementSpec.quantityInOf find].
  split; [lia|]. split; [lia|]. split; [lia|].
  intros H0.
  match goal with
  | |- exists row, breakdownOf itemId ?r = Some row /\ _ =>
      assert (R : MovementSpec.reportedIn itemId r = 15)
  end.
  { rewrite reportedIn_table, A3, D3.
    cbn [itemMovementsData MovementSpec.quantityInOf find] in *. lia. }
  unfold MovementSpec.reportedIn in R.
  destruct (breakdownOf itemId _) as [row|]; [|discriminate].
  exists row. split; [reflexivity | exact R].
Qed.

Lemma addition_of_15_reported_by_analysis_witness :
  let today := "2025-01-10"%string in
  let x :=
    StockItem.mk "X" "Gauze" GENERAL_SUPPLIES "packs" 5
      [Batch.mk "x1" 200 None None "2025-01-02"
         (Some "[Initial Stock - 2025-01-02]: Added 200 packs."%string)]
      "2025-01-02" None None in
  exists updated store' before after,
    addBatchToItem today "x2" "X" (mkBatchData 15 None None None) "packs" [x]
    = (Resolved updated, store')
    /\ handleAnalyzeStockMovement (-18000000) today today [x] = Some before
    /\ handleAnalyzeStockMovement (-18000000) today today store' = Some after
    /\ stockInTransactions (overallSummary after) = 1
    /\ exists row, breakdownOf "X" after = Some row
                   /\ quantityIn (movement row) = 15.
Proof.
  intros today x.
  destruct (addition_of_15_reported_by_analysis (-18000000) today "x2" "X"
              "packs" None None None [x] x)
    as (updated & store' & before & after & E & Hb & Ha & _ & H2 & _ & H4);
    [reflexivity | reflexivity | vm_compute; split; reflexivity
     | reflexivity | reflexivity |].
  exists updated, store', before, after.
  split; [exact E|]. split; [exact Hb|]. split; [exact Ha|].
  assert (Eb : before
               = mkResult (mkSummary 0 0 0 0 0) []).
  { vm_compute in Hb. now injection Hb as <-. }
  split.
  - rewrite H2, Eb. reflexivity.
  - apply H4. rewrite Eb. reflexivity.
Defined.

(* ================================================================== *)
(** * Further properties *)

Import StockServiceItems.

(** ** Unknown items, and what a change leaves alone *)

Lemma find_hasItemId (id : string) (store : list StockItem.t) (item : StockItem.t) :
  find (hasItemId id) store = Some item -> StockItem.id item = id.
Proof.
  intros H. apply find_some in H. destruct H as [_ H].
  unfold hasItemId in H. now apply String.eqb_eq in H.
Qed.

Lemma mutateFirst_only_target (id : string) (y : StockItem.t)
    (l : list StockItem.t) :
  StockItem.id y = id ->
  LedgerSpec.onlyItemChanged id l (mutateFirst (hasItemId id) (fun _ => y) l).
Proof.
  intros Hy. unfold LedgerSpec.onlyItemChanged.
  induction l as [|a l IH]; simpl; [constructor|].
  destruct (hasItemId id a) eqn:E.
  - constructor.
    + unfold hasItemId in E. apply String.eqb_eq in E. split; [congruence|].
      intros N. contradiction.
    + apply Forall2_same. intros x. split; [reflexivity|auto].
  - constructor; [|exact IH]. split; [reflexivity|auto].
Qed.

Lemma modify_resolved_inv
    (today id : string) (q : Z) (gen : option NotesGenerator)
    (strategy : ReleaseStrategy) (store store' : Store)
    (r : StockItem.t * list Affected) :
  modifyItemBatchesForRelease today id q gen strategy store
  = (Resolved r, store') ->
  exists item,
    find (hasItemId id) store = Some item
    /\ q <= totalAvailable strategy item
    /\ r = (StockItem.withLastUpdated today
              (StockItem.withBatches
                 (fst (releaseLoop gen (StockItem.unit item)
                         (sortedBatches strategy (StockItem.batches item))
                         (StockItem.batches item) q))
                 item),
            snd (releaseLoop gen (StockItem.unit item)
                   (sortedBatches strategy (StockItem.batches item))
                   (StockItem.batches item) q))
    /\ store' = mutateFirst (hasItemId id) (fun _ => fst r) store.
Proof.
  intros H.
  destruct (find (hasItemId id) store) as [item|] eqn:F.
  - exists item. split; [reflexivity|].
    pose proof (resolved_within_available _ _ _ _ _ _ _ _ _ F H) as Hq.
    split; [exact Hq|].
    pose proof (modifyItemBatchesForRelease_resolved today id q gen strategy
                  store item F Hq) as E.
    cbv zeta in E. rewrite E in H.
    apply pair_equal_spec in H. destruct H as [H1 H2].
    apply resolved_inj in H1. subst r. split; [reflexivity|].
    simpl. now symmetry.
  - unfold modifyItemBatchesForRelease, getItemsFromStorage in H.
    rewrite F in H. discriminate H.
Qed.

(** X1. An operation on an identifier that no stored item carries is
    refused with the message of that operation, and the stored collection
    is left as it was; a lookup of that identifier resolves to
    [undefined]. *)
Theorem unknown_item_rejected_without_mutation :
  forall (id : string) (store : Store),
    find (hasItemId id) store = None ->
    (forall today d,
        ItemDefinition.id d = id ->
        updateItem today d store = (Rejected ItemNotFoundForUpdate, store))
    /\ (forall today newBatchId batchData itemUnit,
           addBatchToItem today newBatchId id batchData itemUnit store
           = (Rejected ItemNotFoundToAddBatch, store))
    /\ (forall today q gen strategy,
           modifyItemBatchesForRelease today id q gen strategy store
           = (Rejected ItemNotFoundForRelease, store))
    /\ getItemById id store = Resolved None.
Proof.
  intros id store F. repeat split.
  - intros today d E. unfold updateItem, getItemsFromStorage.
    rewrite E, F. reflexivity.
  - intros. unfold addBatchToItem, getItemsFromStorage. now rewrite F.
  - intros. unfold modifyItemBatchesForRelease, getItemsFromStorage.
    now rewrite F.
  - unfold getItemById, getItemsFromStorage.
    change (fun item => String.eqb (StockItem.id item) id) with (hasItemId id).
    now rewrite F.
Qed.

Lemma unknown_item_rejected_without_mutation_witness :
  let a := StockItem.mk "A" "Gauze" GENERAL_SUPPLIES "packs" 5
             [Batch.mk "a1" 20 None None "2025-01-05" None] "2025-01-05"
             None None in
  updateItem "2025-01-10"
    (ItemDefinition.mk "B" "Blades" OPERATION_THEATRE "box" 2 None None) [a]
  = (Rejected ItemNotFoundForUpdate, [a])
  /\ modifyItemBatchesForRelease "2025-01-10" "B" 1 None FEFO [a]
     = (Rejected ItemNotFoundForRelease, [a]).
Proof.
  intros a.
  destruct (unknown_item_rejected_without_mutation "B" [a] eq_refl)
    as (U & _ & M & _).
  split; [apply U; reflexivity|apply M].
Defined.

(** X2. A release, an added batch and an edited definition change the
    stored collection at the target identifier only: the collection keeps
    its length and its identifiers in their order, and every item with
    another identifier is stored as before. *)
Theorem mutations_change_only_the_target_item :
  forall (id : string) (store store' : Store),
    (forall today q gen strategy r,
        modifyItemBatchesForRelease today id q gen strategy store
        = (Resolved r, store') ->
        LedgerSpec.onlyItemChanged id store store')
    /\ (forall today newBatchId batchData itemUnit updated,
           addBatchToItem today newBatchId id batchData itemUnit store
           = (Resolved updated, store') ->
           LedgerSpec.onlyItemChanged id store store')
    /\ (forall today d updated,
           ItemDefinition.id d = id ->
           updateItem today d store = (Resolved updated, store') ->
           LedgerSpec.onlyItemChanged id store store').
Proof.
  intros id store store'. repeat split.
  - intros today q gen strategy r H.
    apply modify_resolved_inv in H.
    destruct H as (item & F & _ & Hr & Hs). subst store'.
    apply mutateFirst_only_target. rewrite Hr. simpl.
    now apply find_hasItemId in F.
  - intros today nb bd u updated H.
    unfold addBatchToItem, getItemsFromStorage, saveItemsToStorage in H.
    destruct (find (hasItemId id) store) as [item|] eqn:F; [|discriminate H].
    apply pair_equal_spec in H. destruct H as [_ H]. subst store'.
    apply mutateFirst_only_target. simpl. now apply find_hasItemId in F.
  - intros today d updated E H.
    unfold updateItem, getItemsFromStorage, saveItemsToStorage in H.
    rewrite E in H.
    destruct (find (hasItemId id) store) as [item|] eqn:F; [|discriminate H].
    apply pair_equal_spec in H. destruct H as [_ H]. subst store'.
    apply mutateFirst_only_target. reflexivity.
Qed.

Lemma mutations_change_only_the_target_item_witness :
  let a := StockItem.mk "A" "Gauze" GENERAL_SUPPLIES "packs" 5
             [Batch.mk "a1" 20 None None "2025-01-05" None] "2025-01-05"
             None None in
  let b := StockItem.mk "B" "Blades" OPERATION_THEATRE "box" 5
             [Batch.mk "b1" 10 None None "2025-01-05" None] "2025-01-05"
             None None in
  LedgerSpec.onlyItemChanged "B" [a; b]
    (snd (modifyItemBatchesForRelease "2025-01-10" "B" 4 None FEFO [a; b])).
Proof.
  intros a b.
  destruct (mutations_change_only_the_target_item "B" [a; b]
              (snd (modifyItemBatchesForRelease "2025-01-10" "B" 4 None FEFO
                      [a; b])))
    as (M & _ & _).
  eapply (M "2025-01-10"%string 4 None FEFO). reflexivity.
Defined.

(** ** What a release keeps *)

Lemma mutateFirst_found_Forall2 {A : Type} (R : A -> A -> Prop) (p : A -> bool)
    (f : A -> A) (l : list A) (x : A) :
  (forall y, R y y) -> find p l = Some x -> R x (f x) ->
  Forall2 R l (mutateFirst p f l).
Proof.
  intros Hrefl. induction l as [|a l IH]; simpl; intros F Hx; [discriminate F|].
  destruct (p a).
  - apply some_eq in F. subst a. constructor; [exact Hx|].
    now apply Forall2_same.
  - constructor; [apply Hrefl|]. now apply IH.
Qed.

Lemma releasedFrom_refl (gen : option NotesGenerator) (b : Batch.t) :
  LedgerSpec.releasedFrom gen b b.
Proof.
  unfold LedgerSpec.releasedFrom, LedgerSpec.sameLot. repeat split; auto; lia.
Qed.

Lemma releasedFrom_trans (gen : option NotesGenerator) (a b c : Batch.t) :
  LedgerSpec.releasedFrom gen a b -> LedgerSpec.releasedFrom gen b c -> LedgerSpec.releasedFrom gen a c.
Proof.
  unfold LedgerSpec.releasedFrom, LedgerSpec.sameLot.
  intros ((A1 & A2 & A3 & A4) & A5 & A6) ((B1 & B2 & B3 & B4) & B5 & B6).
  split; [repeat split; congruence|]. split.
  - intros H. specialize (A5 H). specialize (B5 (proj1 A5)). lia.
  - intros H. rewrite B6, A6; auto.
Qed.

Lemma releaseFromBatch_releasedFrom (gen : option NotesGenerator) (u : string)
    (r : Z) (b : Batch.t) :
  0 < r ->
  LedgerSpec.releasedFrom gen b
    (releaseFromBatch gen u (Z.min (Batch.quantity b) r) b).
Proof.
  intros Hr. unfold LedgerSpec.releasedFrom, LedgerSpec.sameLot.
  split; [|split].
  - destruct gen; simpl; auto.
  - intros H. rewrite releaseFromBatch_quantity. lia.
  - intros ->. reflexivity.
Qed.

Lemma releaseLoop_releasedFrom (gen : option NotesGenerator) (u : string)
    (sorted : list Batch.t) :
  forall batches r,
    Forall2 (LedgerSpec.releasedFrom gen) batches
      (fst (releaseLoop gen u sorted batches r)).
Proof.
  induction sorted as [|b sorted IH]; intros batches r; simpl.
  - apply Forall2_same, releasedFrom_refl.
  - destruct (r <=? 0) eqn:Hr; [apply Forall2_same, releasedFrom_refl|].
    apply Z.leb_gt in Hr.
    destruct (find (hasBatchId (Batch.id b)) batches) as [orig|] eqn:F;
      [|apply IH].
    specialize (IH (mutateFirst (hasBatchId (Batch.id b))
                      (releaseFromBatch gen u (Z.min (Batch.quantity orig) r))
                      batches)
                   (r - Z.min (Batch.quantity orig) r)).
    destruct (releaseLoop gen u sorted _ _) as [final affected]. simpl in *.
    eapply Forall2_compose; [apply releasedFrom_trans| |exact IH].
    eapply mutateFirst_found_Forall2;
      [apply releasedFrom_refl|exact F|now apply releaseFromBatch_releasedFrom].
Qed.

(** X3. A release keeps every batch record of the item: the same lots in
    the same order, each with its identifier, expiry date, supplier and
    date of addition; a quantity only goes down and not below zero, so a
    drained batch stays in the list with quantity 0. The definition of
    the item is kept and [lastUpdated] is the day of the release. Without
    a notes generator the notes are kept too. *)
Theorem release_keeps_batch_records :
  forall (today id : string) (q : Z) (gen : option NotesGenerator)
         (strategy : ReleaseStrategy) (store store' : Store)
         (item updated : StockItem.t) (affected : list Affected),
    find (hasItemId id) store = Some item ->
    Spec.nonNegative (StockItem.batches item) ->
    modifyItemBatchesForRelease today id q gen strategy store
    = (Resolved (updated, affected), store') ->
    Forall2
      (fun b b' =>
         LedgerSpec.sameLot b b'
         /\ 0 <= Batch.quantity b' <= Batch.quantity b
         /\ (gen = None -> Batch.notes b' = Batch.notes b))
      (StockItem.batches item) (StockItem.batches updated)
    /\ LedgerSpec.sameDefinition item updated
    /\ StockItem.lastUpdated updated = today.
Proof.
  intros today id q gen strategy store store' item updated affected F NN H.
  apply modify_resolved_inv in H. destruct H as (item' & F' & _ & Hr & _).
  rewrite F in F'. apply some_eq in F'. subst item'.
  apply pair_equal_spec in Hr. destruct Hr as [Hu _]. subst updated.
  split; [|split; [unfold LedgerSpec.sameDefinition; simpl; tauto|reflexivity]].
  simpl.
  pose proof (releaseLoop_releasedFrom gen (StockItem.unit item)
                (sortedBatches strategy (StockItem.batches item))
                (StockItem.batches item) q) as L.
  unfold Spec.nonNegative in NN.
  revert NN L.
  generalize (fst (releaseLoop gen (StockItem.unit item)
                     (sortedBatches strategy (StockItem.batches item))
                     (StockItem.batches item) q)) as bs'.
  generalize (StockItem.batches item) as bs.
  induction bs as [|b bs IH]; intros bs' NN L; inversion L; subst;
    constructor.
  - inversion NN; subst. destruct H1 as (S & Q & N). auto.
  - inversion NN; subst. now apply IH.
Qed.

Lemma release_keeps_batch_records_witness :
  let b1 := Batch.mk "b1" 30 (Some "2025-06-01"%string) None "2025-01-05" None in
  let b2 := Batch.mk "b2" 20 (Some "2025-02-01"%string) None "2025-01-06" None in
  let item :=
    StockItem.mk "A" "Gauze" GENERAL_SUPPLIES "packs" 50 [b1; b2] "2025-01-06"
      None None in
  let out := modifyItemBatchesForRelease "2025-01-10" "A" 20 None FEFO [item] in
  exists updated affected,
    fst out = Resolved (updated, affected)
    /\ map Batch.quantity (StockItem.batches updated) = [30; 0]
    /\ Forall2 (fun b b' => LedgerSpec.sameLot b b'
                            /\ 0 <= Batch.quantity b' <= Batch.quantity b
                            /\ (@None NotesGenerator = None
                                -> Batch.notes b' = Batch.notes b))
         [b1; b2] (StockItem.batches updated).
Proof.
  intros b1 b2 item. cbv zeta.
  destruct (modifyItemBatchesForRelease "2025-01-10" "A" 20 None FEFO [item])
    as [[[updated affected]|e] store'] eqn:E; [|discriminate E].
  exists updated, affected. split; [reflexivity|].
  assert (NN : Spec.nonNegative (StockItem.batches item)).
  { repeat constructor; simpl; lia. }
  pose proof (release_keeps_batch_records "2025-01-10" "A" 20 None FEFO
                [item] store' item updated affected eq_refl NN E) as (K & _).
  split; [|exact K].
  vm_compute in E. apply pair_equal_spec in E. destruct E as [E _].
  apply resolved_inj in E. apply pair_equal_spec in E. destruct E as [E _].
  subst updated. reflexivity.
Defined.

(** X4. A release of [q] units, [0 <= q] and no more than the item
    holds in positive batches, resolves; the item that is stored and
    returned holds exactly [q] units less than before. *)
Theorem release_reduces_total_by_request :
  forall (today id : string) (q : Z) (gen : option NotesGenerator)
         (strategy : ReleaseStrategy) (store : Store) (item : StockItem.t),
    find (hasItemId id) store = Some item ->
    Spec.uniqueIds (StockItem.batches item) ->
    0 <= q ->
    q <= totalAvailable strategy item ->
    exists updated affected store',
      modifyItemBatchesForRelease today id q gen strategy store
      = (Resolved (updated, affected), store')
      /\ find (hasItemId id) store' = Some updated
      /\ Types.getTotalQuantity updated = Types.getTotalQuantity item - q.
Proof.
  intros today id q gen strategy store item F U Hq Ha.
  destruct (release_plan_conserves today id q gen strategy store item F U Hq Ha)
    as (updated & store' & E & S).
  exists updated,
    (Spec.plan (sortedBatches strategy (StockItem.batches item)) q), store'.
  split; [exact E|].
  destruct (modify_resolved_facts _ _ _ _ _ _ _ _ _ _ F E) as [F' T].
  split; [exact F'|]. rewrite T, S. reflexivity.
Qed.

Lemma release_reduces_total_by_request_witness :
  let b1 := Batch.mk "b1" 30 (Some "2025-06-01"%string) None "2025-01-05" None in
  let b2 := Batch.mk "b2" 20 (Some "2025-02-01"%string) None "2025-01-06" None in
  let item :=
    StockItem.mk "A" "Gauze" GENERAL_SUPPLIES "packs" 50 [b1; b2] "2025-01-06"
      None None in
  exists updated affected store',
    modifyItemBatchesForRelease "2025-01-10" "A" 25 None FEFO [item]
    = (Resolved (updated, affected), store')
    /\ find (hasItemId "A") store' = Some updated
    /\ Types.getTotalQuantity updated = Types.getTotalQuantity item - 25.
Proof.
  intros b1 b2 item.
  apply (release_reduces_total_by_request "2025-01-10" "A" 25 None FEFO
           [item] item eq_refl).
  - unfold Spec.uniqueIds. simpl.
    repeat constructor; simpl; intuition discriminate.
  - lia.
  - vm_compute. discriminate.
Defined.

(** X5. A request of zero or fewer units is not refused by the service:
    it resolves with no allocation and keeps every batch, and the only
    change it stores is the date of the last update. *)
Theorem nonpositive_release_only_stamps_date :
  forall (today id : string) (q : Z) (gen : option NotesGenerator)
         (strategy : ReleaseStrategy) (store : Store) (item : StockItem.t),
    find (hasItemId id) store = Some item ->
    q <= 0 ->
    modifyItemBatchesForRelease today id q gen strategy store
    = (Resolved (StockItem.withLastUpdated today item, []),
       mutateFirst (hasItemId id)
         (fun _ => StockItem.withLastUpdated today item) store).
Proof.
  intros today id q gen strategy store item F Hq.
  assert (Ha : q <= totalAvailable strategy item).
  { pose proof (sumOf_nonneg _ (sortedBatches_positive strategy
                                  (StockItem.batches item))).
    unfold totalAvailable. lia. }
  rewrite (modifyItemBatchesForRelease_resolved today id q gen strategy store
             item F Ha).
  rewrite releaseLoop_nothing_requested by exact Hq. simpl.
  destruct item; reflexivity.
Qed.

Lemma nonpositive_release_only_stamps_date_witness :
  let b1 := Batch.mk "b1" 10 None None "2025-01-05" None in
  let item :=
    StockItem.mk "A" "Gauze" GENERAL_SUPPLIES "packs" 50 [b1] "2025-01-06"
      None None in
  modifyItemBatchesForRelease "2025-01-10" "A" 0 None FEFO [item]
  = (Resolved (StockItem.withLastUpdated "2025-01-10" item, []),
     [StockItem.withLastUpdated "2025-01-10" item]).
Proof.
  intros b1 item.
  apply (nonpositive_release_only_stamps_date "2025-01-10" "A" 0 None FEFO
           [item] item eq_refl).
  lia.
Defined.

(** ** The order of a release *)

Lemma plan_nothing (sorted : list Batch.t) : Spec.plan sorted 0 = [].
Proof. destruct sorted; reflexivity. Qed.

Lemma plan_prefix (sorted : list Batch.t) :
  forall r, exists k,
    map batchId (Spec.plan sorted r) = firstn k (map Batch.id sorted).
Proof.
  induction sorted as [|b sorted IH]; intros r; simpl.
  - exists 0%nat. reflexivity.
  - destruct (r =? 0); [exists 0%nat; reflexivity|].
    destruct (IH (r - Z.min (Batch.quantity b) r)) as [k Hk].
    exists (S k). simpl. now rewrite Hk.
Qed.

Lemma In_firstn {A : Type} (k : nat) (l : list A) (x : A) :
  In x (firstn k l) -> In x l.
Proof.
  revert l. induction k as [|k IH]; intros l; simpl; [tauto|].
  destruct l as [|y l]; simpl; [tauto|]. intros [H|H]; auto.
Qed.

Lemma NoDup_firstn {A : Type} (k : nat) (l : list A) :
  NoDup l -> NoDup (firstn k l).
Proof.
  revert l. induction k as [|k IH]; intros l H; simpl; [constructor|].
  destruct l as [|x l]; [constructor|].
  inversion H; subst. constructor; [|now apply IH].
  intros I. apply H2. revert I. apply In_firstn.
Qed.

Lemma NoDup_map_inj {A B : Type} (f : A -> B) (l : list A) (x y : A) :
  NoDup (map f l) -> In x l -> In y l -> f x = f y -> x = y.
Proof.
  induction l as [|a l IH]; simpl; intros N Hx Hy E; [contradiction|].
  inversion N; subst.
  destruct Hx as [Hx|Hx], Hy as [Hy|Hy]; subst.
  - reflexivity.
  - exfalso. apply H1. rewrite E. now apply in_map.
  - exfalso. apply H1. rewrite <- E. now apply in_map.
  - now apply IH.
Qed.

Lemma plan_front_drains (sorted : list Batch.t) :
  forall r front last,
    Spec.plan sorted r = (front ++ [last])%list ->
    forall a, In a front ->
      exists b, In b sorted /\ Batch.id b = batchId a
                /\ releasedQuantity a = Batch.quantity b.
Proof.
  induction sorted as [|b sorted IH]; intros r front last E a Ha; simpl in E.
  - destruct front; discriminate E.
  - destruct (r =? 0) eqn:Hr; [destruct front; discriminate E|].
    destruct front as [|a0 front]; [contradiction|].
    simpl in E. injection E as E0 E.
    destruct Ha as [Ha|Ha].
    + subst a a0. exists b. simpl. split; [now left|]. split; [reflexivity|].
      destruct (Z.eq_dec (r - Z.min (Batch.quantity b) r) 0) as [Z0|Z0].
      * rewrite Z0, plan_nothing in E. destruct front; discriminate E.
      * lia.
    + destruct (IH _ _ _ E a Ha) as (b' & I & J). exists b'. simpl. auto.
Qed.

(** X6. A release takes the batches in order and leaves at most one of
    them partly used: every allocation but the last one empties its
    batch. *)
Theorem release_empties_all_but_last_batch :
  forall (today id : string) (q : Z) (gen : option NotesGenerator)
         (strategy : ReleaseStrategy) (store : Store) (item : StockItem.t),
    find (hasItemId id) store = Some item ->
    Spec.uniqueIds (StockItem.batches item) ->
    0 <= q ->
    q <= totalAvailable strategy item ->
    exists updated affected store',
      modifyItemBatchesForRelease today id q gen strategy store
      = (Resolved (updated, affected), store')
      /\ forall front last a,
           affected = (front ++ [last])%list -> In a front ->
           exists b b',
             In b (StockItem.batches item)
             /\ Batch.id b = batchId a
             /\ releasedQuantity a = Batch.quantity b
             /\ In b' (StockItem.batches updated)
             /\ Batch.id b' = batchId a
             /\ Batch.quantity b' = 0.
Proof.
  intros today id q gen strategy store item F U Hq Ha.
  pose proof (modifyItemBatchesForRelease_resolved today id q gen strategy
                store item F Ha) as E. cbv zeta in E.
  set (sorted := sortedBatches strategy (StockItem.batches item)) in *.
  assert (L : releaseLoop gen (StockItem.unit item) sorted
                (StockItem.batches item) q
              = (map (Spec.drained gen (StockItem.unit item) (Spec.plan sorted q))
                   (StockItem.batches item),
                 Spec.plan sorted q)).
  { apply releaseLoop_exact; [exact Hq| | | |].
    - apply sortedBatches_positive.
    - now apply sortedBatches_unique.
    - exact U.
    - apply sortedBatches_incl. }
  rewrite L in E. simpl in E.
  eexists _, _, _. split; [exact E|].
  intros front last a Ef Ia.
  destruct (plan_front_drains sorted q front last Ef a Ia) as (b & Ib & Eid & Eq).
  assert (Ib' : In b (StockItem.batches item)).
  { revert Ib. apply sortedBatches_incl. }
  exists b, (Spec.drained gen (StockItem.unit item) (Spec.plan sorted q) b).
  split; [exact Ib'|]. split; [exact Eid|]. split; [exact Eq|].
  split; [simpl; now apply in_map|].
  assert (Iplan : In a (Spec.plan sorted q)).
  { rewrite Ef. apply in_or_app. now left. }
  unfold Spec.drained.
  destruct (find (fun a0 => String.eqb (batchId a0) (Batch.id b))
              (Spec.plan sorted q)) as [a'|] eqn:Fa.
  - apply find_some in Fa. destruct Fa as [Ia' Ea'].
    apply String.eqb_eq in Ea'.
    assert (a' = a).
    { apply (NoDup_map_inj batchId (Spec.plan sorted q)); auto; [|congruence].
      destruct (plan_prefix sorted q) as [k Hk]. rewrite Hk.
      apply NoDup_firstn. now apply sortedBatches_unique. }
    subst a'. rewrite releaseFromBatch_id, releaseFromBatch_quantity.
    split; [exact Eid|lia].
  - exfalso. apply (find_none _ _ Fa a) in Iplan.
    rewrite Eid, String.eqb_refl in Iplan. discriminate Iplan.
Qed.

Lemma release_empties_all_but_last_batch_witness :
  let b1 := Batch.mk "b1" 30 (Some "2025-06-01"%string) None "2025-01-05" None in
  let b2 := Batch.mk "b2" 20 (Some "2025-02-01"%string) None "2025-01-06" None in
  let item :=
    StockItem.mk "A" "Gauze" GENERAL_SUPPLIES "packs" 50 [b1; b2] "2025-01-06"
      None None in
  exists updated affected store',
    modifyItemBatchesForRelease "2025-01-10" "A" 25 None FEFO [item]
    = (Resolved (updated, affected), store')
    /\ affected = [mkAffected "b2" 20; mkAffected "b1" 5]
    /\ exists b', In b' (StockItem.batches updated)
                  /\ Batch.id b' = "b2"%string /\ Batch.quantity b' = 0.
Proof.
  intros b1 b2 item.
  assert (U : Spec.uniqueIds (StockItem.batches item)).
  { unfold Spec.uniqueIds. simpl.
    repeat constructor; simpl; intuition discriminate. }
  assert (A : 25 <= totalAvailable FEFO item) by (vm_compute; discriminate).
  destruct (release_empties_all_but_last_batch "2025-01-10" "A" 25 None FEFO
              [item] item eq_refl U ltac:(lia) A)
    as (updated & affected & store' & E & D).
  exists updated, affected, store'. split; [exact E|].
  assert (Ea : affected = [mkAffected "b2" 20; mkAffected "b1" 5]).
  { vm_compute in E. apply pair_equal_spec in E. destruct E as [E _].
    apply resolved_inj in E. apply pair_equal_spec in E. destruct E as [_ E].
    now symmetry. }
  split; [exact Ea|].
  destruct (D [mkAffected "b2" 20] (mkAffected "b1" 5) (mkAffected "b2" 20)
              Ea (or_introl eq_refl))
    as (b & b' & _ & _ & _ & I & J & K).
  exists b'. auto.
Defined.

Lemma fifoCompare_dates (x y : Batch.t) :
  JsDate.isDate (Batch.dateAdded x) = true ->
  JsDate.isDate (Batch.dateAdded y) = true ->
  sortValue (fifoCompare x y)
  = Spec.dayOf (Batch.dateAdded x) - Spec.dayOf (Batch.dateAdded y).
Proof.
  intros Hx Hy. unfold fifoCompare, dateAddedDiff.
  rewrite (isDate_getTime _ Hx), (isDate_getTime _ Hy). reflexivity.
Qed.

(** X7. The FIFO strategy takes the batches with a positive quantity,
    oldest date of addition first; the allocations of a release under
    FIFO name a prefix of that order. *)
Theorem fifo_orders_candidates_by_date_added :
  forall batches : list Batch.t,
    Forall (fun b => JsDate.isDate (Batch.dateAdded b) = true) batches ->
    Permutation (sortedBatches FIFO batches) (filter isCandidate batches)
    /\ StronglySorted LedgerSpec.fifoOrder (sortedBatches FIFO batches)
    /\ forall (today id : string) (q : Z) (gen : option NotesGenerator)
              (store : Store) (item : StockItem.t),
         find (hasItemId id) store = Some item ->
         StockItem.batches item = batches ->
         q <= totalAvailable FIFO item ->
         exists updated affected store' k,
           modifyItemBatchesForRelease today id q gen FIFO store
           = (Resolved (updated, affected), store')
           /\ map batchId affected
              = firstn k (map Batch.id (sortedBatches FIFO batches)).
Proof.
  intros batches D. split; [apply sortedBatches_perm|]. split.
  - unfold sortedBatches.
    apply (sort_sorted fifoCompare LedgerSpec.fifoOrder
             (fun b => JsDate.isDate (Batch.dateAdded b) = true)).
    + intros x y Hx Hy H. rewrite (fifoCompare_dates x y Hx Hy) in H.
      unfold LedgerSpec.fifoOrder. lia.
    + intros x y Hx Hy H. rewrite (fifoCompare_dates x y Hx Hy) in H.
      unfold LedgerSpec.fifoOrder. lia.
    + unfold LedgerSpec.fifoOrder. intros; lia.
    + rewrite Forall_forall in *. intros b Hb. apply D.
      apply filter_In in Hb. tauto.
  - intros today id q gen store item F Eb Ha.
    pose proof (modifyItemBatchesForRelease_resolved today id q gen FIFO
                  store item F Ha) as E. cbv zeta in E.
    destruct (releaseLoop_follows_order gen (StockItem.unit item)
                (sortedBatches FIFO (StockItem.batches item))
                (StockItem.batches item) q) as [k Hk].
    { intros b Hb. apply in_map. revert Hb. apply sortedBatches_incl. }
    eexists _, _, _, k. split; [exact E|]. rewrite <- Eb. exact Hk.
Qed.

Lemma fifo_orders_candidates_by_date_added_witness :
  let b1 := Batch.mk "b1" 10 (Some "2025-03-01"%string) None "2025-01-09" None in
  let b2 := Batch.mk "b2" 10 (Some "2025-09-01"%string) None "2025-01-02" None in
  let item :=
    StockItem.mk "A" "Gauze" GENERAL_SUPPLIES "packs" 50 [b1; b2] "2025-01-09"
      None None in
  map Batch.id (sortedBatches FIFO [b1; b2]) = ["b2"; "b1"]%string
  /\ StronglySorted LedgerSpec.fifoOrder (sortedBatches FIFO [b1; b2])
  /\ exists updated affected store' k,
       modifyItemBatchesForRelease "2025-01-10" "A" 15 None FIFO [item]
       = (Resolved (updated, affected), store')
       /\ map batchId affected
          = firstn k (map Batch.id (sortedBatches FIFO [b1; b2])).
Proof.
  intros b1 b2 item.
  assert (D : Forall (fun b => JsDate.isDate (Batch.dateAdded b) = true)
                [b1; b2]) by (repeat constructor).
  destruct (fifo_orders_candidates_by_date_added [b1; b2] D) as (_ & S & R).
  split; [reflexivity|]. split; [exact S|].
  apply (R "2025-01-10"%string "A"%string 15 None [item] item eq_refl eq_refl).
  vm_compute. discriminate.
Defined.

(** ** Adding, looking up, editing and deleting items *)

Lemma hasItemId_lookup (id : string) (store : Store) :
  getItemById id store = Resolved (find (hasItemId id) store).
Proof. reflexivity. Qed.

Lemma find_app_absent {A : Type} (p : A -> bool) (l : list A) (x : A) :
  find p l = None -> find p (l ++ [x]) = (if p x then Some x else None).
Proof.
  induction l as [|a l IH]; simpl; [reflexivity|].
  destruct (p a); [discriminate|exact IH].
Qed.

Lemma find_app_other {A : Type} (p : A -> bool) (l : list A) (x : A) :
  p x = false -> find p (l ++ [x]) = find p l.
Proof.
  intros H. induction l as [|a l IH]; simpl; [now rewrite H|].
  destruct (p a); [reflexivity|exact IH].
Qed.

Lemma filter_absent (id : string) (store : list StockItem.t) :
  find (hasItemId id) store = None ->
  filter (fun item => negb (String.eqb (StockItem.id item) id)) store = store.
Proof.
  induction store as [|a l IH]; simpl; [reflexivity|].
  unfold hasItemId at 1.
  destruct (String.eqb (StockItem.id a) id); [discriminate|].
  intros H. simpl. now rewrite IH.
Qed.

Lemma find_filter_other (id id' : string) (store : list StockItem.t) :
  id' <> id ->
  find (hasItemId id')
    (filter (fun item => negb (String.eqb (StockItem.id item) id)) store)
  = find (hasItemId id') store.
Proof.
  intros N. induction store as [|a l IH]; simpl; [reflexivity|].
  destruct (String.eqb (StockItem.id a) id) eqn:E; simpl.
  - apply String.eqb_eq in E.
    assert (H : hasItemId id' a = false).
    { unfold hasItemId. apply String.eqb_neq. congruence. }
    rewrite H. exact IH.
  - destruct (hasItemId id' a); [reflexivity|exact IH].
Qed.

Lemma find_filter_same (id : string) (store : list StockItem.t) :
  find (hasItemId id)
    (filter (fun item => negb (String.eqb (StockItem.id item) id)) store)
  = None.
Proof.
  induction store as [|a l IH]; simpl; [reflexivity|].
  destruct (String.eqb (StockItem.id a) id) eqn:E; simpl; [exact IH|].
  unfold hasItemId at 1. rewrite E. exact IH.
Qed.

(** X8. A new item whose generated identifier is not in use is stored
    after the items already there: a lookup of the identifier returns it,
    every other lookup answers as before, the item holds one batch with
    the initial quantity, and deleting it leaves the collection that was
    there before the addition. *)
Theorem addItem_lookup_and_delete :
  forall (today newId newBatchId name : string) (category : ItemCategory)
         (unit : string) (minThreshold : Z)
         (itemNotes originCountry : option string) (firstBatch : BatchData)
         (store : Store),
    find (hasItemId newId) store = None ->
    exists newItem,
      StockService.addItem today newId newBatchId name category unit
        minThreshold itemNotes originCountry firstBatch store
      = (Resolved newItem, (store ++ [newItem])%list)
      /\ getAllItems (store ++ [newItem])%list
         = Resolved (store ++ [newItem])%list
      /\ getItemById newId (store ++ [newItem])%list = Resolved (Some newItem)
      /\ (forall id, id <> newId ->
            getItemById id (store ++ [newItem])%list = getItemById id store)
      /\ StockItem.id newItem = newId
      /\ map Batch.id (StockItem.batches newItem) = [newBatchId]
      /\ Types.getTotalQuantity newItem = quantity firstBatch
      /\ StockService.deleteItem newId (store ++ [newItem])%list
         = (Resolved tt, store).
Proof.
  intros today newId newBatchId name category unit minThreshold itemNotes
    originCountry firstBatch store F.
  eexists. split; [reflexivity|]. split; [reflexivity|].
  split; [|split; [|split; [|split; [|split]]]].
  - rewrite hasItemId_lookup, find_app_absent by exact F.
    unfold hasItemId. simpl. now rewrite String.eqb_refl.
  - intros id N. rewrite !hasItemId_lookup. f_equal.
    apply find_app_other. unfold hasItemId. simpl.
    apply String.eqb_neq. congruence.
  - reflexivity.
  - reflexivity.
  - unfold Types.getTotalQuantity. simpl. unfold sumOf. simpl. lia.
  - unfold StockService.deleteItem, getItemsFromStorage, saveItemsToStorage.
    f_equal. rewrite filter_app. simpl. rewrite String.eqb_refl. simpl.
    rewrite app_nil_r. now apply filter_absent.
Qed.

Lemma addItem_lookup_and_delete_witness :
  let a := StockItem.mk "A" "Gauze" GENERAL_SUPPLIES "packs" 5
             [Batch.mk "a1" 20 None None "2025-01-05" None] "2025-01-05"
             None None in
  let out :=
    StockService.addItem "2025-01-10" "B" "b1" "Blades" OPERATION_THEATRE "box"
      2 None None (mkBatchData 12 None None None) [a] in
  exists newItem,
    out = (Resolved newItem, [a; newItem])
    /\ getItemById "B" (snd out) = Resolved (Some newItem)
    /\ Types.getTotalQuantity newItem = 12
    /\ StockService.deleteItem "B" (snd out) = (Resolved tt, [a]).
Proof.
  intros a out.
  destruct (addItem_lookup_and_delete "2025-01-10" "B" "b1" "Blades"
              OPERATION_THEATRE "box" 2 None None (mkBatchData 12 None None None)
              [a] eq_refl)
    as (newItem & E & _ & L & _ & _ & _ & T & D).
  exists newItem. subst out. rewrite E. simpl. auto.
Defined.

(** X9. After a deletion a lookup of the deleted identifier resolves to
    [undefined], also when several stored items carried it, and a lookup
    of any other identifier answers as before. *)
Theorem deleteItem_then_lookup :
  forall (id id' : string) (store : Store),
    getItemById id' (snd (StockService.deleteItem id store))
    = if String.eqb id' id then Resolved None else getItemById id' store.
Proof.
  intros id id' store. rewrite !hasItemId_lookup.
  unfold StockService.deleteItem, getItemsFromStorage, saveItemsToStorage.
  simpl. destruct (String.eqb id' id) eqn:E.
  - apply String.eqb_eq in E. subst id'. now rewrite find_filter_same.
  - apply String.eqb_neq in E. now rewrite find_filter_other.
Qed.

(** X10. Editing the definition of a stored item keeps its batches, so
    the quantity in stock is the same; the identifier is kept, the
    definition fields are the ones given and [lastUpdated] is the day of
    the edit. An optional field whose key is given is overwritten, with
    [undefined] too; one whose key is missing is kept. The edited item is
    the one a lookup returns afterwards. *)
Theorem updateItem_keeps_stock :
  forall (today : string) (d : ItemDefinition.t) (store : Store)
         (current : StockItem.t),
    find (hasItemId (ItemDefinition.id d)) store = Some current ->
    exists final store',
      updateItem today d store = (Resolved final, store')
      /\ getItemById (ItemDefinition.id d) store' = Resolved (Some final)
      /\ StockItem.batches final = StockItem.batches current
      /\ Types.getTotalQuantity final = Types.getTotalQuantity current
      /\ StockItem.id final = StockItem.id current
      /\ StockItem.name final = ItemDefinition.name d
      /\ StockItem.category final = ItemDefinition.category d
      /\ StockItem.unit final = ItemDefinition.unit d
      /\ StockItem.minThreshold final = ItemDefinition.minThreshold d
      /\ StockItem.lastUpdated final = today
      /\ StockItem.notes final
         = match ItemDefinition.notes d with
           | Some given => given
           | None => StockItem.notes current
           end
      /\ StockItem.originCountry final
         = match ItemDefinition.originCountry d with
           | Some given => given
           | None => StockItem.originCountry current
           end.
Proof.
  intros today d store current F.
  unfold updateItem, getItemsFromStorage, saveItemsToStorage. rewrite F.
  eexists _, _. split; [reflexivity|]. split.
  - rewrite hasItemId_lookup. f_equal.
    apply (find_mutateFirst _ _ _ _ F). unfold hasItemId. simpl.
    apply String.eqb_refl.
  - simpl. repeat split; try reflexivity.
    symmetry. exact (find_hasItemId _ _ _ F).
Qed.

Lemma updateItem_keeps_stock_witness :
  let a := StockItem.mk "A" "Gauze" GENERAL_SUPPLIES "packs" 5
             [Batch.mk "a1" 20 None None "2025-01-05" None] "2025-01-05"
             (Some "shelf 3"%string) (Some "DE"%string) in
  let d := ItemDefinition.mk "A" "Gauze roll" CONSUMABLES "rolls" 8
             (Some None) None in
  exists final store',
    updateItem "2025-01-10" d [a] = (Resolved final, store')
    /\ Types.getTotalQuantity final = 20
    /\ StockItem.notes final = None
    /\ StockItem.originCountry final = Some "DE"%string.
Proof.
  intros a d.
  destruct (updateItem_keeps_stock "2025-01-10" d [a] a eq_refl)
    as (final & store' & E & _ & _ & T & _ & _ & _ & _ & _ & _ & N & O).
  exists final, store'. split; [exact E|]. split; [exact T|]. split; assumption.
Defined.

(** X11. Adding a batch to a stored item resolves with the item as it is
    stored afterwards: the batches it had, untouched, followed by the new
    one; its quantity in stock grows by the quantity of the new batch
    and its definition is kept. *)
Theorem addBatchToItem_adds_quantity :
  forall (today newBatchId id : string) (batchData : BatchData)
         (itemUnit : string) (store : Store) (stored : StockItem.t),
    find (hasItemId id) store = Some stored ->
    exists updated store' newBatch,
      addBatchToItem today newBatchId id batchData itemUnit store
      = (Resolved updated, store')
      /\ getItemById id store' = Resolved (Some updated)
      /\ StockItem.batches updated
         = (StockItem.batches stored ++ [newBatch])%list
      /\ Batch.id newBatch = newBatchId
      /\ Batch.dateAdded newBatch = today
      /\ Batch.expiryDate newBatch = expiryDate batchData
      /\ Batch.supplier newBatch = supplier batchData
      /\ Types.getTotalQuantity updated
         = Types.getTotalQuantity stored + quantity batchData
      /\ LedgerSpec.sameDefinition stored updated
      /\ StockItem.lastUpdated updated = today.
Proof.
  intros today newBatchId id batchData itemUnit store stored F.
  destruct (addBatchToItem_resolved today newBatchId id batchData itemUnit
              store stored F) as [E F'].
  eexists _, _, _. split; [exact E|].
  split; [rewrite hasItemId_lookup; f_equal; exact F'|].
  split; [reflexivity|]. simpl. repeat split.
  unfold Types.getTotalQuantity. simpl. rewrite sumOf_app.
  unfold sumOf at 2. simpl. reflexivity.
Qed.

Lemma addBatchToItem_adds_quantity_witness :
  let a := StockItem.mk "A" "Gauze" GENERAL_SUPPLIES "packs" 5
             [Batch.mk "a1" 20 None None "2025-01-05" None] "2025-01-05"
             None None in
  exists updated store',
    addBatchToItem "2025-01-10" "a2" "A" (mkBatchData 7 None None None)
      "packs" [a]
    = (Resolved updated, store')
    /\ Types.getTotalQuantity updated = 27.
Proof.
  intros a.
  destruct (addBatchToItem_adds_quantity "2025-01-10" "a2" "A"
              (mkBatchData 7 None None None) "packs" [a] a eq_refl)
    as (updated & store' & nb & E & _ & _ & _ & _ & _ & _ & T & _).
  exists updated, store'. split; [exact E|exact T].
Defined.

(** ** The first run *)

(** X12. The seed collection is written once: on storage without the
    marker the items read afterwards are the seed; once the marker is
    set, initialising again changes nothing, so a collection that was
    saved since, the empty one included, is read back as it was
    saved. *)
Theorem initializeLocalStorage_seeds_once :
  forall (seed : list StockItem.t) (ls : LocalStorage.t),
    let ls1 := LocalStorage.initializeLocalStorage seed ls in
    truthy (LocalStorage.stockAppInitialItemsLoaded ls1) = true
    /\ (truthy (LocalStorage.stockAppInitialItemsLoaded ls) = false ->
        LocalStorage.getItemsFromStorage ls1 = seed)
    /\ (truthy (LocalStorage.stockAppInitialItemsLoaded ls) = true ->
        ls1 = ls)
    /\ (forall seed', LocalStorage.initializeLocalStorage seed' ls1 = ls1)
    /\ (forall seed' items,
          LocalStorage.getItemsFromStorage
            (LocalStorage.initializeLocalStorage seed'
               (LocalStorage.saveItemsToStorage items ls1))
          = items).
Proof.
  intros seed ls ls1. subst ls1. unfold LocalStorage.initializeLocalStorage.
  destruct (truthy (LocalStorage.stockAppInitialItemsLoaded ls)) eqn:T.
  - repeat split; try (intros; discriminate).
    + exact T.
    + intros seed'. now rewrite T.
    + intros seed' items. simpl. now rewrite T.
  - repeat split; intros; try discriminate; reflexivity.
Qed.

Lemma initializeLocalStorage_seeds_once_witness :
  let a := StockItem.mk "A" "Gauze" GENERAL_SUPPLIES "packs" 5
             [Batch.mk "a1" 20 None None "2025-01-05" None] "2025-01-05"
             None None in
  let fresh := LocalStorage.mk None None in
  LocalStorage.getItemsFromStorage (LocalStorage.initializeLocalStorage [a] fresh)
  = [a]
  /\ LocalStorage.getItemsFromStorage
       (LocalStorage.initializeLocalStorage [a]
          (LocalStorage.saveItemsToStorage []
             (LocalStorage.initializeLocalStorage [a] fresh)))
     = [].
Proof.
  intros a fresh.
  destruct (initializeLocalStorage_seeds_once [a] fresh) as (_ & S & _ & _ & R).
  split; [apply S; reflexivity|apply R].
Defined.

(** ** The state of the hook and the storage *)

Lemma replaceItem_absent (u : StockItem.t) (l : list StockItem.t) :
  ~ In (StockItem.id u) (map StockItem.id l) -> replaceItem u l = l.
Proof.
  unfold replaceItem. induction l as [|a l IH]; simpl; intros N; [reflexivity|].
  destruct (String.eqb (StockItem.id a) (StockItem.id u)) eqn:E.
  - apply String.eqb_eq in E. exfalso. apply N. now left.
  - f_equal. apply IH. intros I. apply N. now right.
Qed.

Lemma replaceItem_unique (id : string) (u : StockItem.t) (l : list StockItem.t) :
  LedgerSpec.uniqueItems l -> StockItem.id u = id ->
  replaceItem u l = mutateFirst (hasItemId id) (fun _ => u) l.
Proof.
  unfold LedgerSpec.uniqueItems. intros N E. subst id.
  induction l as [|a l IH]; [reflexivity|].
  inversion N; subst. simpl. unfold hasItemId at 1.
  destruct (String.eqb (StockItem.id a) (StockItem.id u)) eqn:Ea.
  - apply String.eqb_eq in Ea. f_equal.
    apply replaceItem_absent. now rewrite <- Ea.
  - f_equal. now apply IH.
Qed.

Lemma mutateFirst_ids (id : string) (u : StockItem.t) (l : list StockItem.t) :
  StockItem.id u = id ->
  map StockItem.id (mutateFirst (hasItemId id) (fun _ => u) l)
  = map StockItem.id l.
Proof.
  intros E. induction l as [|a l IH]; simpl; [reflexivity|].
  destruct (hasItemId id a) eqn:Ea; simpl.
  - unfold hasItemId in Ea. apply String.eqb_eq in Ea. congruence.
  - now rewrite IH.
Qed.

Lemma NoDup_filter_ids (f : StockItem.t -> bool) (l : list StockItem.t) :
  NoDup (map StockItem.id l) -> NoDup (map StockItem.id (filter f l)).
Proof.
  induction l as [|a l IH]; simpl; intros N; [constructor|].
  inversion N; subst. destruct (f a); simpl; [|now apply IH].
  constructor; [|now apply IH].
  intros I. apply H1. apply in_map_iff in I. destruct I as (x & Ex & Ix).
  apply filter_In in Ix. apply in_map_iff. exists x. tauto.
Qed.

Lemma addBatchToItem_inv (today newBatchId id : string) (batchData : BatchData)
    (itemUnit : string) (store store' : Store) (r : Result StockItem.t) :
  addBatchToItem today newBatchId id batchData itemUnit store = (r, store') ->
  (r = Rejected ItemNotFoundToAddBatch /\ store' = store)
  \/ exists updated,
       r = Resolved updated /\ StockItem.id updated = id
       /\ store' = mutateFirst (hasItemId id) (fun _ => updated) store.
Proof.
  unfold addBatchToItem, getItemsFromStorage, saveItemsToStorage.
  destruct (find (hasItemId id) store) as [item|] eqn:F; intros H;
    apply pair_equal_spec in H; destruct H as [H1 H2]; subst r store'.
  - right. eexists. split; [reflexivity|]. split; [|reflexivity].
    simpl. exact (find_hasItemId _ _ _ F).
  - left. split; reflexivity.
Qed.

Lemma modify_inv
    (today id : string) (q : Z) (gen : option NotesGenerator)
    (strategy : ReleaseStrategy) (store store' : Store)
    (r : Result (StockItem.t * list Affected)) :
  modifyItemBatchesForRelease today id q gen strategy store = (r, store') ->
  (exists e, r = Rejected e /\ store' = store)
  \/ exists updated affected,
       r = Resolved (updated, affected) /\ StockItem.id updated = id
       /\ store' = mutateFirst (hasItemId id) (fun _ => updated) store.
Proof.
  intros H. destruct r as [[updated affected]|e].
  - right. exists updated, affected. split; [reflexivity|].
    apply modify_resolved_inv in H. destruct H as (item & F & _ & Hr & Hs).
    split; [|exact Hs].
    apply pair_equal_spec in Hr. destruct Hr as [Hu _]. subst updated. simpl.
    exact (find_hasItemId _ _ _ F).
  - left. exists e. split; [reflexivity|].
    exact (modify_rejected_unchanged _ _ _ _ _ _ _ _ H).
Qed.

Lemma recordDepletion_in_sync (today id : string) (q : Z) (gen : NotesGenerator)
    (h : Hook) :
  HookSpec.inSync h -> LedgerSpec.uniqueItems (storage h) ->
  let h' := snd (recordDepletion today id q gen h) in
  HookSpec.inSync h' /\ LedgerSpec.uniqueItems (storage h').
Proof.
  unfold HookSpec.inSync. intros S U. unfold recordDepletion.
  destruct (find (hasItemId id) (allItemsState h)) as [current|];
    [|simpl; auto].
  destruct (q <=? 0); [simpl; auto|].
  destruct (Types.getTotalQuantity current <? q); [simpl; auto|].
  destruct (modifyItemBatchesForRelease today id q (Some gen) FEFO (storage h))
    as [r store'] eqn:E.
  destruct (modify_inv _ _ _ _ _ _ _ _ E)
    as [(e & -> & ->)|(updated & affected & -> & Eid & ->)]; simpl.
  - auto.
  - rewrite S. split; [now apply replaceItem_unique|].
    unfold LedgerSpec.uniqueItems. now rewrite mutateFirst_ids.
Qed.

(** X13. The operations of the hook on one item keep its state equal to
    the stored collection, and the identifiers distinct, when they were
    so before: adding an item (under an identifier not in use), editing a
    definition, deleting an item, adding a batch, recording a release and
    recording a consumption, whether they succeed or are refused. *)
Theorem hook_state_follows_storage :
  forall h : Hook,
    HookSpec.inSync h ->
    LedgerSpec.uniqueItems (storage h) ->
    let kept (h' : Hook) :=
      HookSpec.inSync h' /\ LedgerSpec.uniqueItems (storage h') in
    (forall today newId newBatchId name category unit minThreshold itemNotes
            originCountry firstBatch,
        find (hasItemId newId) (storage h) = None ->
        kept (snd (UseStockManagementItems.addItem today newId newBatchId name
                     category unit minThreshold itemNotes originCountry
                     firstBatch h)))
    /\ (forall today d,
           kept (snd (UseStockManagementItems.updateItemDefinition today d h)))
    /\ (forall id, kept (snd (UseStockManagementItems.deleteItem id h)))
    /\ (forall today newBatchId id details,
           kept (snd (addStockBatchToItem today newBatchId id details h)))
    /\ (forall today id details,
           kept (snd (recordStockRelease today id details h)))
    /\ (forall today id details,
           kept (snd (recordStockOut today id details h))).
Proof.
  intros h S U kept. subst kept. cbv beta.
  split; [|split; [|split; [|split; [|split]]]].
  - intros today newId newBatchId name category unit minThreshold itemNotes
      originCountry firstBatch F.
    unfold UseStockManagementItems.addItem, StockService.addItem,
      getItemsFromStorage, saveItemsToStorage, HookSpec.inSync in *.
    simpl. rewrite S. split; [reflexivity|].
    unfold LedgerSpec.uniqueItems in *. rewrite map_app. simpl.
    apply NoDup_app; [exact U|repeat constructor; simpl; tauto|].
    intros x Ix [Ex|[]]. subst x.
    apply in_map_iff in Ix. destruct Ix as (y & Ey & Iy).
    apply (find_none _ _ F) in Iy. unfold hasItemId in Iy.
    rewrite Ey, String.eqb_refl in Iy. discriminate Iy.
  - intros today d.
    unfold UseStockManagementItems.updateItemDefinition, updateItem,
      getItemsFromStorage, saveItemsToStorage, HookSpec.inSync in *.
    destruct (find (hasItemId (ItemDefinition.id d)) (storage h)) as [c|];
      simpl; [|auto].
    rewrite S. split; [now apply replaceItem_unique|].
    unfold LedgerSpec.uniqueItems. now rewrite mutateFirst_ids.
  - intros id.
    unfold UseStockManagementItems.deleteItem, StockService.deleteItem,
      getItemsFromStorage, saveItemsToStorage, HookSpec.inSync in *.
    simpl. rewrite S. split; [reflexivity|]. now apply NoDup_filter_ids.
  - intros today newBatchId id details.
    unfold addStockBatchToItem, HookSpec.inSync in *.
    destruct (find (hasItemId id) (allItemsState h)) as [current|];
      [|simpl; auto].
    destruct (addBatchToItem today newBatchId id _ _ (storage h))
      as [r store'] eqn:E.
    destruct (addBatchToItem_inv _ _ _ _ _ _ _ _ E)
      as [(-> & ->)|(updated & -> & Eid & ->)]; simpl; [auto|].
    rewrite S. split; [now apply replaceItem_unique|].
    unfold LedgerSpec.uniqueItems. now rewrite mutateFirst_ids.
  - intros today id details. now apply recordDepletion_in_sync.
  - intros today id details. now apply recordDepletion_in_sync.
Qed.

Lemma hook_state_follows_storage_witness :
  let a := StockItem.mk "A" "Gauze" GENERAL_SUPPLIES "packs" 5
             [Batch.mk "a1" 20 None None "2025-01-05" None] "2025-01-05"
             None None in
  let h := mkHook [a] [a] in
  let h' :=
    snd (recordStockOut "2025-01-10" "A"
           (StockOutDetails.mk 5 "used in theatre" None) h) in
  HookSpec.inSync h'
  /\ map Types.getTotalQuantity (allItemsState h') = [15].
Proof.
  intros a h h'.
  assert (S : HookSpec.inSync h) by reflexivity.
  assert (U : LedgerSpec.uniqueItems (storage h)).
  { unfold LedgerSpec.uniqueItems. simpl. repeat constructor. simpl. tauto. }
  destruct (hook_state_follows_storage h S U) as (_ & _ & _ & _ & _ & O).
  split; [|reflexivity].
  exact (proj1 (O "2025-01-10"%string "A"%string
                  (StockOutDetails.mk 5 "used in theatre" None))).
Defined.

(** ** Recording a release or a consumption *)





(** ** A bulk release that names an item twice *)




(** ** Bulk operations and the state of the hook *)

Lemma fold_left_invariant {A B : Type} (P : A -> Prop) (f : A -> B -> A)
    (l : list B) :
  (forall a b, P a -> P (f a b)) -> forall a, P a -> P (fold_left f l a).
Proof.
  intros Hf. induction l as [|b l IH]; simpl; intros a Ha; [exact Ha|].
  apply IH. now apply Hf.
Qed.

Lemma bufferGet_id (buffer : list StockItem.t) (id : string) (u : StockItem.t) :
  bufferGet buffer id = Some u -> StockItem.id u = id.
Proof. unfold bufferGet. apply find_hasItemId. Qed.

Lemma applyBuffer_map (buffer prevItems : list StockItem.t) :
  applyBuffer buffer prevItems
  = map (fun item =>
           match bufferGet buffer (StockItem.id item) with
           | Some updated => updated
           | None => item
           end)
      prevItems.
Proof.
  unfold applyBuffer. destruct buffer as [|u buffer]; [|reflexivity].
  unfold bufferGet. simpl. symmetry. apply map_id.
Qed.

Lemma applyBuffer_ids (buffer prevItems : list StockItem.t) :
  map StockItem.id (applyBuffer buffer prevItems) = map StockItem.id prevItems.
Proof.
  rewrite applyBuffer_map, map_map. apply map_ext. intros item.
  destruct (bufferGet buffer (StockItem.id item)) eqn:E; [|reflexivity].
  now apply bufferGet_id in E.
Qed.

Lemma applyBuffer_step (buffer items : list StockItem.t) (id : string)
    (u : StockItem.t) :
  LedgerSpec.uniqueItems items -> StockItem.id u = id ->
  mutateFirst (hasItemId id) (fun _ => u) (applyBuffer buffer items)
  = applyBuffer (buffer ++ [u]) items.
Proof.
  intros U E.
  rewrite <- (replaceItem_unique id u) by
    (unfold LedgerSpec.uniqueItems; rewrite ?applyBuffer_ids; assumption).
  rewrite !applyBuffer_map. unfold replaceItem. rewrite map_map.
  apply map_ext. intros item. unfold bufferGet. rewrite rev_app_distr.
  cbn [rev app find].
  assert (I : StockItem.id
                match find (hasItemId (StockItem.id item)) (rev buffer) with
                | Some updated => updated
                | None => item
                end = StockItem.id item).
  { destruct (find (hasItemId (StockItem.id item)) (rev buffer)) eqn:F;
      [|reflexivity].
    now apply find_hasItemId in F. }
  rewrite I. unfold hasItemId at 2.
  rewrite (String.eqb_sym (StockItem.id u)).
  now destruct (String.eqb (StockItem.id item) (StockItem.id u)).
Qed.

Lemma releaseEntry_in_sync (today voucher : string)
    (allItems : list StockItem.t) (common : BulkReleaseCommonDetails.t)
    (st : ReleaseLoop) (entry : BulkReleaseItemEntry.t) :
  LedgerSpec.uniqueItems allItems ->
  loopStorage st = applyBuffer (updatedItemsBuffer st) allItems ->
  let st' := releaseEntry today voucher allItems common st entry in
  loopStorage st' = applyBuffer (updatedItemsBuffer st') allItems.
Proof.
  intros U I. unfold releaseEntry.
  destruct (find _ allItems) as [current|]; [|exact I].
  destruct (_ <=? 0); [exact I|].
  destruct (_ <? _); [exact I|].
  destruct (modifyItemBatchesForRelease _ _ _ _ _ (loopStorage st))
    as [r store'] eqn:E.
  destruct (modify_inv _ _ _ _ _ _ _ _ E)
    as [(e & -> & ->)|(updated & affected & -> & Eid & ->)]; simpl; [exact I|].
  rewrite I. now apply applyBuffer_step.
Qed.

Lemma addEntry_in_sync (today : string) (allItems : list StockItem.t)
    (st : AddLoop) (entryAndId : BulkAddItemEntry.t * string) :
  LedgerSpec.uniqueItems allItems ->
  addLoopStorage st = applyBuffer (addLoopProcessed st) allItems ->
  let st' := addEntry today allItems st entryAndId in
  addLoopStorage st' = applyBuffer (addLoopProcessed st') allItems.
Proof.
  intros U I. destruct entryAndId as [entry newBatchId]. unfold addEntry.
  destruct (find _ allItems) as [current|]; [|exact I].
  destruct (_ <=? 0); [exact I|].
  destruct (addBatchToItem _ _ _ _ _ (addLoopStorage st)) as [r store'] eqn:E.
  destruct (addBatchToItem_inv _ _ _ _ _ _ _ _ E)
    as [(-> & ->)|(updated & -> & Eid & ->)]; simpl; [exact I|].
  rewrite I. now apply applyBuffer_step.
Qed.

(** X16. The bulk operations keep the state of the hook equal to the
    stored collection, and the identifiers distinct, when they were so
    before, whatever the entries: the items shown after a bulk release or
    a bulk addition are the items stored, also when an entry is refused
    or an item is named by several entries. *)
Theorem bulk_operations_keep_state_in_sync :
  forall h : Hook,
    HookSpec.inSync h ->
    LedgerSpec.uniqueItems (storage h) ->
    (forall today voucher common entries,
        let h' := snd (processBulkStockRelease today voucher common entries h) in
        HookSpec.inSync h' /\ LedgerSpec.uniqueItems (storage h'))
    /\ (forall today entries,
           let h' := snd (processBulkAddStock today entries h) in
           HookSpec.inSync h' /\ LedgerSpec.uniqueItems (storage h')).
Proof.
  intros h S U. unfold HookSpec.inSync in *. split.
  - intros today voucher common entries. unfold processBulkStockRelease.
    set (st := fold_left _ entries _). cbn [snd allItemsState storage].
    assert (I : loopStorage st
                = applyBuffer (updatedItemsBuffer st) (allItemsState h)).
    { subst st. apply fold_left_invariant.
      - intros a b. apply releaseEntry_in_sync. now rewrite S.
      - simpl. now symmetry. }
    split; [now symmetry|].
    unfold LedgerSpec.uniqueItems. rewrite I, applyBuffer_ids. now rewrite S.
  - intros today entries. unfold processBulkAddStock.
    set (st := fold_left _ entries _). cbn [snd allItemsState storage].
    assert (I : addLoopStorage st
                = applyBuffer (addLoopProcessed st) (allItemsState h)).
    { subst st. apply fold_left_invariant.
      - intros a b. apply addEntry_in_sync. now rewrite S.
      - simpl. now symmetry. }
    split; [now symmetry|].
    unfold LedgerSpec.uniqueItems. rewrite I, applyBuffer_ids. now rewrite S.
Qed.

Lemma bulk_operations_keep_state_in_sync_witness :
  let a := StockItem.mk "A" "Gauze" GENERAL_SUPPLIES "packs" 5
             [Batch.mk "a1" 10 None None "2025-01-05" None] "2025-01-05"
             None None in
  let h := mkHook [a] [a] in
  let h' :=
    snd (processBulkStockRelease "2025-01-10" "VOUCHER-1"
           (BulkReleaseCommonDetails.mk "Ward 3" None None)
           [BulkReleaseItemEntry.mk "A" 3; BulkReleaseItemEntry.mk "A" 4] h) in
  HookSpec.inSync h'
  /\ map Types.getTotalQuantity (allItemsState h') = [3].
Proof.
  intros a h h'.
  assert (S : HookSpec.inSync h) by reflexivity.
  assert (U : LedgerSpec.uniqueItems (storage h)).
  { unfold LedgerSpec.uniqueItems. simpl. repeat constructor. simpl. tauto. }
  destruct (bulk_operations_keep_state_in_sync h S U) as [R _].
  split; [|reflexivity].
  exact (proj1 (R "2025-01-10"%string "VOUCHER-1"%string
                  (BulkReleaseCommonDetails.mk "Ward 3" None None)
                  [BulkReleaseItemEntry.mk "A" 3; BulkReleaseItemEntry.mk "A" 4])).
Defined.

(** ** Bulk addition *)

Lemma addEntry_outcome (today : string) (allItems : list StockItem.t)
    (st : AddLoop) (entry : BulkAddItemEntry.t) (newBatchId : string) :
  let st' := addEntry today allItems st (entry, newBatchId) in
  (exists e,
      UseStockManagement.itemId e = BulkAddItemEntry.itemId entry
      /\ st' = mkAddLoop (addLoopProcessed st) (addLoopErrors st ++ [e]) false
                 (addLoopStorage st))
  \/ (exists current stored updated newBatch,
         0 < BulkAddItemEntry.quantityAdded entry
         /\ find (hasItemId (BulkAddItemEntry.itemId entry)) allItems
            = Some current
         /\ find (hasItemId (BulkAddItemEntry.itemId entry)) (addLoopStorage st)
            = Some stored
         /\ StockItem.batches updated
            = (StockItem.batches stored ++ [newBatch])%list
         /\ Batch.quantity newBatch = BulkAddItemEntry.quantityAdded entry
         /\ StockItem.id updated = BulkAddItemEntry.itemId entry
         /\ st' = mkAddLoop (addLoopProcessed st ++ [updated]) (addLoopErrors st)
                    (addOverallSuccess st)
                    (mutateFirst (hasItemId (BulkAddItemEntry.itemId entry))
                       (fun _ => updated) (addLoopStorage st))).
Proof.
  unfold addEntry.
  destruct (find _ allItems) as [current|] eqn:F;
    [|left; eexists; split; [|reflexivity]; reflexivity].
  destruct (_ <=? 0) eqn:Hq;
    [left; eexists; split; [|reflexivity]; reflexivity|].
  apply Z.leb_gt in Hq.
  destruct (find (hasItemId (BulkAddItemEntry.itemId entry)) (addLoopStorage st))
    as [stored|] eqn:Fs.
  - right.
    match goal with
    | |- context [addBatchToItem ?t ?n ?i ?d ?u ?s] =>
        destruct (addBatchToItem_resolved t n i d u s stored Fs) as [E _];
        rewrite E
    end.
    eexists current, stored, _, _. split; [exact Hq|].
    split; [first [reflexivity|exact F]|].
    split; [first [reflexivity|exact Fs]|].
    refine (conj _ (conj _ (conj _ _))); cycle 3; [reflexivity| | |].
    + reflexivity.
    + reflexivity.
    + simpl. exact (find_hasItemId _ _ _ Fs).
  - left. unfold addBatchToItem, getItemsFromStorage. rewrite Fs.
    eexists; split; [|reflexivity]; reflexivity.
Qed.

Lemma mutateFirst_nonNegative (id : string) (u : StockItem.t) (l : list StockItem.t) :
  HookSpec.storedNonNegative l -> Spec.nonNegative (StockItem.batches u) ->
  HookSpec.storedNonNegative (mutateFirst (hasItemId id) (fun _ => u) l).
Proof.
  unfold HookSpec.storedNonNegative. intros H Hu.
  induction l as [|a l IH]; simpl; [constructor|].
  inversion H; subst.
  destruct (hasItemId id a); constructor; auto.
Qed.

Lemma addLoop_counts (today : string) (allItems : list StockItem.t)
    (entries : list (BulkAddItemEntry.t * string)) :
  forall st,
    let st' := fold_left (addEntry today allItems) entries st in
    (List.length (addLoopProcessed st') + List.length (addLoopErrors st')
     = List.length (addLoopProcessed st) + List.length (addLoopErrors st)
       + List.length entries)%nat.
Proof.
  induction entries as [|[entry nb] entries IH]; intros st; [simpl; lia|].
  cbn [fold_left]. cbv zeta in *. rewrite IH.
  destruct (addEntry_outcome today allItems st entry nb)
    as [(e & _ & ->)|(c & s & u & b & _ & _ & _ & _ & _ & _ & ->)];
    simpl; rewrite length_app; simpl; lia.
Qed.

(** X17. A bulk addition answers for every entry, with a processed item
    or with an error, and succeeds exactly when there is no error and at
    least one item was processed. It stores no batch with a quantity that
    is not positive: an entry with such a quantity gets an error and
    changes nothing, and stored quantities that were not negative stay
    so. *)
Theorem bulk_add_takes_positive_quantities_only :
  forall (today : string) (entries : list (BulkAddItemEntry.t * string))
         (h : Hook),
    let out := processBulkAddStock today entries h in
    (List.length (addProcessedItems (fst out))
     + List.length (addErrors (fst out))
     = List.length entries)%nat
    /\ (addSuccess (fst out) = true
        <-> addErrors (fst out) = [] /\ addProcessedItems (fst out) <> [])
    /\ (HookSpec.storedNonNegative (storage h) ->
        HookSpec.storedNonNegative (storage (snd out)))
    /\ (forall entry newBatchId,
           entries = [(entry, newBatchId)] ->
           BulkAddItemEntry.quantityAdded entry <= 0 ->
           addProcessedItems (fst out) = []
           /\ storage (snd out) = storage h
           /\ exists e, addErrors (fst out) = [e]
                        /\ UseStockManagement.itemId e = BulkAddItemEntry.itemId entry).
Proof.
  intros today entries h out. subst out. unfold processBulkAddStock.
  cbn [fst snd addProcessedItems addErrors addSuccess storage].
  split; [|split; [|split]].
  - rewrite addLoop_counts. simpl. lia.
  - set (st := fold_left _ entries _).
    assert (I : addOverallSuccess st = true <-> addLoopErrors st = []).
    { subst st. apply fold_left_invariant; [|simpl; tauto].
      intros a [entry nb] Ia.
      destruct (addEntry_outcome today (allItemsState h) a entry nb)
        as [(e & _ & ->)|(c & s & u & b & _ & _ & _ & _ & _ & _ & ->)];
        simpl; [|exact Ia].
      split; [discriminate|]. intros H. now destruct (addLoopErrors a). }
    rewrite andb_true_iff, I.
    destruct (addLoopProcessed st); simpl; split; intros [A B];
      split; auto; try discriminate; try lia; congruence.
  - intros NN. apply fold_left_invariant; [|exact NN].
    intros a [entry nb] Ia.
    destruct (addEntry_outcome today (allItemsState h) a entry nb)
      as [(e & _ & ->)|(c & s & u & b & Hq & _ & Fs & Eb & Eq & _ & ->)];
      simpl; [exact Ia|].
    apply mutateFirst_nonNegative; [exact Ia|].
    rewrite Eb. unfold Spec.nonNegative. apply Forall_app. split.
    + unfold HookSpec.storedNonNegative in Ia. rewrite Forall_forall in Ia.
      apply Ia. apply find_some in Fs. tauto.
    + constructor; [lia|constructor].
  - intros entry nb -> Hq. cbn [fold_left].
    destruct (addEntry_outcome today (allItemsState h)
                (mkAddLoop [] [] true (storage h)) entry nb)
      as [(e & Ee & ->)|(c & s & u & b & Hq' & _)]; [|lia].
    simpl. split; [reflexivity|]. split; [reflexivity|].
    exists e. split; [reflexivity|exact Ee].
Qed.

Lemma bulk_add_takes_positive_quantities_only_witness :
  let a := StockItem.mk "A" "Gauze" GENERAL_SUPPLIES "packs" 5
             [Batch.mk "a1" 10 None None "2025-01-05" None] "2025-01-05"
             None None in
  let h := mkHook [a] [a] in
  let entry := BulkAddItemEntry.mk "A" (-5) None None None in
  let out := processBulkAddStock "2025-01-10" [(entry, "a2"%string)] h in
  addProcessedItems (fst out) = []
  /\ storage (snd out) = [a]
  /\ addErrors (fst out) = [mkBulkError "A" "Gauze" QuantityAddedMustBePositiveText]
  /\ HookSpec.storedNonNegative (storage (snd out)).
Proof.
  intros a h entry.
  destruct (bulk_add_takes_positive_quantities_only "2025-01-10"
              [(entry, "a2"%string)] h) as (_ & _ & NN & R).
  destruct (R entry "a2"%string eq_refl) as (P & S & _); [simpl; lia|].
  cbv zeta. split; [exact P|]. split; [exact S|]. split; [reflexivity|].
  apply NN. repeat constructor. simpl. lia.
Defined.

(** ** Trimming, and the note of a bulk addition *)

Lemma trimEnd_app_blank (a b : string) :
  JsString.trimEnd b = EmptyString ->
  JsString.trimEnd (a ++ b) = JsString.trimEnd a.
Proof.
  intros H. induction a as [|c a IH]; simpl; [exact H|]. now rewrite IH.
Qed.

Lemma trimEnd_idem (s : string) :
  JsString.trimEnd (JsString.trimEnd s) = JsString.trimEnd s.
Proof.
  induction s as [|c s IH]; [reflexivity|].
  cbn [JsString.trimEnd].
  destruct (JsString.trimEnd s) as [|x t] eqn:E.
  - destruct (JsString.isSpace c) eqn:Hc; [reflexivity|].
    cbn [JsString.trimEnd]. now rewrite Hc.
  - change (JsString.trimEnd (String c (String x t)))
      with (match JsString.trimEnd (String x t) with
            | EmptyString =>
                if JsString.isSpace c then EmptyString else String c EmptyString
            | String y u => String c (String y u)
            end).
    now rewrite IH.
Qed.

Lemma trimEnd_head (c : ascii) (s : string) :
  JsString.trimEnd (String c s) = EmptyString
  \/ exists t, JsString.trimEnd (String c s) = String c t.
Proof.
  cbn [JsString.trimEnd]. destruct (JsString.trimEnd s).
  - destruct (JsString.isSpace c); [now left|right; eauto].
  - right. eauto.
Qed.

Lemma trimStart_head (s : string) :
  JsString.trimStart s = EmptyString
  \/ exists c t, JsString.trimStart s = String c t /\ JsString.isSpace c = false.
Proof.
  induction s as [|c s IH]; simpl; [now left|].
  destruct (JsString.isSpace c) eqn:Hc; [exact IH|]. right. eauto.
Qed.

Lemma trim_idem (s : string) : JsString.trim (JsString.trim s) = JsString.trim s.
Proof.
  unfold JsString.trim.
  destruct (trimStart_head s) as [E|(c & t & E & Hc)]; rewrite E;
    [reflexivity|].
  destruct (trimEnd_head c t) as [E'|(t' & E')]; rewrite E'; [reflexivity|].
  cbn [JsString.trimStart]. rewrite Hc. rewrite <- E'. apply trimEnd_idem.
Qed.

Lemma prefix_app (a b : string) : String.prefix a (a ++ b) = true.
Proof.
  induction a as [|c a IH]; simpl; [now destruct b|].
  destruct (ascii_dec c c) as [_|N]; [exact IH|contradiction].
Qed.

Lemma trimEnd_full_stop (a : string) :
  JsString.trimEnd (a ++ ".") = (a ++ ".")%string.
Proof. now rewrite trimEnd_app. Qed.

(** The note that [processBulkAddStock] composes. *)
Lemma bulk_note_trimmed (today n unit user : string) :
  let systemNote :=
    ("[Bulk Add Stock - " ++ today ++ "]: Added " ++ n ++ " " ++ unit ++ ".")%string in
  exists t,
    JsString.trim (systemNote ++ " " ++ user) = (systemNote ++ t)%string.
Proof.
  intros systemNote.
  assert (N : JsString.trimEnd systemNote = systemNote).
  { subst systemNote.
    rewrite <- !append_assoc. apply trimEnd_full_stop. }
  unfold JsString.trim.
  assert (S : JsString.trimStart (systemNote ++ " " ++ user)
              = (systemNote ++ " " ++ user)%string) by reflexivity.
  rewrite S.
  destruct (JsString.trimEnd (" " ++ user)) as [|x t] eqn:E.
  - exists EmptyString. rewrite trimEnd_app_blank by exact E.
    rewrite N. clear. induction systemNote; simpl; congruence.
  - exists (String x t). rewrite trimEnd_app by (rewrite E; discriminate).
    now rewrite E.
Qed.

(** A single entry of a bulk addition that passes the checks. *)
Lemma bulk_add_single (today newBatchId : string) (entry : BulkAddItemEntry.t)
    (h : Hook) (current stored : StockItem.t) :
  find (hasItemId (BulkAddItemEntry.itemId entry)) (allItemsState h)
  = Some current ->
  find (hasItemId (BulkAddItemEntry.itemId entry)) (storage h) = Some stored ->
  0 < BulkAddItemEntry.quantityAdded entry ->
  let systemNote :=
    ("[Bulk Add Stock - " ++ today ++ "]: Added "
     ++ JsString.ofNumber (BulkAddItemEntry.quantityAdded entry) ++ " "
     ++ StockItem.unit current ++ ".")%string in
  let final :=
    JsString.trim
      (systemNote ++ " " ++ orEmpty (BulkAddItemEntry.batchNotes entry)) in
  let newBatch :=
    newBatchOf today newBatchId
      (mkBatchData (BulkAddItemEntry.quantityAdded entry)
         (BulkAddItemEntry.expiryDate entry) (BulkAddItemEntry.supplier entry)
         (Some final))
      (StockItem.unit current) in
  let updated :=
    StockItem.withLastUpdated today
      (StockItem.withBatches (StockItem.batches stored ++ [newBatch]) stored) in
  processBulkAddStock today [(entry, newBatchId)] h
  = (mkBulkAddResult true [updated] [],
     mkHook (applyBuffer [updated] (allItemsState h))
       (mutateFirst (hasItemId (BulkAddItemEntry.itemId entry))
          (fun _ => updated) (storage h)))
  /\ find (hasItemId (BulkAddItemEntry.itemId entry))
       (mutateFirst (hasItemId (BulkAddItemEntry.itemId entry))
          (fun _ => updated) (storage h))
     = Some updated
  /\ Batch.notes newBatch = Some final
  /\ JsString.startsWith final systemNote = true.
Proof.
  intros F Fs Hq systemNote final newBatch updated.
  destruct (bulk_note_trimmed today
              (JsString.ofNumber (BulkAddItemEntry.quantityAdded entry))
              (StockItem.unit current)
              (orEmpty (BulkAddItemEntry.batchNotes entry))) as [t Et].
  fold systemNote in Et. fold final in Et.
  set (data := mkBatchData (BulkAddItemEntry.quantityAdded entry)
                 (BulkAddItemEntry.expiryDate entry)
                 (BulkAddItemEntry.supplier entry) (Some final)) in *.
  destruct (addBatchToItem_resolved today newBatchId
              (BulkAddItemEntry.itemId entry) data (StockItem.unit current)
              (storage h) stored Fs) as [E F'].
  fold newBatch in E, F'. fold updated in E, F'.
  assert (Sys : isSystemNote final = true).
  { rewrite Et. subst systemNote. reflexivity. }
  assert (Tr : truthy (Some final) = true).
  { rewrite Et. subst systemNote. reflexivity. }
  split; [|split; [exact F'|split]].
  - unfold processBulkAddStock. cbn [fold_left].
    unfold addEntry. rewrite F.
    replace (BulkAddItemEntry.quantityAdded entry <=? 0) with false
      by (symmetry; apply Z.leb_gt; lia).
    fold systemNote. fold final. fold data. cbn [addLoopStorage]. rewrite E.
    reflexivity.
  - unfold newBatch, newBatchOf, systemNotePrefix. cbn [notes data Batch.notes].
    unfold data. cbn [notes]. rewrite Tr. cbn [orEmpty]. rewrite Sys.
    cbn [andb append]. f_equal. unfold final. apply trim_idem.
  - unfold JsString.startsWith. rewrite Et. apply prefix_app.
Qed.

(** X18. A bulk addition with a positive quantity for an item that is
    shown and stored adds one batch with that quantity to the stored
    item, and the note of the batch is the one the hook composed: the
    line [[Bulk Add Stock - <today>]: Added <quantity> <unit>.] followed
    by the notes of the entry, trimmed; the service adds no tag of its
    own. *)
Theorem bulk_add_stores_composed_note :
  forall (today newBatchId : string) (entry : BulkAddItemEntry.t) (h : Hook)
         (current stored : StockItem.t),
    find (hasItemId (BulkAddItemEntry.itemId entry)) (allItemsState h)
    = Some current ->
    find (hasItemId (BulkAddItemEntry.itemId entry)) (storage h)
    = Some stored ->
    0 < BulkAddItemEntry.quantityAdded entry ->
    let systemNote :=
      ("[Bulk Add Stock - " ++ today ++ "]: Added "
       ++ JsString.ofNumber (BulkAddItemEntry.quantityAdded entry) ++ " "
       ++ StockItem.unit current ++ ".")%string in
    let out := processBulkAddStock today [(entry, newBatchId)] h in
    exists updated newBatch,
      fst out = mkBulkAddResult true [updated] []
      /\ find (hasItemId (BulkAddItemEntry.itemId entry)) (storage (snd out))
         = Some updated
      /\ StockItem.batches updated
         = (StockItem.batches stored ++ [newBatch])%list
      /\ Batch.quantity newBatch = BulkAddItemEntry.quantityAdded entry
      /\ Batch.notes newBatch
         = Some (JsString.trim
                   (systemNote ++ " "
                    ++ orEmpty (BulkAddItemEntry.batchNotes entry)))
      /\ JsString.startsWith
           (JsString.trim
              (systemNote ++ " " ++ orEmpty (BulkAddItemEntry.batchNotes entry)))
           systemNote
         = true.
Proof.
  intros today newBatchId entry h current stored F Fs Hq systemNote out.
  destruct (bulk_add_single today newBatchId entry h current stored F Fs Hq)
    as (E & F' & N & P).
  subst out. rewrite E. eexists _, _.
  split; [reflexivity|]. split; [exact F'|]. split; [reflexivity|].
  split; [reflexivity|]. split; [exact N|exact P].
Qed.

Lemma bulk_add_stores_composed_note_witness :
  let a := StockItem.mk "A" "Gauze" GENERAL_SUPPLIES "packs" 5
             [Batch.mk "a1" 10 None None "2025-01-05" None] "2025-01-05"
             None None in
  let h := mkHook [a] [a] in
  let entry := BulkAddItemEntry.mk "A" 12 None None (Some "PO 7 "%string) in
  exists updated newBatch,
    fst (processBulkAddStock "2025-01-10" [(entry, "a2"%string)] h)
    = mkBulkAddResult true [updated] []
    /\ StockItem.batches updated = (StockItem.batches a ++ [newBatch])%list
    /\ Batch.notes newBatch
       = Some "[Bulk Add Stock - 2025-01-10]: Added 12 packs. PO 7"%string.
Proof.
  intros a h entry.
  destruct (bulk_add_stores_composed_note "2025-01-10" "a2" entry h a a
              eq_refl eq_refl ltac:(simpl; lia))
    as (updated & newBatch & E & _ & B & _ & N & _).
  exists updated, newBatch. split; [exact E|]. split; [exact B|].
  rewrite N. reflexivity.
Defined.

(** ** Stock take *)

Lemma find_mutateFirst_applied {A : Type} (p : A -> bool) (f : A -> A)
    (l : list A) (x : A) :
  find p l = Some x -> p (f x) = true ->
  find p (mutateFirst p f l) = Some (f x).
Proof.
  induction l as [|a l IH]; simpl; intros F P; [discriminate F|].
  destruct (p a) eqn:E.
  - apply some_eq in F. subst a. simpl. now rewrite P.
  - simpl. rewrite E. now apply IH.
Qed.

Lemma mutateFirst_only_item (id : string) (f : StockItem.t -> StockItem.t)
    (l : list StockItem.t) :
  (forall x, StockItem.id (f x) = StockItem.id x) ->
  LedgerSpec.onlyItemChanged id l (mutateFirst (hasItemId id) f l).
Proof.
  intros Hf. unfold LedgerSpec.onlyItemChanged.
  induction l as [|a l IH]; simpl; [constructor|].
  destruct (hasItemId id a) eqn:E.
  - constructor.
    + unfold hasItemId in E. apply String.eqb_eq in E. split; [apply Hf|].
      intros N. contradiction.
    + apply Forall2_same. intros x. split; [reflexivity|auto].
  - constructor; [|exact IH]. split; [reflexivity|auto].
Qed.

(** X19. A stock take works on the first entry only and changes the
    state of the hook alone: the storage is not written, so the items
    read from it again are the ones from before the count. In the state,
    the counted batch gets the counted quantity, whatever its sign, the
    item's total moves by the difference and the other items are left
    alone; when the count differs from the recorded quantity, the state
    and the storage no longer agree. *)
Theorem stock_take_changes_state_only :
  forall (today : string) (entries : list StockTakeEntry.t) (h : Hook),
    let h' := UseStockManagementItems.performStockTake today entries h in
    storage h' = storage h
    /\ getAllItems (storage h') = getAllItems (storage h)
    /\ (forall entry rest,
           entries = entry :: rest ->
           h' = UseStockManagementItems.performStockTake today [entry] h)
    /\ (forall entry rest item batch,
           entries = entry :: rest ->
           find (hasItemId (StockTakeEntry.itemId entry)) (allItemsState h)
           = Some item ->
           find (hasBatchId (StockTakeEntry.batchId entry))
             (StockItem.batches item)
           = Some batch ->
           exists item' batch',
             find (hasItemId (StockTakeEntry.itemId entry)) (allItemsState h')
             = Some item'
             /\ find (hasBatchId (StockTakeEntry.batchId entry))
                  (StockItem.batches item')
                = Some batch'
             /\ Batch.quantity batch' = StockTakeEntry.countedQuantity entry
             /\ Types.getTotalQuantity item'
                = Types.getTotalQuantity item - Batch.quantity batch
                  + StockTakeEntry.countedQuantity entry
             /\ StockItem.lastUpdated item' = today
             /\ LedgerSpec.onlyItemChanged (StockTakeEntry.itemId entry)
                  (allItemsState h) (allItemsState h')
             /\ (HookSpec.inSync h ->
                 StockTakeEntry.countedQuantity entry <> Batch.quantity batch ->
                 ~ HookSpec.inSync h')).
Proof.
  intros today entries h h'. subst h'.
  split; [|split; [|split]].
  - unfold UseStockManagementItems.performStockTake.
    destruct entries as [|entry rest]; [reflexivity|].
    destruct (allItemsState h); [reflexivity|].
    destruct (find _ _) as [item|]; [|reflexivity].
    destruct (find _ _); reflexivity.
  - unfold UseStockManagementItems.performStockTake.
    destruct entries as [|entry rest]; [reflexivity|].
    destruct (allItemsState h); [reflexivity|].
    destruct (find _ _) as [item|]; [|reflexivity].
    destruct (find _ _); reflexivity.
  - intros entry rest ->. reflexivity.
  - intros entry rest item batch -> Fi Fb.
    unfold UseStockManagementItems.performStockTake.
    destruct (allItemsState h) as [|i0 items] eqn:Es; [discriminate Fi|].
    rewrite <- Es in *. rewrite Fi, Fb. cbn [allItemsState storage].
    set (count := UseStockManagementItems.countBatch today entry).
    set (f := fun item0 : StockItem.t =>
                StockItem.withLastUpdated today
                  (StockItem.withBatches
                     (mutateFirst (hasBatchId (StockTakeEntry.batchId entry))
                        count (StockItem.batches item0))
                     item0)).
    exists (f item), (count batch).
    assert (Fi' : find (hasItemId (StockTakeEntry.itemId entry))
                    (mutateFirst (hasItemId (StockTakeEntry.itemId entry)) f
                       (allItemsState h))
                  = Some (f item)).
    { apply find_mutateFirst_applied; [exact Fi|].
      unfold hasItemId. simpl. apply String.eqb_eq.
      exact (find_hasItemId _ _ _ Fi). }
    assert (T : Types.getTotalQuantity (f item)
                = Types.getTotalQuantity item - Batch.quantity batch
                  + StockTakeEntry.countedQuantity entry).
    { unfold Types.getTotalQuantity. simpl.
      rewrite (mutateFirst_sum _ _ _ _ _ Fb). reflexivity. }
    split; [exact Fi'|]. split.
    { simpl. apply find_mutateFirst_applied; [exact Fb|].
      apply find_some in Fb. exact (proj2 Fb). }
    split; [reflexivity|]. split; [exact T|]. split; [reflexivity|].
    split; [apply mutateFirst_only_item; reflexivity|].
    unfold HookSpec.inSync. cbn [allItemsState storage].
    intros S N S'. rewrite <- S in S'. rewrite S' in Fi'.
    rewrite Fi in Fi'. apply some_eq in Fi'. rewrite <- Fi' in T. lia.
Qed.

Lemma stock_take_changes_state_only_witness :
  let a := StockItem.mk "A" "Gauze" GENERAL_SUPPLIES "packs" 5
             [Batch.mk "a1" 10 None None "2025-01-05" None] "2025-01-05"
             None None in
  let h := mkHook [a] [a] in
  let entries :=
    [StockTakeEntry.mk "A" "a1" 7 (Some "recount"%string);
     StockTakeEntry.mk "A" "a1" 99 None] in
  let h' := UseStockManagementItems.performStockTake "2025-01-10" entries h in
  storage h' = [a]
  /\ map Types.getTotalQuantity (allItemsState h') = [7]
  /\ ~ HookSpec.inSync h'.
Proof.
  intros a h entries h'.
  destruct (stock_take_changes_state_only "2025-01-10" entries h)
    as (S & _ & _ & C).
  split; [exact S|]. split; [reflexivity|].
  destruct (C (StockTakeEntry.mk "A" "a1" 7 (Some "recount"%string))
              [StockTakeEntry.mk "A" "a1" 99 None] a
              (Batch.mk "a1" 10 None None "2025-01-05" None)
              eq_refl eq_refl eq_refl)
    as (i' & b' & _ & _ & _ & _ & _ & _ & N).
  apply N; [reflexivity|simpl; lia].
Defined.

(** ** The movement report *)

Lemma fold_left_invariant_in {A B : Type} (P : A -> Prop) (f : A -> B -> A)
    (l : list B) :
  (forall a b, In b l -> P a -> P (f a b)) ->
  forall a, P a -> P (fold_left f l a).
Proof.
  induction l as [|b l IH]; simpl; intros Hf a Ha; [exact Ha|].
  apply IH; [intros; apply Hf; auto|]. apply Hf; auto.
Qed.

Lemma analysis_invariant (P : Analysis -> Prop) (s e : number)
    (items : list StockItem.t) :
  (forall item a line, In item items -> P a -> P (analyzeLine s e item a line)) ->
  forall a, P a -> P (fold_left (analyzeItem s e) items a).
Proof.
  intros H. apply fold_left_invariant_in. intros a item I Pa.
  unfold analyzeItem. apply fold_left_invariant; [|exact Pa].
  intros a' batch Pa'. unfold analyzeBatch.
  destruct (truthy (Batch.notes batch)); [|exact Pa'].
  apply fold_left_invariant; [|exact Pa'].
  intros a'' line Pa''. now apply H.
Qed.

Lemma upsert_sum (g : ItemMovement -> Z) (d : Z) (id : string)
    (init : ItemMovement) (f : ItemMovement -> ItemMovement)
    (m : list ItemMovement) :
  g init = 0 -> (forall x, g (f x) = g x + d) ->
  sumOf g (upsert id init f m) = sumOf g m + d.
Proof.
  intros Hi Hf. induction m as [|x m IH]; simpl.
  - rewrite sumOf_cons, !sumOf_nil, Hf, Hi. lia.
  - destruct (String.eqb (itemId x) id).
    + rewrite !sumOf_cons, Hf. lia.
    + rewrite !sumOf_cons, IH. lia.
Qed.

Lemma upsert_ids (id : string) (init : ItemMovement)
    (f : ItemMovement -> ItemMovement) (m : list ItemMovement) :
  itemId init = id -> (forall x, itemId (f x) = itemId x) ->
  NoDup (map itemId m) -> NoDup (map itemId (upsert id init f m)).
Proof.
  intros Hi Hf.
  assert (In_ids : forall m' y, In y (map itemId (upsert id init f m')) ->
                     y = id \/ In y (map itemId m')).
  { induction m' as [|x m' IH]; simpl; intros y.
    - rewrite Hf, Hi. intros [H|[]]; auto.
    - destruct (String.eqb (itemId x) id) eqn:E; simpl.
      + rewrite Hf. tauto.
      + intros [H|H]; [tauto|]. apply IH in H. tauto. }
  induction m as [|x m IH]; simpl; intros N.
  - repeat constructor. simpl. tauto.
  - apply NoDup_cons_iff in N. destruct N as [H1 H2].
    destruct (String.eqb (itemId x) id) eqn:E; simpl.
    + rewrite Hf. now constructor.
    + constructor; [|now apply IH].
      intros I. apply In_ids in I. destruct I as [I|I]; [|contradiction].
      rewrite I, String.eqb_refl in E. discriminate E.
Qed.

Lemma upsert_Forall (Q : ItemMovement -> Prop) (id : string)
    (init : ItemMovement) (f : ItemMovement -> ItemMovement)
    (m : list ItemMovement) :
  Q (f init) -> (forall x, Q x -> Q (f x)) ->
  Forall Q m -> Forall Q (upsert id init f m).
Proof.
  intros Hi Hf. induction m as [|x m IH]; simpl; intros H.
  - repeat constructor. exact Hi.
  - inversion H; subst.
    destruct (String.eqb (itemId x) id); constructor; auto.
Qed.

(** The four outcomes of one note line. *)
Lemma analyzeLine_cases (s e : number) (item : StockItem.t) (a : Analysis)
    (line : string) :
  let init :=
    mkItemMovement (StockItem.id item) (StockItem.name item)
      (StockItem.unit item) 0 0 in
  analyzeLine s e item a line = a
  \/ (exists q,
         analyzeLine s e item a line
         = mkAnalysis (overallStockInQuantity a + q) (overallStockOutQuantity a)
             (overallStockInTransactions a + 1) (overallStockOutTransactions a)
             (upsert (StockItem.id item) init (addIn q) (itemMovementsData a)))
  \/ (exists q,
         analyzeLine s e item a line
         = mkAnalysis (overallStockInQuantity a) (overallStockOutQuantity a + q)
             (overallStockInTransactions a) (overallStockOutTransactions a + 1)
             (upsert (StockItem.id item) init (addOut q) (itemMovementsData a))).
Proof.
  unfold analyzeLine.
  destruct (firstOf initialStockRegex _ _ line) as [[d ds]|].
  - destruct (inRange s e (JsDate.getTime d)); [|now left].
    right. left. eexists. reflexivity.
  - destruct (firstOf stockOutRegex _ _ line) as [[d ds]|]; [|now left].
    destruct (inRange s e (JsDate.getTime d)); [|now left].
    right. right. eexists. reflexivity.
Qed.

Lemma sumOf_map {A B : Type} (g : B -> Z) (h : A -> B) (l : list A) :
  sumOf g (map h l) = sumOf (fun x => g (h x)) l.
Proof.
  induction l as [|x l IH]; simpl; [reflexivity|].
  now rewrite !sumOf_cons, IH.
Qed.

Lemma sumOf_minus {A : Type} (f g : A -> Z) (l : list A) :
  sumOf (fun x => f x - g x) l = sumOf f l - sumOf g l.
Proof.
  induction l as [|x l IH]; [reflexivity|].
  rewrite !sumOf_cons, IH. lia.
Qed.

(** X20. In a movement report the totals of the summary are the sums of
    the rows of the breakdown: stock in, stock out, and the net change,
    which is stock in minus stock out in the summary and in every
    row. *)
Theorem report_summary_is_sum_of_rows :
  forall (tza : Z) (startDate endDate : string) (allItems : list StockItem.t)
         (r : StockMovementAnalysisResult),
    handleAnalyzeStockMovement tza startDate endDate allItems = Some r ->
    totalStockInQuantity (overallSummary r) = ReportSpec.rowsIn r
    /\ totalStockOutQuantity (overallSummary r) = ReportSpec.rowsOut r
    /\ netChange (overallSummary r) = ReportSpec.rowsNet r
    /\ netChange (overallSummary r)
       = totalStockInQuantity (overallSummary r)
         - totalStockOutQuantity (overallSummary r)
    /\ Forall (fun d => itemNetChange d
                        = quantityIn (movement d) - quantityOut (movement d))
         (itemsBreakdown r).
Proof.
  intros tza startDate endDate allItems r H.
  unfold handleAnalyzeStockMovement in H.
  destruct (_ || _); [discriminate H|].
  apply some_eq in H. subst r.
  set (a := fold_left _ allItems _).
  assert (I : overallStockInQuantity a = sumOf quantityIn (itemMovementsData a)
              /\ overallStockOutQuantity a
                 = sumOf quantityOut (itemMovementsData a)).
  { subst a. apply analysis_invariant; [|split; reflexivity].
    intros item a line _ [Ii Io].
    destruct (analyzeLine_cases (dayStart tza startDate) (dayEnd tza endDate)
                item a line) as [->|[(q & ->)|(q & ->)]]; simpl.
    - split; assumption.
    - split.
      + rewrite (upsert_sum quantityIn q) by (intros; reflexivity). lia.
      + rewrite (upsert_sum quantityOut 0) by (intros; simpl; lia). lia.
    - split.
      + rewrite (upsert_sum quantityIn 0) by (intros; simpl; lia). lia.
      + rewrite (upsert_sum quantityOut q) by (intros; reflexivity). lia. }
  destruct I as [Ii Io].
  unfold ReportSpec.rowsIn, ReportSpec.rowsOut, ReportSpec.rowsNet.
  cbn [overallSummary itemsBreakdown totalStockInQuantity totalStockOutQuantity
       netChange].
  rewrite !sumOf_map. cbn [movement itemNetChange].
  rewrite sumOf_minus.
  split; [exact Ii|]. split; [exact Io|]. split; [now rewrite Ii, Io|].
  split; [reflexivity|].
  rewrite Forall_map. apply Forall_forall. intros; reflexivity.
Qed.

Lemma report_summary_is_sum_of_rows_witness :
  let x :=
    StockItem.mk "X" "Gauze" GENERAL_SUPPLIES "packs" 5
      [Batch.mk "x1" 190 None None "2025-01-02"
         (Some ("[Initial Stock - 2025-01-02]: Added 200 packs." ++ JsString.newline
                ++ "[Stock Out - 2025-01-03]: Consumed 10 packs from batch ID x1. Reason: used.")%string)]
      "2025-01-03" None None in
  exists r,
    handleAnalyzeStockMovement 0 "2025-01-01" "2025-01-31" [x] = Some r
    /\ ReportSpec.rowsIn r = 200 /\ ReportSpec.rowsOut r = 10
    /\ netChange (overallSummary r) = ReportSpec.rowsNet r.
Proof.
  intros x.
  destruct (handleAnalyzeStockMovement 0 "2025-01-01" "2025-01-31" [x])
    as [r|] eqn:E; [|discriminate E].
  exists r. split; [reflexivity|].
  destruct (report_summary_is_sum_of_rows _ _ _ _ _ E) as (_ & _ & N & _).
  vm_compute in E. apply some_eq in E. subst r.
  split; [reflexivity|]. split; [reflexivity|exact N].
Defined.

(** X21. The breakdown of a movement report has at most one row for an
    item identifier, and every row carries the identifier, the name and
    the unit of an item of the collection. *)
Theorem report_has_one_row_per_item :
  forall (tza : Z) (startDate endDate : string) (allItems : list StockItem.t)
         (r : StockMovementAnalysisResult),
    handleAnalyzeStockMovement tza startDate endDate allItems = Some r ->
    NoDup (map (fun d => itemId (movement d)) (itemsBreakdown r))
    /\ Forall (ReportSpec.rowOf allItems) (itemsBreakdown r).
Proof.
  intros tza startDate endDate allItems r H.
  unfold handleAnalyzeStockMovement in H.
  destruct (_ || _); [discriminate H|].
  apply some_eq in H. subst r.
  set (a := fold_left _ allItems _).
  set (Q := fun m : ItemMovement =>
              exists item, In item allItems /\ itemId m = StockItem.id item
                           /\ itemName m = StockItem.name item
                           /\ itemUnit m = StockItem.unit item).
  assert (I : NoDup (map itemId (itemMovementsData a))
              /\ Forall Q (itemMovementsData a)).
  { subst a. apply analysis_invariant; [|split; constructor].
    intros item a line Ii [N F].
    destruct (analyzeLine_cases (dayStart tza startDate) (dayEnd tza endDate)
                item a line) as [->|[(q & ->)|(q & ->)]]; simpl.
    - split; assumption.
    - split; [apply upsert_ids; auto|].
      apply upsert_Forall; auto.
      exists item. simpl. auto.
    - split; [apply upsert_ids; auto|].
      apply upsert_Forall; auto.
      exists item. simpl. auto. }
  destruct I as [N F]. cbn [itemsBreakdown]. split.
  - rewrite map_map. exact N.
  - rewrite Forall_map. exact F.
Qed.

Lemma report_has_one_row_per_item_witness :
  let note := Some "[Initial Stock - 2025-01-02]: Added 200 packs."%string in
  let x1 := StockItem.mk "X" "Gauze" GENERAL_SUPPLIES "packs" 5
              [Batch.mk "x1" 200 None None "2025-01-02" note;
               Batch.mk "x2" 200 None None "2025-01-02" note]
              "2025-01-03" None None in
  exists r,
    handleAnalyzeStockMovement 0 "2025-01-01" "2025-01-31" [x1] = Some r
    /\ map (fun d => (itemId (movement d), quantityIn (movement d)))
         (itemsBreakdown r)
       = [("X"%string, 400)]
    /\ Forall (ReportSpec.rowOf [x1]) (itemsBreakdown r).
Proof.
  intros note x1.
  destruct (handleAnalyzeStockMovement 0 "2025-01-01" "2025-01-31" [x1])
    as [r|] eqn:E; [|discriminate E].
  exists r. split; [reflexivity|].
  destruct (report_has_one_row_per_item _ _ _ _ _ E) as (_ & F).
  split; [|exact F].
  vm_compute in E. apply some_eq in E. subst r. reflexivity.
Defined.

Lemma analyzeLine_unreachable (s e : number) (item : StockItem.t)
    (a : Analysis) (line : string) :
  (forall x, inRange s e x = false) -> analyzeLine s e item a line = a.
Proof.
  intros H. unfold analyzeLine.
  destruct (firstOf initialStockRegex _ _ line) as [[d ds]|];
    [now rewrite H|].
  destruct (firstOf stockOutRegex _ _ line) as [[d ds]|]; [now rewrite H|].
  reflexivity.
Qed.

Lemma inverted_range (tza : Z) (startDate endDate : string) :
  JsDate.isDate startDate = true -> JsDate.isDate endDate = true ->
  Spec.dayOf endDate < Spec.dayOf startDate ->
  forall x, inRange (dayStart tza startDate) (dayEnd tza endDate) x = false.
Proof.
  intros Ds De H x. unfold inRange, dayStart, dayEnd, leb, geb.
  destruct (getTime_fields _ Ds) as (fs & _ & Es).
  destruct (getTime_fields _ De) as (fe & _ & Ee).
  rewrite (isDate_getTime _ Ds), (isDate_getTime _ De). simpl.
  destruct x as [x|]; [|reflexivity].
  apply andb_false_iff.
  destruct (Z.leb_spec (JsDate.setHours tza (Spec.dayOf startDate) 0 0 0 0) x)
    as [L|L]; [right|now left].
  apply Z.leb_gt. rewrite Es, Ee in *. unfold JsDate.setHours in *.
  unfold JsDate.msPerDay in *.
  assert (Spec.dayOfFields fe + 1 <= Spec.dayOfFields fs) by lia.
  Z.div_mod_to_equations. lia.
Qed.

(** X22. The analysis gives no report exactly when a date of the period
    is missing. When the end date is a day before the start date it
    reports an empty period, all totals 0 and no row, whatever the notes
    hold and whatever the time zone. *)
Theorem report_of_inverted_period_is_empty :
  forall (tza : Z) (startDate endDate : string) (allItems : list StockItem.t),
    (handleAnalyzeStockMovement tza startDate endDate allItems = None
     <-> startDate = EmptyString \/ endDate = EmptyString)
    /\ (JsDate.isDate startDate = true -> JsDate.isDate endDate = true ->
        Spec.dayOf endDate < Spec.dayOf startDate ->
        handleAnalyzeStockMovement tza startDate endDate allItems
        = Some ReportSpec.emptyReport).
Proof.
  intros tza startDate endDate allItems. unfold handleAnalyzeStockMovement.
  split.
  - destruct (String.eqb_spec startDate EmptyString) as [Es|Es];
      destruct (String.eqb_spec endDate EmptyString) as [Ee|Ee]; simpl;
      split; intros H; auto; try discriminate H; destruct H; contradiction.
  - intros Ds De H.
    rewrite (date_not_empty _ Ds), (date_not_empty _ De). cbn [orb].
    assert (E : fold_left
                  (analyzeItem (dayStart tza startDate) (dayEnd tza endDate))
                  allItems (mkAnalysis 0 0 0 0 [])
                = mkAnalysis 0 0 0 0 []).
    { apply (analysis_invariant (fun a => a = mkAnalysis 0 0 0 0 []));
        [|reflexivity].
      intros item a line _ ->. apply analyzeLine_unreachable.
      now apply inverted_range. }
    rewrite E. reflexivity.
Qed.

Lemma report_of_inverted_period_is_empty_witness :
  let x :=
    StockItem.mk "X" "Gauze" GENERAL_SUPPLIES "packs" 5
      [Batch.mk "x1" 200 None None "2025-01-02"
         (Some "[Initial Stock - 2025-01-02]: Added 200 packs."%string)]
      "2025-01-02" None None in
  handleAnalyzeStockMovement 0 "2025-01-31" "2025-01-01" [x]
  = Some ReportSpec.emptyReport.
Proof.
  intros x.
  apply (proj2 (report_of_inverted_period_is_empty 0 "2025-01-31"
                  "2025-01-01" [x])); reflexivity.
Defined.

(** ** Quantities in notes *)

Lemma parseInt_parseFrom (s : string) : parseInt s = NoteSpec.parseFrom 0 s.
Proof. reflexivity. Qed.

Lemma parseFrom_uint (d : Decimal.uint) :
  forall acc,
    NoteSpec.parseFrom acc (NilEmpty.string_of_uint d) = NoteSpec.uintFrom acc d.
Proof.
  induction d; intros acc;
    cbn [NilEmpty.string_of_uint NoteSpec.parseFrom NoteSpec.uintFrom];
    try reflexivity;
    match goal with
    | |- context [JsDate.digitVal ?c] =>
        let v := eval vm_compute in (JsDate.digitVal c) in
        change (JsDate.digitVal c) with v
    end;
    cbv iota; rewrite IHd; f_equal; lia.
Qed.

Lemma uintFrom_acc (d : Decimal.uint) :
  forall acc, Z.pos (Pos.of_uint_acc d acc) = NoteSpec.uintFrom (Z.pos acc) d.
Proof.
  induction d; intros acc; cbn [Pos.of_uint_acc NoteSpec.uintFrom];
    try reflexivity; rewrite IHd; f_equal; lia.
Qed.

Lemma uintFrom_of_uint (d : Decimal.uint) :
  Z.of_N (Pos.of_uint d) = NoteSpec.uintFrom 0 d.
Proof.
  induction d; cbn [Pos.of_uint NoteSpec.uintFrom]; try reflexivity;
    try exact IHd; cbn [Z.of_N]; rewrite uintFrom_acc; reflexivity.
Qed.

Lemma digits_uint (d : Decimal.uint) :
  NoteSpec.digits (NilEmpty.string_of_uint d) = true.
Proof. induction d; simpl; auto. Qed.

(** What the interpolation of a quantity that is not negative gives:
    digits, at least one, that [parseInt] reads back. *)
Lemma ofNumber_nonneg (q : Z) :
  0 <= q ->
  NoteSpec.digits (JsString.ofNumber q) = true
  /\ JsString.ofNumber q <> EmptyString
  /\ parseInt (JsString.ofNumber q) = q.
Proof.
  intros Hq. unfold JsString.ofNumber. destruct q as [|p|p]; [| |lia].
  - repeat split. discriminate.
  - cbn [Z.to_int NilEmpty.string_of_int].
    split; [apply digits_uint|]. split.
    + intros E.
      pose proof (DecimalPos.Unsigned.of_to p) as O.
      destruct (Pos.to_uint p); try discriminate E. discriminate O.
    + rewrite parseInt_parseFrom, parseFrom_uint, <- uintFrom_of_uint.
      now rewrite DecimalPos.Unsigned.of_to.
Qed.

Lemma ofNumber_negative (q : Z) :
  q < 0 -> exists s, JsString.ofNumber q = String "-"%char s.
Proof.
  intros Hq. destruct q as [|p|p]; try lia.
  eexists. reflexivity.
Qed.

Lemma takeDigits_run (ds : string) (c : ascii) (rest : string) :
  NoteSpec.digits ds = true -> isDigit c = false ->
  takeDigits (ds ++ String c rest) = ds.
Proof.
  intros H Hc. induction ds as [|x ds IH]; simpl in *; [now rewrite Hc|].
  apply andb_prop in H. destruct H as [Hx Hd]. rewrite Hx. now rewrite IH.
Qed.

Lemma matchDigits_run (ds : string) (c : ascii) (rest : string) :
  NoteSpec.digits ds = true -> ds <> EmptyString -> isDigit c = false ->
  matchDigits (ds ++ String c rest) = Some ds.
Proof.
  intros H N Hc. unfold matchDigits. rewrite takeDigits_run by assumption.
  destruct ds; [contradiction|reflexivity].
Qed.

Lemma digits_plain (ds : string) :
  NoteSpec.digits ds = true -> NoteSpec.plain ds = true.
Proof.
  unfold NoteSpec.plain. induction ds as [|c ds IH]; simpl; [reflexivity|].
  intros H. apply andb_prop in H. destruct H as [Hc Hd].
  apply IH in Hd. apply andb_prop in Hd. destruct Hd as [Hb Ho].
  unfold isDigit in Hc. destruct (JsDate.digitVal c) as [v|] eqn:E;
    [|discriminate Hc].
  destruct (digit_plain c v E) as [B L]. now rewrite B, L, Hb, Ho.
Qed.

(** ** Tagged lines *)

Lemma exec_unfold (r : TagRegex) (s : string) :
  exec r s = match matchHere r s with
             | Some m => Some m
             | None => match s with
                       | String _ s' => exec r s'
                       | EmptyString => None
                       end
             end.
Proof. destruct s; reflexivity. Qed.

Lemma matchLazyTail_unfold (r : TagRegex) (s : string) :
  matchLazyTail r s
  = match matchTail r s with
    | Some ds => Some ds
    | None => match s with
              | String c s' =>
                  if isLineTerminator c then None else matchLazyTail r s'
              | EmptyString => None
              end
    end.
Proof. destruct s; reflexivity. Qed.

Lemma append_empty_l (s : string) : (EmptyString ++ s)%string = s.
Proof. reflexivity. Qed.

Lemma append_cons_l (c : ascii) (a b : string) :
  (String c a ++ b)%string = String c (a ++ b).
Proof. reflexivity. Qed.

Lemma upper_close (c : ascii) :
  Ascii.eqb c "]"%char = false ->
  Ascii.eqb (upper "]"%char) (upper c) = false.
Proof.
  intros H. destruct c as [[] [] [] [] [] [] [] []];
    try reflexivity; discriminate H.
Qed.

Lemma matchTail_other (r : TagRegex) (c : ascii) (s : string) :
  Ascii.eqb c "]"%char = false -> matchTail r (String c s) = None.
Proof.
  intros H. unfold matchTail. cbn [append matchLiteral].
  now rewrite upper_close.
Qed.

Lemma matchTail_quantity (r : TagRegex) (q : Z) (rest : string) :
  0 <= q ->
  matchTail r (("]: " ++ verb r ++ " ")
               ++ JsString.ofNumber q ++ String " "%char rest)
  = Some (JsString.ofNumber q).
Proof.
  intros Hq. destruct (ofNumber_nonneg q Hq) as (D & N & _).
  unfold matchTail. rewrite matchLiteral_self.
  now apply matchDigits_run.
Qed.

Lemma matchLazyTail_gap (r : TagRegex) (gap : string) (q : Z) (rest : string) :
  0 <= q -> NoteSpec.noClose gap = true ->
  matchLazyTail r (gap ++ ("]: " ++ verb r ++ " ")
                   ++ JsString.ofNumber q ++ String " "%char rest)
  = Some (JsString.ofNumber q).
Proof.
  intros Hq. induction gap as [|c gap IH]; intros H.
  - rewrite append_empty_l, matchLazyTail_unfold.
    now rewrite matchTail_quantity.
  - cbn [NoteSpec.noClose] in H.
    apply andb_prop in H. destruct H as [H Hg].
    apply andb_prop in H. destruct H as [Hc Hl].
    apply negb_true_iff in Hc. apply negb_true_iff in Hl.
    rewrite append_cons_l, matchLazyTail_unfold, matchTail_other by exact Hc.
    rewrite Hl. now apply IH.
Qed.

Lemma tagged_parts (r : TagRegex) (d gap : string) (q : Z) (rest : string) :
  NoteSpec.tagged r d gap q rest
  = (("[" ++ tag r ++ " - ")
     ++ d ++ gap ++ ("]: " ++ verb r ++ " ")
     ++ JsString.ofNumber q ++ String " "%char rest)%string.
Proof. unfold NoteSpec.tagged. now rewrite !append_assoc. Qed.

(** The pattern of a line finds the date and the quantity the line was
    written with. *)
Lemma exec_tagged (r : TagRegex) (d gap : string) (q : Z) (rest : string) :
  JsDate.isDate d = true -> 0 <= q ->
  (lazyGap r = false -> gap = EmptyString) ->
  NoteSpec.noClose gap = true ->
  exec r (NoteSpec.tagged r d gap q rest) = Some (d, JsString.ofNumber q).
Proof.
  intros Hd Hq Hg Hc. destruct (date_text d Hd) as (Hm & _ & _).
  rewrite exec_unfold, tagged_parts. unfold matchHere.
  rewrite matchLiteral_self, Hm.
  destruct (lazyGap r).
  - now rewrite matchLazyTail_gap.
  - rewrite (Hg eq_refl), append_empty_l. now rewrite matchTail_quantity.
Qed.

Lemma exec_other (r : TagRegex) (body : string) :
  matchHere r (String "["%char body) = None ->
  MovementSpec.noBracket body = true ->
  exec r (String "["%char body) = None.
Proof.
  intros H B. rewrite exec_unfold, H. now apply exec_free_text.
Qed.

Lemma tagged_body (r : TagRegex) (d gap : string) (q : Z) (rest : string) :
  NoteSpec.tagged r d gap q rest
  = String "["%char
      (tag r ++ " - " ++ d ++ gap ++ "]: " ++ verb r ++ " "
       ++ JsString.ofNumber q ++ " " ++ rest)%string.
Proof. reflexivity. Qed.

Lemma tagged_noBracket (r : TagRegex) (d gap : string) (q : Z) (rest : string) :
  MovementSpec.noBracket (tag r) = true ->
  MovementSpec.noBracket (verb r) = true ->
  JsDate.isDate d = true ->
  MovementSpec.noBracket gap = true ->
  MovementSpec.noBracket (JsString.ofNumber q) = true ->
  MovementSpec.noBracket rest = true ->
  MovementSpec.noBracket
    (tag r ++ " - " ++ d ++ gap ++ "]: " ++ verb r ++ " "
     ++ JsString.ofNumber q ++ " " ++ rest)%string
  = true.
Proof.
  intros Ht Hv Hd Hg Hq Hr. destruct (date_text d Hd) as (_ & Hb & _).
  rewrite !noBracket_app, Ht, Hv, Hb, Hg, Hq, Hr. reflexivity.
Qed.

Lemma ofNumber_noBracket (q : Z) :
  MovementSpec.noBracket (JsString.ofNumber q) = true.
Proof.
  destruct (Z.neg_nonneg_cases q) as [N|N].
  - destruct q as [|p|p]; try lia. unfold JsString.ofNumber.
    cbn [Z.to_int NilEmpty.string_of_int MovementSpec.noBracket].
    pose proof (digits_plain _ (digits_uint (Pos.to_uint p))) as P.
    unfold NoteSpec.plain in P. apply andb_prop in P. now rewrite (proj1 P).
  - destruct (ofNumber_nonneg q N) as (D & _).
    pose proof (digits_plain _ D) as P.
    unfold NoteSpec.plain in P. apply andb_prop in P. exact (proj1 P).
Qed.

Ltac other_tag :=
  apply exec_other;
  [reflexivity
  |apply tagged_noBracket; solve [reflexivity | assumption
                                 | apply ofNumber_noBracket]].

(** A stock-in line is counted as stock in, with its quantity, and not
    as stock out. *)
Lemma tagged_in_line (s e : number) (r : TagRegex) (d : string) (q : Z)
    (rest : string) :
  NoteSpec.inKind r -> JsDate.isDate d = true -> 0 <= q ->
  MovementSpec.noBracket rest = true ->
  MovementSpec.lineIn s e (NoteSpec.tagged r d EmptyString q rest)
  = NoteSpec.worth s e d q
  /\ NoteSpec.lineOut s e (NoteSpec.tagged r d EmptyString q rest) = (0, 0).
Proof.
  intros K Hd Hq Hr.
  assert (F : firstOf initialStockRegex stockAdditionRegex bulkStockAddRegex
                (NoteSpec.tagged r d EmptyString q rest)
              = Some (d, JsString.ofNumber q)).
  { unfold firstOf. destruct K as [->|[->| ->]].
    - now rewrite exec_tagged.
    - assert (E1 : exec initialStockRegex
                     (NoteSpec.tagged stockAdditionRegex d EmptyString q rest)
                   = None) by (rewrite tagged_body; other_tag).
      rewrite E1. now rewrite exec_tagged.
    - assert (E1 : exec initialStockRegex
                     (NoteSpec.tagged bulkStockAddRegex d EmptyString q rest)
                   = None) by (rewrite tagged_body; other_tag).
      assert (E2 : exec stockAdditionRegex
                     (NoteSpec.tagged bulkStockAddRegex d EmptyString q rest)
                   = None) by (rewrite tagged_body; other_tag).
      rewrite E1, E2. now rewrite exec_tagged. }
  unfold MovementSpec.lineIn, NoteSpec.lineOut, NoteSpec.worth. rewrite F.
  destruct (ofNumber_nonneg q Hq) as (_ & _ & P). rewrite P.
  split; reflexivity.
Qed.

(** A stock-out line is counted as stock out, with its quantity, and
    not as stock in. *)
Lemma tagged_out_line (s e : number) (r : TagRegex) (d gap : string) (q : Z)
    (rest : string) :
  NoteSpec.outKind r -> JsDate.isDate d = true -> 0 <= q ->
  (lazyGap r = false -> gap = EmptyString) ->
  NoteSpec.noClose gap = true -> MovementSpec.noBracket gap = true ->
  MovementSpec.noBracket rest = true ->
  NoteSpec.lineOut s e (NoteSpec.tagged r d gap q rest)
  = NoteSpec.worth s e d q
  /\ MovementSpec.lineIn s e (NoteSpec.tagged r d gap q rest) = (0, 0).
Proof.
  intros K Hd Hq Hg Hc Hb Hr.
  assert (I : firstOf initialStockRegex stockAdditionRegex bulkStockAddRegex
                (NoteSpec.tagged r d gap q rest)
              = None).
  { unfold firstOf.
    assert (E1 : exec initialStockRegex (NoteSpec.tagged r d gap q rest) = None)
      by (rewrite tagged_body; destruct K as [->|[->| ->]]; other_tag).
    assert (E2 : exec stockAdditionRegex (NoteSpec.tagged r d gap q rest) = None)
      by (rewrite tagged_body; destruct K as [->|[->| ->]]; other_tag).
    assert (E3 : exec bulkStockAddRegex (NoteSpec.tagged r d gap q rest) = None)
      by (rewrite tagged_body; destruct K as [->|[->| ->]]; other_tag).
    now rewrite E1, E2, E3. }
  assert (O : firstOf stockOutRegex stockReleaseRegex bulkStockReleaseRegex
                (NoteSpec.tagged r d gap q rest)
              = Some (d, JsString.ofNumber q)).
  { unfold firstOf. destruct K as [->|[->| ->]].
    - now rewrite exec_tagged.
    - assert (E1 : exec stockOutRegex
                     (NoteSpec.tagged stockReleaseRegex d gap q rest)
                   = None) by (rewrite tagged_body; other_tag).
      rewrite E1. now rewrite exec_tagged.
    - assert (E1 : exec stockOutRegex
                     (NoteSpec.tagged bulkStockReleaseRegex d gap q rest)
                   = None) by (rewrite tagged_body; other_tag).
      assert (E2 : exec stockReleaseRegex
                     (NoteSpec.tagged bulkStockReleaseRegex d gap q rest)
                   = None) by (rewrite tagged_body; other_tag).
      rewrite E1, E2. now rewrite exec_tagged. }
  unfold MovementSpec.lineIn, NoteSpec.lineOut, NoteSpec.worth. rewrite I, O.
  destruct (ofNumber_nonneg q Hq) as (_ & _ & P). rewrite P.
  split; reflexivity.
Qed.

Lemma matchHere_negative (r : TagRegex) (d : string) (q : Z) (rest : string) :
  lazyGap r = false -> JsDate.isDate d = true -> q < 0 ->
  matchHere r (NoteSpec.tagged r d EmptyString q rest) = None.
Proof.
  intros Hl Hd Hq. destruct (date_text d Hd) as (Hm & _ & _).
  destruct (ofNumber_negative q Hq) as [t Et].
  rewrite tagged_parts. unfold matchHere.
  rewrite matchLiteral_self, Hm, Hl, append_empty_l.
  unfold matchTail. rewrite matchLiteral_self, Et. reflexivity.
Qed.

(** A stock-in line written with a negative quantity is not counted at
    all: the pattern asks for a digit where the sign stands. *)
Lemma tagged_negative_line (s e : number) (r : TagRegex) (d : string) (q : Z)
    (rest : string) :
  NoteSpec.inKind r -> JsDate.isDate d = true -> q < 0 ->
  MovementSpec.noBracket rest = true ->
  MovementSpec.lineIn s e (NoteSpec.tagged r d EmptyString q rest) = (0, 0)
  /\ NoteSpec.lineOut s e (NoteSpec.tagged r d EmptyString q rest) = (0, 0).
Proof.
  intros K Hd Hq Hr.
  assert (B : MovementSpec.noBracket
                (tag r ++ " - " ++ d ++ EmptyString ++ "]: " ++ verb r ++ " "
                 ++ JsString.ofNumber q ++ " " ++ rest)%string = true).
  { apply tagged_noBracket; try assumption; try reflexivity;
      try apply ofNumber_noBracket; destruct K as [->|[->| ->]]; reflexivity. }
  assert (H : forall r',
             NoteSpec.inKind r' \/ NoteSpec.outKind r' ->
             exec r' (NoteSpec.tagged r d EmptyString q rest) = None).
  { intros r' K'. rewrite exec_unfold.
    assert (M : matchHere r' (NoteSpec.tagged r d EmptyString q rest) = None).
    { destruct K as [->|[->| ->]];
        destruct K' as [[->|[->| ->]]|[->|[->| ->]]];
        first [now apply matchHere_negative | reflexivity]. }
    rewrite M, tagged_body. now apply exec_free_text. }
  unfold MovementSpec.lineIn, NoteSpec.lineOut, firstOf.
  rewrite !H; unfold NoteSpec.inKind, NoteSpec.outKind; auto 7.
Qed.

(** ** The totals of a report as sums over the note lines *)

Section MovementOut.

Variables startDateObj endDateObj : number.

Lemma quantityOutOf_upsert_out (id k : string) (init : ItemMovement) (q : Z)
    (m : list ItemMovement) :
  itemId init = k -> quantityOut init = 0 ->
  NoteSpec.quantityOutOf id (upsert k init (addOut q) m)
  = NoteSpec.quantityOutOf id m + (if String.eqb k id then q else 0).
Proof.
  intros Hk H0. unfold NoteSpec.quantityOutOf.
  induction m as [|e m IH]; simpl.
  - rewrite Hk. destruct (String.eqb k id); simpl; lia.
  - destruct (String.eqb (itemId e) k) eqn:Ek; simpl.
    + apply String.eqb_eq in Ek. rewrite Ek.
      destruct (String.eqb k id); simpl; lia.
    + destruct (String.eqb (itemId e) id) eqn:Ei; [|exact IH].
      apply String.eqb_eq in Ei. rewrite <- Ei, String.eqb_sym, Ek. lia.
Qed.

Lemma quantityOutOf_upsert_in (id k : string) (init : ItemMovement) (q : Z)
    (m : list ItemMovement) :
  quantityOut init = 0 ->
  NoteSpec.quantityOutOf id (upsert k init (addIn q) m)
  = NoteSpec.quantityOutOf id m.
Proof.
  intros H0. unfold NoteSpec.quantityOutOf.
  induction m as [|e m IH]; simpl.
  - destruct (String.eqb (itemId init) id); simpl; lia.
  - destruct (String.eqb (itemId e) k); simpl;
      destruct (String.eqb (itemId e) id); simpl; auto.
Qed.

(** The stock-out side of the three accumulators after one line. *)
Lemma analyzeLine_out (item : StockItem.t) (id : string) (a : Analysis)
    (line : string) :
  let a' := analyzeLine startDateObj endDateObj item a line in
  let out := NoteSpec.lineOut startDateObj endDateObj line in
  overallStockOutQuantity a' = overallStockOutQuantity a + fst out
  /\ overallStockOutTransactions a' = overallStockOutTransactions a + snd out
  /\ NoteSpec.quantityOutOf id (itemMovementsData a')
     = NoteSpec.quantityOutOf id (itemMovementsData a)
       + (if String.eqb (StockItem.id item) id then fst out else 0).
Proof.
  unfold analyzeLine, NoteSpec.lineOut.
  destruct (firstOf initialStockRegex _ _ line) as [[d ds]|].
  - destruct (inRange _ _ _); simpl.
    + rewrite quantityOutOf_upsert_in by reflexivity.
      destruct (String.eqb _ id); repeat split; lia.
    + destruct (String.eqb _ id); repeat split; lia.
  - destruct (firstOf stockOutRegex _ _ line) as [[d ds]|]; simpl.
    + destruct (inRange _ _ _); simpl.
      * rewrite quantityOutOf_upsert_out by reflexivity. repeat split.
      * destruct (String.eqb _ id); repeat split; lia.
    + destruct (String.eqb _ id); repeat split; lia.
Qed.

Lemma analyzeLines_out (item : StockItem.t) (id : string) (lines : list string) :
  forall a,
    let a' := fold_left (analyzeLine startDateObj endDateObj item) lines a in
    let out := NoteSpec.lineOut startDateObj endDateObj in
    overallStockOutQuantity a'
    = overallStockOutQuantity a + sumOf (fun l => fst (out l)) lines
    /\ overallStockOutTransactions a'
       = overallStockOutTransactions a + sumOf (fun l => snd (out l)) lines
    /\ NoteSpec.quantityOutOf id (itemMovementsData a')
       = NoteSpec.quantityOutOf id (itemMovementsData a)
         + (if String.eqb (StockItem.id item) id
            then sumOf (fun l => fst (out l)) lines else 0).
Proof.
  induction lines as [|l lines IH]; intros a; simpl.
  - unfold sumOf; simpl. destruct (String.eqb _ id); repeat split; lia.
  - destruct (IH (analyzeLine startDateObj endDateObj item a l)) as (H1 & H2 & H3).
    destruct (analyzeLine_out item id a l) as (L1 & L2 & L3).
    rewrite H1, H2, H3, L1, L2, L3, !sumOf_cons.
    destruct (String.eqb _ id); repeat split; lia.
Qed.

Lemma analyzeItems_out (id : string) (items : list StockItem.t) :
  forall a,
    let a' := fold_left (analyzeItem startDateObj endDateObj) items a in
    overallStockOutQuantity a'
    = overallStockOutQuantity a
      + sumOf (NoteSpec.itemOut startDateObj endDateObj) items
    /\ overallStockOutTransactions a'
       = overallStockOutTransactions a
         + sumOf (NoteSpec.itemOutCount startDateObj endDateObj) items
    /\ NoteSpec.quantityOutOf id (itemMovementsData a')
       = NoteSpec.quantityOutOf id (itemMovementsData a)
         + sumOf (fun item =>
                    if String.eqb (StockItem.id item) id
                    then NoteSpec.itemOut startDateObj endDateObj item
                    else 0) items.
Proof.
  induction items as [|item items IH]; intros a; simpl.
  - unfold sumOf; simpl. repeat split; lia.
  - destruct (IH (analyzeItem startDateObj endDateObj a item)) as (H1 & H2 & H3).
    rewrite H1, H2, H3, !sumOf_cons, analyzeItem_lines.
    destruct (analyzeLines_out item id (MovementSpec.itemLines item) a)
      as (L1 & L2 & L3).
    rewrite L1, L2, L3.
    unfold NoteSpec.itemOut, NoteSpec.itemOutCount.
    destruct (String.eqb _ id); repeat split; lia.
Qed.

End MovementOut.

Lemma reportedOut_table (id : string) (a : Analysis)
    (summary : StockMovementOverallSummary) :
  NoteSpec.reportedOut id
    (mkResult summary
       (map (fun data =>
               mkItemMovementDetails data (quantityIn data - quantityOut data))
          (itemMovementsData a)))
  = NoteSpec.quantityOutOf id (itemMovementsData a).
Proof.
  unfold NoteSpec.reportedOut, NoteSpec.quantityOutOf, breakdownOf.
  cbn [itemsBreakdown].
  induction (itemMovementsData a) as [|e m IH]; simpl; [reflexivity|].
  destruct (String.eqb (itemId e) id); [reflexivity | exact IH].
Qed.

(** The figures of a report, read off the note lines of the items. *)
Lemma report_totals (tza : Z) (startDate endDate : string)
    (allItems : list StockItem.t) :
  JsDate.isDate startDate = true -> JsDate.isDate endDate = true ->
  let s := dayStart tza startDate in
  let e := dayEnd tza endDate in
  exists r,
    handleAnalyzeStockMovement tza startDate endDate allItems = Some r
    /\ totalStockInQuantity (overallSummary r)
       = sumOf (MovementSpec.itemIn s e) allItems
    /\ stockInTransactions (overallSummary r)
       = sumOf (MovementSpec.itemInCount s e) allItems
    /\ totalStockOutQuantity (overallSummary r)
       = sumOf (NoteSpec.itemOut s e) allItems
    /\ stockOutTransactions (overallSummary r)
       = sumOf (NoteSpec.itemOutCount s e) allItems
    /\ (forall id,
           MovementSpec.reportedIn id r
           = sumOf (fun item =>
                      if String.eqb (StockItem.id item) id
                      then MovementSpec.itemIn s e item else 0) allItems)
    /\ (forall id,
           NoteSpec.reportedOut id r
           = sumOf (fun item =>
                      if String.eqb (StockItem.id item) id
                      then NoteSpec.itemOut s e item else 0) allItems).
Proof.
  intros Ds De s e. unfold handleAnalyzeStockMovement.
  rewrite (date_not_empty _ Ds), (date_not_empty _ De). cbn [orb]. fold s e.
  eexists. split; [reflexivity|].
  cbn [overallSummary totalStockInQuantity stockInTransactions
       totalStockOutQuantity stockOutTransactions].
  destruct (analyzeItems_in s e EmptyString allItems (mkAnalysis 0 0 0 0 []))
    as (I1 & I2 & _).
  destruct (analyzeItems_out s e EmptyString allItems (mkAnalysis 0 0 0 0 []))
    as (O1 & O2 & _).
  rewrite I1, I2, O1, O2. cbn [overallStockInQuantity overallStockInTransactions
    overallStockOutQuantity overallStockOutTransactions].
  repeat split.
  - intros id. rewrite reportedIn_table.
    destruct (analyzeItems_in s e id allItems (mkAnalysis 0 0 0 0 []))
      as (_ & _ & I3).
    rewrite I3. reflexivity.
  - intros id. rewrite reportedOut_table.
    destruct (analyzeItems_out s e id allItems (mkAnalysis 0 0 0 0 []))
      as (_ & _ & O3).
    rewrite O3. reflexivity.
Qed.

(** ** The day of an operation within a period *)

Lemma date_in_range (tza : Z) (startDate endDate d : string) :
  JsDate.isDate startDate = true -> JsDate.isDate endDate = true ->
  JsDate.isDate d = true ->
  - JsDate.msPerDay < tza < JsDate.msPerDay ->
  Spec.dayOf startDate <= Spec.dayOf d <= Spec.dayOf endDate ->
  inRange (dayStart tza startDate) (dayEnd tza endDate) (JsDate.getTime d) = true.
Proof.
  intros Hs He Hd Ht [H1 H2].
  destruct (getTime_fields _ Hs) as (fs & _ & Es).
  destruct (getTime_fields _ He) as (fe & _ & Ee).
  destruct (getTime_fields _ Hd) as (fd & _ & Ed).
  unfold inRange, dayStart, dayEnd, leb, geb.
  rewrite (isDate_getTime _ Hs), (isDate_getTime _ He), (isDate_getTime _ Hd).
  simpl. rewrite Es, Ee, Ed in *. unfold JsDate.setHours, JsDate.msPerDay in *.
  apply andb_true_iff. split; apply Z.leb_le; Z.div_mod_to_equations; lia.
Qed.

Lemma worth_in_range (tza : Z) (startDate endDate d : string) (q : Z) :
  JsDate.isDate startDate = true -> JsDate.isDate endDate = true ->
  JsDate.isDate d = true ->
  - JsDate.msPerDay < tza < JsDate.msPerDay ->
  Spec.dayOf startDate <= Spec.dayOf d <= Spec.dayOf endDate ->
  NoteSpec.worth (dayStart tza startDate) (dayEnd tza endDate) d q = (q, 1).
Proof.
  intros. unfold NoteSpec.worth. now rewrite date_in_range.
Qed.

(** ** The note of a new batch, line by line *)

Lemma ofNumber_oneLine (q : Z) :
  MovementSpec.oneLine (JsString.ofNumber q) = true.
Proof.
  destruct (Z.neg_nonneg_cases q) as [N|N].
  - destruct q as [|p|p]; try lia. unfold JsString.ofNumber.
    cbn [Z.to_int NilEmpty.string_of_int MovementSpec.oneLine].
    pose proof (digits_plain _ (digits_uint (Pos.to_uint p))) as P.
    unfold NoteSpec.plain in P. apply andb_prop in P. now rewrite (proj2 P).
  - destruct (ofNumber_nonneg q N) as (D & _).
    pose proof (digits_plain _ D) as P.
    unfold NoteSpec.plain in P. apply andb_prop in P. exact (proj2 P).
Qed.

Lemma free_text_out (s e : number) (l : string) :
  MovementSpec.noBracket l = true -> NoteSpec.lineOut s e l = (0, 0).
Proof.
  intros H. unfold NoteSpec.lineOut, firstOf.
  now rewrite !(exec_free_text _ l H).
Qed.

Lemma free_text_out_sum (s e : number) (h : Z * Z -> Z) (ls : list string) :
  h (0, 0) = 0 ->
  Forall (fun x => MovementSpec.noBracket x = true) ls ->
  sumOf (fun l => h (NoteSpec.lineOut s e l)) ls = 0.
Proof.
  intros H0. induction 1 as [|l ls Hl Hls IH]; [reflexivity|].
  rewrite sumOf_cons, IH, (free_text_out s e l Hl), H0. reflexivity.
Qed.

Lemma tagged_head (r : TagRegex) (d : string) (q : Z) (rest : string) :
  NoteSpec.tagged r d EmptyString q rest
  = (NoteSpec.tagged r d EmptyString q EmptyString ++ rest)%string.
Proof. unfold NoteSpec.tagged. now rewrite !append_assoc. Qed.

(** The note that the three additions store: the tagged line with the
    unit, a full stop and the notes of the user, trimmed. Its first line
    is the tagged line, the others are text of the user. *)
Lemma addition_note_lines (r : TagRegex) (d : string) (q : Z)
    (unit userNotes : string) :
  NoteSpec.inKind r -> JsDate.isDate d = true ->
  MovementSpec.noBracket unit = true ->
  MovementSpec.noBracket userNotes = true ->
  let note :=
    JsString.trim
      (NoteSpec.tagged r d EmptyString q
         (unit ++ String "."%char (String " "%char userNotes))) in
  truthy (Some note) = true
  /\ exists l ls,
       JsString.splitLines note = NoteSpec.tagged r d EmptyString q l :: ls
       /\ MovementSpec.noBracket l = true
       /\ Forall (fun x => MovementSpec.noBracket x = true) ls.
Proof.
  intros K Hd Hu Hn note. destruct (date_text d Hd) as (_ & _ & Ho).
  set (R := (unit ++ String "."%char (JsString.trimEnd (String " "%char userNotes)))%string).
  assert (HR : MovementSpec.noBracket R = true).
  { subst R. rewrite noBracket_app, Hu. cbn [andb MovementSpec.noBracket].
    change (negb (Ascii.eqb "."%char "["%char)) with true. cbn [andb].
    apply noBracket_trimEnd. cbn [MovementSpec.noBracket].
    change (negb (Ascii.eqb " "%char "["%char)) with true. exact Hn. }
  assert (E : note = NoteSpec.tagged r d EmptyString q R).
  { subst note R. unfold JsString.trim.
    rewrite (tagged_body r d EmptyString q
               (unit ++ String "."%char (String " "%char userNotes))).
    cbn [JsString.trimStart].
    change (JsString.isSpace "["%char) with false. cbv iota.
    rewrite <- tagged_body.
    rewrite (tagged_head r d q (unit ++ _)), (tagged_head r d q (unit ++ _)).
    rewrite <- !append_assoc.
    rewrite trimEnd_app;
      rewrite (trimEnd_keeps "."%char) by reflexivity;
      [reflexivity|discriminate]. }
  split; [rewrite E; reflexivity|].
  rewrite E, tagged_head.
  destruct (splitLines_head (NoteSpec.tagged r d EmptyString q EmptyString) R)
    as (l & ls & E1 & E2).
  { unfold NoteSpec.tagged. rewrite !oneLine_app, Ho, ofNumber_oneLine.
    destruct K as [->|[->| ->]]; reflexivity. }
  exists l, ls. rewrite E2, <- tagged_head. split; [reflexivity|].
  pose proof (noBracket_lines R HR) as F. rewrite E1 in F.
  inversion F; subst. split; assumption.
Qed.

(** What the lines of such a note are worth. *)
Lemma addition_note_worth (s e : number) (h : Z * Z -> Z) (r : TagRegex)
    (d : string) (q : Z) (unit userNotes : string) :
  NoteSpec.inKind r -> JsDate.isDate d = true ->
  MovementSpec.noBracket unit = true ->
  MovementSpec.noBracket userNotes = true ->
  h (0, 0) = 0 ->
  let lines :=
    JsString.splitLines
      (JsString.trim
         (NoteSpec.tagged r d EmptyString q
            (unit ++ String "."%char (String " "%char userNotes)))) in
  sumOf (fun x => h (MovementSpec.lineIn s e x)) lines
  = (if 0 <=? q then h (NoteSpec.worth s e d q) else 0)
  /\ sumOf (fun x => h (NoteSpec.lineOut s e x)) lines = 0.
Proof.
  intros K Hd Hu Hn H0 lines. subst lines.
  destruct (addition_note_lines r d q unit userNotes K Hd Hu Hn)
    as (_ & l & ls & E & Hl & Hls).
  cbv zeta in E. rewrite E, !sumOf_cons.
  rewrite (free_text_lines_sum s e h ls H0 Hls).
  rewrite (free_text_out_sum s e h ls H0 Hls).
  destruct (Z.leb_spec 0 q) as [Hq|Hq].
  - destruct (tagged_in_line s e r d q l K Hd Hq Hl) as [I O].
    rewrite I, O, H0. split; lia.
  - destruct (tagged_negative_line s e r d q l K Hd Hq Hl) as [I O].
    rewrite I, O, H0. split; lia.
Qed.

(** ** How a change of the collection moves the report *)

Lemma mutateFirst_sum_if (g : StockItem.t -> Z) (id id' : string)
    (store : Store) (stored updated : StockItem.t) :
  find (hasItemId id) store = Some stored ->
  StockItem.id updated = StockItem.id stored ->
  sumOf (fun item => if String.eqb (StockItem.id item) id' then g item else 0)
    (mutateFirst (hasItemId id) (fun _ => updated) store)
  = sumOf (fun item => if String.eqb (StockItem.id item) id' then g item else 0)
      store
    + (if String.eqb id id' then g updated - g stored else 0).
Proof.
  intros F E. rewrite (mutateFirst_sum _ _ _ _ _ F). rewrite E.
  rewrite (find_hasItemId _ _ _ F).
  destruct (String.eqb id id'); lia.
Qed.

(** The report after the item [stored] was replaced by [updated]. *)
Lemma report_after_update (tza : Z) (startDate endDate id : string)
    (store : Store) (stored updated : StockItem.t) (dIn cIn dOut cOut : Z) :
  JsDate.isDate startDate = true -> JsDate.isDate endDate = true ->
  find (hasItemId id) store = Some stored ->
  StockItem.id updated = StockItem.id stored ->
  let s := dayStart tza startDate in
  let e := dayEnd tza endDate in
  MovementSpec.itemIn s e updated = MovementSpec.itemIn s e stored + dIn ->
  MovementSpec.itemInCount s e updated
  = MovementSpec.itemInCount s e stored + cIn ->
  NoteSpec.itemOut s e updated = NoteSpec.itemOut s e stored + dOut ->
  NoteSpec.itemOutCount s e updated = NoteSpec.itemOutCount s e stored + cOut ->
  exists before after,
    handleAnalyzeStockMovement tza startDate endDate store = Some before
    /\ handleAnalyzeStockMovement tza startDate endDate
         (mutateFirst (hasItemId id) (fun _ => updated) store)
       = Some after
    /\ totalStockInQuantity (overallSummary after)
       = totalStockInQuantity (overallSummary before) + dIn
    /\ stockInTransactions (overallSummary after)
       = stockInTransactions (overallSummary before) + cIn
    /\ totalStockOutQuantity (overallSummary after)
       = totalStockOutQuantity (overallSummary before) + dOut
    /\ stockOutTransactions (overallSummary after)
       = stockOutTransactions (overallSummary before) + cOut
    /\ MovementSpec.reportedIn id after = MovementSpec.reportedIn id before + dIn
    /\ NoteSpec.reportedOut id after = NoteSpec.reportedOut id before + dOut.
Proof.
  intros Ds De F Eid s e H1 H2 H3 H4.
  destruct (report_totals tza startDate endDate store Ds De)
    as (before & Eb & B1 & B2 & B3 & B4 & B5 & B6).
  destruct (report_totals tza startDate endDate
              (mutateFirst (hasItemId id) (fun _ => updated) store) Ds De)
    as (after & Ea & A1 & A2 & A3 & A4 & A5 & A6).
  exists before, after. split; [exact Eb|]. split; [exact Ea|].
  fold s e in B1, B2, B3, B4, B5, B6, A1, A2, A3, A4, A5, A6.
  rewrite A1, A2, A3, A4, A5, A6, B1, B2, B3, B4, B5, B6.
  rewrite (mutateFirst_sum_if (MovementSpec.itemIn s e) id id store stored
             updated F Eid).
  rewrite (mutateFirst_sum_if (NoteSpec.itemOut s e) id id store stored
             updated F Eid).
  rewrite !(mutateFirst_sum _ _ _ _ _ F).
  rewrite String.eqb_refl.
  repeat split; lia.
Qed.

(** The report after the item [newItem] was added. *)
Lemma report_after_append (tza : Z) (startDate endDate : string)
    (store : Store) (newItem : StockItem.t) :
  JsDate.isDate startDate = true -> JsDate.isDate endDate = true ->
  let s := dayStart tza startDate in
  let e := dayEnd tza endDate in
  exists before after,
    handleAnalyzeStockMovement tza startDate endDate store = Some before
    /\ handleAnalyzeStockMovement tza startDate endDate (store ++ [newItem])
       = Some after
    /\ totalStockInQuantity (overallSummary after)
       = totalStockInQuantity (overallSummary before)
         + MovementSpec.itemIn s e newItem
    /\ stockInTransactions (overallSummary after)
       = stockInTransactions (overallSummary before)
         + MovementSpec.itemInCount s e newItem
    /\ totalStockOutQuantity (overallSummary after)
       = totalStockOutQuantity (overallSummary before)
         + NoteSpec.itemOut s e newItem
    /\ stockOutTransactions (overallSummary after)
       = stockOutTransactions (overallSummary before)
         + NoteSpec.itemOutCount s e newItem
    /\ MovementSpec.reportedIn (StockItem.id newItem) after
       = MovementSpec.reportedIn (StockItem.id newItem) before
         + MovementSpec.itemIn s e newItem.
Proof.
  intros Ds De s e.
  destruct (report_totals tza startDate endDate store Ds De)
    as (before & Eb & B1 & B2 & B3 & B4 & B5 & B6).
  destruct (report_totals tza startDate endDate (store ++ [newItem]) Ds De)
    as (after & Ea & A1 & A2 & A3 & A4 & A5 & A6).
  exists before, after. split; [exact Eb|]. split; [exact Ea|].
  fold s e in B1, B2, B3, B4, B5, B6, A1, A2, A3, A4, A5, A6.
  rewrite A1, A2, A3, A4, A5, B1, B2, B3, B4, B5.
  rewrite !sumOf_app, !sumOf_cons, !sumOf_nil, String.eqb_refl.
  repeat split; lia.
Qed.

Lemma appended_batch_lines (today : string) (stored : StockItem.t)
    (newBatch : Batch.t) :
  MovementSpec.itemLines
    (StockItem.withLastUpdated today
       (StockItem.withBatches (StockItem.batches stored ++ [newBatch]) stored))
  = (MovementSpec.itemLines stored ++ MovementSpec.batchLines newBatch)%list.
Proof.
  unfold MovementSpec.itemLines. simpl.
  rewrite flat_map_app. simpl. now rewrite app_nil_r.
Qed.

(** X23. A new item is reported: for a period that contains the day of
    its creation, the analysis after [addItem] shows the initial
    quantity as stock in, one more stock-in transaction and, in the row
    of the item, the quantity more than before, when the quantity is not
    negative and the unit and the notes hold no opening square bracket.
    A negative initial quantity is stored and reported nowhere. Stock
    out is as before in both cases. *)
Theorem initial_stock_reported_by_analysis :
  forall (tza : Z) (today startDate endDate newId newBatchId name : string)
         (category : ItemCategory) (unit : string) (minThreshold : Z)
         (itemNotes originCountry : option string) (firstBatch : BatchData)
         (store : Store),
    JsDate.isDate today = true ->
    JsDate.isDate startDate = true ->
    JsDate.isDate endDate = true ->
    - JsDate.msPerDay < tza < JsDate.msPerDay ->
    Spec.dayOf startDate <= Spec.dayOf today <= Spec.dayOf endDate ->
    MovementSpec.noBracket unit = true ->
    MovementSpec.noBracket (orEmpty (notes firstBatch)) = true ->
    exists newItem store' before after,
      StockService.addItem today newId newBatchId name category unit
        minThreshold itemNotes originCountry firstBatch store
      = (Resolved newItem, store')
      /\ handleAnalyzeStockMovement tza startDate endDate store = Some before
      /\ handleAnalyzeStockMovement tza startDate endDate store' = Some after
      /\ (0 <= quantity firstBatch ->
          totalStockInQuantity (overallSummary after)
          = totalStockInQuantity (overallSummary before) + quantity firstBatch
          /\ stockInTransactions (overallSummary after)
             = stockInTransactions (overallSummary before) + 1
          /\ MovementSpec.reportedIn newId after
             = MovementSpec.reportedIn newId before + quantity firstBatch)
      /\ (quantity firstBatch < 0 ->
          totalStockInQuantity (overallSummary after)
          = totalStockInQuantity (overallSummary before)
          /\ stockInTransactions (overallSummary after)
             = stockInTransactions (overallSummary before)
          /\ MovementSpec.reportedIn newId after
             = MovementSpec.reportedIn newId before)
      /\ totalStockOutQuantity (overallSummary after)
         = totalStockOutQuantity (overallSummary before)
      /\ stockOutTransactions (overallSummary after)
         = stockOutTransactions (overallSummary before).
Proof.
  intros tza today startDate endDate newId newBatchId name category unit
    minThreshold itemNotes originCountry firstBatch store
    Hd Hs He Ht Hr Hu Hn.
  unfold StockService.addItem, getItemsFromStorage, saveItemsToStorage.
  match goal with
  | |- context [(Resolved ?i, _)] => set (newItem := i)
  end.
  destruct (report_after_append tza startDate endDate store newItem Hs He)
    as (before & after & Eb & Ea & A1 & A2 & A3 & A4 & A5).
  exists newItem, (store ++ [newItem])%list, before, after.
  split; [reflexivity|]. split; [exact Eb|]. split; [exact Ea|].
  set (s := dayStart tza startDate) in *. set (e := dayEnd tza endDate) in *.
  assert (L : forall h, h (0, 0) = 0 ->
            sumOf (fun x => h (MovementSpec.lineIn s e x))
              (MovementSpec.itemLines newItem)
            = (if 0 <=? quantity firstBatch
               then h (quantity firstBatch, 1) else 0)
            /\ sumOf (fun x => h (NoteSpec.lineOut s e x))
                 (MovementSpec.itemLines newItem) = 0).
  { intros h H0.
    pose proof (addition_note_lines initialStockRegex today
                  (quantity firstBatch) unit (orEmpty (notes firstBatch))
                  (or_introl eq_refl) Hd Hu Hn) as [T _].
    pose proof (addition_note_worth s e h initialStockRegex today
                  (quantity firstBatch) unit (orEmpty (notes firstBatch))
                  (or_introl eq_refl) Hd Hu Hn H0) as W.
    cbv zeta in T, W.
    unfold MovementSpec.itemLines, newItem. cbn [StockItem.batches flat_map].
    rewrite app_nil_r. unfold MovementSpec.batchLines. cbn [Batch.notes].
    change (JsString.trim _) with
      (JsString.trim
         (NoteSpec.tagged initialStockRegex today EmptyString
            (quantity firstBatch)
            (unit ++ String "."%char
               (String " "%char (orEmpty (notes firstBatch)))))).
    rewrite T. cbn [orEmpty].
    subst s e. rewrite (worth_in_range tza startDate endDate today _ Hs He Hd Ht Hr)
      in W.
    exact W. }
  destruct (L fst eq_refl) as [Li Lo]. destruct (L snd eq_refl) as [Ci Co].
  unfold MovementSpec.itemIn, MovementSpec.itemInCount, NoteSpec.itemOut,
    NoteSpec.itemOutCount in *.
  change (StockItem.id newItem) with newId in A5.
  rewrite A1, A2, A3, A4, A5, Li, Lo, Ci, Co.
  split; [|split; [|split]].
  - intros Hq. apply Z.leb_le in Hq. rewrite Hq. simpl. repeat split; lia.
  - intros Hq. apply Z.leb_gt in Hq. rewrite Hq. repeat split; lia.
  - lia.
  - lia.
Qed.

Lemma initial_stock_reported_by_analysis_witness :
  exists newItem store' before after,
    StockService.addItem "2025-01-10" "B" "b1" "Blades" OPERATION_THEATRE "box"
      2 None None (mkBatchData 120 None None (Some "lot 7"%string)) []
    = (Resolved newItem, store')
    /\ handleAnalyzeStockMovement (-18000000) "2025-01-01" "2025-01-31" []
       = Some before
    /\ handleAnalyzeStockMovement (-18000000) "2025-01-01" "2025-01-31" store'
       = Some after
    /\ totalStockInQuantity (overallSummary after)
       = totalStockInQuantity (overallSummary before) + 120
    /\ MovementSpec.reportedIn "B" after = MovementSpec.reportedIn "B" before + 120.
Proof.
  destruct (initial_stock_reported_by_analysis (-18000000) "2025-01-10"
              "2025-01-01" "2025-01-31" "B" "b1" "Blades" OPERATION_THEATRE
              "box" 2 None None (mkBatchData 120 None None (Some "lot 7"%string))
              [] eq_refl eq_refl eq_refl)
    as (newItem & store' & before & after & E & Eb & Ea & P & _).
  - unfold JsDate.msPerDay. lia.
  - vm_compute. split; discriminate.
  - reflexivity.
  - reflexivity.
  - exists newItem, store', before, after.
    split; [exact E|]. split; [exact Eb|]. split; [exact Ea|].
    destruct P as (P1 & _ & P3); [simpl; lia|]. split; [exact P1|exact P3].
Defined.

Lemma added_batch_report (tza : Z) (today startDate endDate id : string)
    (q : Z) (r : TagRegex) (unit userNotes : string) (store : Store)
    (stored : StockItem.t) (newBatch : Batch.t) :
  JsDate.isDate today = true ->
  JsDate.isDate startDate = true ->
  JsDate.isDate endDate = true ->
  - JsDate.msPerDay < tza < JsDate.msPerDay ->
  Spec.dayOf startDate <= Spec.dayOf today <= Spec.dayOf endDate ->
  MovementSpec.noBracket unit = true ->
  MovementSpec.noBracket userNotes = true ->
  NoteSpec.inKind r ->
  find (hasItemId id) store = Some stored ->
  Batch.notes newBatch
  = Some (JsString.trim
            (NoteSpec.tagged r today EmptyString q
               (unit ++ String "."%char (String " "%char userNotes)))) ->
  let updated :=
    StockItem.withLastUpdated today
      (StockItem.withBatches (StockItem.batches stored ++ [newBatch]) stored) in
  exists before after,
    handleAnalyzeStockMovement tza startDate endDate store = Some before
    /\ handleAnalyzeStockMovement tza startDate endDate
         (mutateFirst (hasItemId id) (fun _ => updated) store)
       = Some after
    /\ totalStockInQuantity (overallSummary after)
       = totalStockInQuantity (overallSummary before)
         + (if 0 <=? q then q else 0)
    /\ stockInTransactions (overallSummary after)
       = stockInTransactions (overallSummary before)
         + (if 0 <=? q then 1 else 0)
    /\ totalStockOutQuantity (overallSummary after)
       = totalStockOutQuantity (overallSummary before) + 0
    /\ stockOutTransactions (overallSummary after)
       = stockOutTransactions (overallSummary before) + 0
    /\ MovementSpec.reportedIn id after
       = MovementSpec.reportedIn id before + (if 0 <=? q then q else 0)
    /\ NoteSpec.reportedOut id after = NoteSpec.reportedOut id before + 0.
Proof.
  intros Hd Hs He Ht Hr Hu Hn K F N updated.
  set (s := dayStart tza startDate). set (e := dayEnd tza endDate).
  assert (L : forall h, h (0, 0) = 0 ->
            sumOf (fun x => h (MovementSpec.lineIn s e x))
              (MovementSpec.itemLines updated)
            = sumOf (fun x => h (MovementSpec.lineIn s e x))
                (MovementSpec.itemLines stored)
              + (if 0 <=? q then h (q, 1) else 0)
            /\ sumOf (fun x => h (NoteSpec.lineOut s e x))
                 (MovementSpec.itemLines updated)
               = sumOf (fun x => h (NoteSpec.lineOut s e x))
                   (MovementSpec.itemLines stored) + 0).
  { intros h H0. subst updated. rewrite appended_batch_lines, !sumOf_app.
    pose proof (addition_note_lines r today q unit userNotes K Hd Hu Hn)
      as [T _].
    pose proof (addition_note_worth s e h r today q unit userNotes K Hd Hu Hn H0)
      as W.
    cbv zeta in T, W. unfold MovementSpec.batchLines. rewrite N, T.
    cbn [orEmpty]. subst s e.
    rewrite (worth_in_range tza startDate endDate today _ Hs He Hd Ht Hr) in W.
    destruct W as [W1 W2]. now rewrite W1, W2. }
  destruct (L fst eq_refl) as [Li Lo]. destruct (L snd eq_refl) as [Ci Co].
  apply report_after_update with (stored := stored);
    solve [assumption | reflexivity].
Qed.

(** X24. An added batch is reported: for a period that contains the day
    of the addition, the analysis after [addBatchToItem] shows the added
    quantity as stock in, one more stock-in transaction and the quantity
    more in the row of the item, when the quantity is not negative, the
    notes given are not tagged already, and the unit and the notes hold
    no opening square bracket. An addition with a negative quantity is
    stored and reported nowhere. Stock out is as before in both cases. *)
Theorem added_batch_reported_by_analysis :
  forall (tza : Z) (today startDate endDate newBatchId id unit : string)
         (batchData : BatchData) (store : Store) (stored : StockItem.t),
    find (hasItemId id) store = Some stored ->
    JsDate.isDate today = true ->
    JsDate.isDate startDate = true ->
    JsDate.isDate endDate = true ->
    - JsDate.msPerDay < tza < JsDate.msPerDay ->
    Spec.dayOf startDate <= Spec.dayOf today <= Spec.dayOf endDate ->
    MovementSpec.noBracket unit = true ->
    MovementSpec.noBracket (orEmpty (notes batchData)) = true ->
    exists updated store' before after,
      addBatchToItem today newBatchId id batchData unit store
      = (Resolved updated, store')
      /\ handleAnalyzeStockMovement tza startDate endDate store = Some before
      /\ handleAnalyzeStockMovement tza startDate endDate store' = Some after
      /\ (0 <= quantity batchData ->
          totalStockInQuantity (overallSummary after)
          = totalStockInQuantity (overallSummary before) + quantity batchData
          /\ stockInTransactions (overallSummary after)
             = stockInTransactions (overallSummary before) + 1
          /\ MovementSpec.reportedIn id after
             = MovementSpec.reportedIn id before + quantity batchData)
      /\ (quantity batchData < 0 ->
          totalStockInQuantity (overallSummary after)
          = totalStockInQuantity (overallSummary before)
          /\ stockInTransactions (overallSummary after)
             = stockInTransactions (overallSummary before)
          /\ MovementSpec.reportedIn id after
             = MovementSpec.reportedIn id before)
      /\ totalStockOutQuantity (overallSummary after)
         = totalStockOutQuantity (overallSummary before)
      /\ stockOutTransactions (overallSummary after)
         = stockOutTransactions (overallSummary before).
Proof.
  intros tza today startDate endDate newBatchId id unit batchData store stored
    F Hd Hs He Ht Hr Hu Hn.
  destruct (addBatchToItem_resolved today newBatchId id batchData unit store
              stored F) as [E _].
  assert (N : Batch.notes (newBatchOf today newBatchId batchData unit)
              = Some (JsString.trim
                        (NoteSpec.tagged stockAdditionRegex today EmptyString
                           (quantity batchData)
                           (unit ++ String "."%char
                              (String " "%char (orEmpty (notes batchData))))))).
  { unfold newBatchOf, systemNotePrefix. cbn [Batch.notes].
    rewrite (isSystemNote_free_text _ Hn), andb_false_r.
    f_equal. f_equal. unfold NoteSpec.tagged. rewrite !append_assoc.
    reflexivity. }
  destruct (added_batch_report tza today startDate endDate id
              (quantity batchData) stockAdditionRegex unit
              (orEmpty (notes batchData)) store stored
              (newBatchOf today newBatchId batchData unit)
              Hd Hs He Ht Hr Hu Hn (or_intror (or_introl eq_refl)) F N)
    as (before & after & Eb & Ea & A1 & A2 & A3 & A4 & A5 & A6).
  eexists _, _, before, after.
  split; [exact E|]. split; [exact Eb|]. split; [exact Ea|].
  rewrite A1, A2, A3, A4, A5.
  split; [|split; [|split]].
  - intros Hq. apply Z.leb_le in Hq. rewrite Hq. repeat split; lia.
  - intros Hq. apply Z.leb_gt in Hq. rewrite Hq. repeat split; lia.
  - lia.
  - lia.
Qed.

Lemma added_batch_reported_by_analysis_witness :
  let x :=
    StockItem.mk "X" "Gauze" GENERAL_SUPPLIES "packs" 5
      [Batch.mk "x1" 200 None None "2025-01-02"
         (Some "[Initial Stock - 2025-01-02]: Added 200 packs."%string)]
      "2025-01-02" None None in
  exists updated store' before after,
    addBatchToItem "2025-01-10" "x2" "X" (mkBatchData (-40) None None None)
      "packs" [x]
    = (Resolved updated, store')
    /\ Types.getTotalQuantity updated = 160
    /\ handleAnalyzeStockMovement 3600000 "2025-01-01" "2025-01-31" [x]
       = Some before
    /\ handleAnalyzeStockMovement 3600000 "2025-01-01" "2025-01-31" store'
       = Some after
    /\ totalStockInQuantity (overallSummary after)
       = totalStockInQuantity (overallSummary before)
    /\ totalStockOutQuantity (overallSummary after)
       = totalStockOutQuantity (overallSummary before).
Proof.
  intros x.
  destruct (added_batch_reported_by_analysis 3600000 "2025-01-10" "2025-01-01"
              "2025-01-31" "x2" "X" "packs" (mkBatchData (-40) None None None)
              [x] x eq_refl eq_refl eq_refl eq_refl)
    as (updated & store' & before & after & E & Eb & Ea & _ & N & O & _).
  - unfold JsDate.msPerDay. lia.
  - vm_compute. split; discriminate.
  - reflexivity.
  - reflexivity.
  - exists updated, store', before, after.
    split; [exact E|].
    split.
    { vm_compute in E. apply pair_equal_spec in E. destruct E as [E _].
      apply resolved_inj in E. subst updated. reflexivity. }
    split; [exact Eb|]. split; [exact Ea|].
    destruct N as (N1 & _); [simpl; lia|]. split; [exact N1|exact O].
Defined.

(** ** The lines of a release *)

Lemma plain_parts (a : string) :
  NoteSpec.plain a = true ->
  MovementSpec.noBracket a = true /\ MovementSpec.oneLine a = true.
Proof. unfold NoteSpec.plain. apply andb_prop. Qed.

Lemma tagged_oneLine (r : TagRegex) (d gap : string) (q : Z) (rest : string) :
  MovementSpec.oneLine (tag r) = true -> MovementSpec.oneLine (verb r) = true ->
  JsDate.isDate d = true -> MovementSpec.oneLine gap = true ->
  MovementSpec.oneLine rest = true ->
  MovementSpec.oneLine (NoteSpec.tagged r d gap q rest) = true.
Proof.
  intros Ht Hv Hd Hg Hr. destruct (date_text d Hd) as (_ & _ & Ho).
  unfold NoteSpec.tagged.
  rewrite !oneLine_app, Ht, Hv, Ho, Hg, Hr, ofNumber_oneLine. reflexivity.
Qed.

(** A tagged stock-out line with plain text around it. *)
Lemma out_line_written (s e : number) (r : TagRegex) (d gap : string) (q : Z)
    (rest : string) :
  NoteSpec.outKind r -> JsDate.isDate d = true -> 0 <= q ->
  (lazyGap r = false -> gap = EmptyString) ->
  NoteSpec.noClose gap = true -> NoteSpec.plain gap = true ->
  NoteSpec.plain rest = true ->
  let line := NoteSpec.tagged r d gap q rest in
  MovementSpec.oneLine line = true
  /\ truthy (Some line) = true
  /\ NoteSpec.lineOut s e line = NoteSpec.worth s e d q
  /\ MovementSpec.lineIn s e line = (0, 0).
Proof.
  intros K Hd Hq Hl Hc Hg Hr line. subst line.
  destruct (plain_parts _ Hg) as [Gb Go]. destruct (plain_parts _ Hr) as [Rb Ro].
  split.
  { apply tagged_oneLine; try assumption;
      destruct K as [->|[->| ->]]; reflexivity. }
  split; [reflexivity|].
  now apply tagged_out_line.
Qed.

Lemma plain_app (a b : string) :
  NoteSpec.plain (a ++ b) = NoteSpec.plain a && NoteSpec.plain b.
Proof.
  unfold NoteSpec.plain. rewrite noBracket_app, oneLine_app.
  destruct (MovementSpec.noBracket a), (MovementSpec.noBracket b),
    (MovementSpec.oneLine a), (MovementSpec.oneLine b); reflexivity.
Qed.

Lemma hookGenerator_writes (s e : number) (today d : string)
    (g : NotesGenerator) :
  HookNotes.hookGenerator today g d -> JsDate.isDate d = true ->
  NoteSpec.writesOutLines s e d g.
Proof.
  intros H Hd batch q u Hq Hu Hi.
  destruct H as [details Hto Hre|details Hre|voucher common Hv Hvc Hto Hre].
  - set (D := dateOr today (StockReleaseDetails.releaseDate details)) in *.
    set (base := (u ++ " to " ++ dquote ++ StockReleaseDetails.releasedTo details
                  ++ dquote ++ " from batch ID " ++ Batch.id batch ++ ".")%string).
    assert (Pb : NoteSpec.plain base = true).
    { subst base. rewrite !plain_app, Hu, Hto, Hi. reflexivity. }
    unfold releaseOperationNotes. fold D.
    destruct (truthy (StockReleaseDetails.reason details)).
    + replace (_ ++ _)%string
        with (NoteSpec.tagged stockReleaseRegex D EmptyString q
                (base ++ " Reason: "
                 ++ orEmpty (StockReleaseDetails.reason details) ++ "."))
        by (unfold NoteSpec.tagged, base; rewrite ?append_assoc; reflexivity).
      apply out_line_written; auto; [right; left; reflexivity|].
      rewrite !plain_app, Pb, Hre. reflexivity.
    + replace (_ ++ _)%string
        with (NoteSpec.tagged stockReleaseRegex D EmptyString q base)
        by (unfold NoteSpec.tagged, base; rewrite ?append_assoc; reflexivity).
      apply out_line_written; auto. right; left; reflexivity.
  - set (D := dateOr today (StockOutDetails.consumptionDate details)) in *.
    unfold consumptionOperationNotes. fold D.
    replace (_ ++ _)%string
      with (NoteSpec.tagged stockOutRegex D EmptyString q
              (u ++ " from batch ID " ++ Batch.id batch ++ ". Reason: "
               ++ StockOutDetails.reason details ++ "."))
      by (unfold NoteSpec.tagged; rewrite ?append_assoc; reflexivity).
    apply out_line_written; auto; [left; reflexivity|].
    rewrite !plain_app, Hu, Hi, Hre. reflexivity.
  - set (D := dateOr today (BulkReleaseCommonDetails.releaseDate common)) in *.
    set (base := (u ++ " to " ++ dquote
                  ++ BulkReleaseCommonDetails.releasedTo common
                  ++ dquote ++ " from batch ID " ++ Batch.id batch ++ ".")%string).
    assert (Pb : NoteSpec.plain base = true).
    { subst base. rewrite !plain_app, Hu, Hto, Hi. reflexivity. }
    assert (Pg : NoteSpec.plain (" | Voucher: " ++ voucher) = true)
      by (rewrite plain_app, Hv; reflexivity).
    assert (Cg : NoteSpec.noClose (" | Voucher: " ++ voucher) = true)
      by (cbn; exact Hvc).
    unfold releaseOpNotes. fold D.
    destruct (truthy (BulkReleaseCommonDetails.reason common)).
    + replace (_ ++ _)%string
        with (NoteSpec.tagged bulkStockReleaseRegex D (" | Voucher: " ++ voucher)
                q (base ++ " Reason: "
                   ++ orEmpty (BulkReleaseCommonDetails.reason common) ++ "."))
        by (unfold NoteSpec.tagged, base; rewrite ?append_assoc; reflexivity).
      apply out_line_written; auto;
        [right; right; reflexivity|discriminate|].
      rewrite !plain_app, Pb, Hre. reflexivity.
    + replace (_ ++ _)%string
        with (NoteSpec.tagged bulkStockReleaseRegex D (" | Voucher: " ++ voucher)
                q base)
        by (unfold NoteSpec.tagged, base; rewrite ?append_assoc; reflexivity).
      apply out_line_written; auto; [right; right; reflexivity|discriminate].
Qed.

Lemma splitLines_nonempty (s : string) : JsString.splitLines s <> [].
Proof.
  destruct s as [|c s]; simpl; [discriminate|].
  destruct (Ascii.eqb c (ascii_of_nat 10)); [discriminate|].
  destruct (JsString.splitLines s); discriminate.
Qed.

Lemma splitLines_app_newline (a b : string) :
  JsString.splitLines (a ++ JsString.newline ++ b)
  = (JsString.splitLines a ++ JsString.splitLines b)%list.
Proof.
  induction a as [|c a IH].
  - reflexivity.
  - rewrite append_cons_l. cbn [JsString.splitLines].
    destruct (Ascii.eqb c (ascii_of_nat 10)).
    + now rewrite IH.
    + rewrite IH. pose proof (splitLines_nonempty a) as N.
      destruct (JsString.splitLines a); [contradiction|reflexivity].
Qed.

Lemma splitLines_oneLine (s : string) :
  MovementSpec.oneLine s = true -> JsString.splitLines s = [s].
Proof.
  induction s as [|c s IH]; simpl; intros H; [reflexivity|].
  apply andb_prop in H. destruct H as [Hc Hs]. apply negb_true_iff in Hc.
  now rewrite Hc, IH.
Qed.

(** The lines of a batch after a release from it: the lines it had and
    the line of the release. *)
Lemma released_batch_lines (g : NotesGenerator) (u : string) (can : Z)
    (b : Batch.t) :
  let line := g (Batch.withQuantity (Batch.quantity b - can) b) can u in
  MovementSpec.oneLine line = true -> truthy (Some line) = true ->
  MovementSpec.batchLines (releaseFromBatch (Some g) u can b)
  = (MovementSpec.batchLines b ++ [line])%list.
Proof.
  intros line Ho Ht. unfold MovementSpec.batchLines, releaseFromBatch.
  cbn [Batch.notes Batch.withNotes Batch.withQuantity]. fold line.
  destruct (truthy (Batch.notes b)) eqn:T.
  - assert (N : truthy (Some (orEmpty (Batch.notes b) ++ JsString.newline
                              ++ line)%string) = true).
    { destruct (Batch.notes b) as [[|c o]|]; try discriminate T. reflexivity. }
    rewrite N. cbn [orEmpty].
    now rewrite splitLines_app_newline, (splitLines_oneLine line Ho).
  - rewrite Ht. cbn [orEmpty]. now rewrite (splitLines_oneLine line Ho).
Qed.

Lemma mutateFirst_found_Forall {A : Type} (P : A -> Prop) (p : A -> bool)
    (f : A -> A) (l : list A) (x : A) :
  find p l = Some x -> P (f x) -> Forall P l -> Forall P (mutateFirst p f l).
Proof.
  induction l as [|a l IH]; simpl; intros F Hx H; [constructor|].
  inversion H; subst. destruct (p a).
  - apply some_eq in F. subst a. now constructor.
  - constructor; auto.
Qed.

Lemma sumOf_flat_map {A B : Type} (g : B -> Z) (f : A -> list B) (l : list A) :
  sumOf g (flat_map f l) = sumOf (fun x => sumOf g (f x)) l.
Proof.
  induction l as [|x l IH]; simpl; [reflexivity|].
  now rewrite sumOf_app, sumOf_cons, IH.
Qed.

Section ReleaseLines.

Variables s e : number.
Variable d : string.
Variable g : NotesGenerator.
Variable u : string.
Hypothesis g_writes : NoteSpec.writesOutLines s e d g.
Hypothesis u_plain : NoteSpec.plain u = true.

(** The batches that the loop may meet. *)
Let fit (b : Batch.t) : Prop :=
  0 <= Batch.quantity b /\ NoteSpec.plain (Batch.id b) = true.

Lemma releaseLoop_lines (h : Z * Z -> Z) (sorted : list Batch.t) :
  h (0, 0) = 0 ->
  forall batches r,
    Forall fit batches ->
    let out := releaseLoop (Some g) u sorted batches r in
    sumOf (fun b =>
             sumOf (fun x => h (NoteSpec.lineOut s e x))
               (MovementSpec.batchLines b))
      (fst out)
    = sumOf (fun b =>
               sumOf (fun x => h (NoteSpec.lineOut s e x))
                 (MovementSpec.batchLines b))
        batches
      + sumOf (fun a => h (NoteSpec.worth s e d (releasedQuantity a))) (snd out)
    /\ sumOf (fun b =>
                sumOf (fun x => h (MovementSpec.lineIn s e x))
                  (MovementSpec.batchLines b))
         (fst out)
       = sumOf (fun b =>
                  sumOf (fun x => h (MovementSpec.lineIn s e x))
                    (MovementSpec.batchLines b))
           batches.
Proof.
  intros H0. induction sorted as [|b sorted IH]; intros batches r Hf;
    cbn [releaseLoop].
  - cbn [fst snd]. rewrite sumOf_nil. split; lia.
  - destruct (r <=? 0) eqn:Hr; [cbn [fst snd]; rewrite sumOf_nil; split; lia|].
    apply Z.leb_gt in Hr.
    destruct (find (hasBatchId (Batch.id b)) batches) as [orig|] eqn:F;
      [|now apply IH].
    set (can := Z.min (Batch.quantity orig) r).
    assert (Io : In orig batches) by (apply find_some in F; tauto).
    assert (Fo : fit orig) by (rewrite Forall_forall in Hf; now apply Hf).
    destruct Fo as [Qo Po].
    assert (Hcan : 0 <= can) by (unfold can; lia).
    destruct (g_writes (Batch.withQuantity (Batch.quantity orig - can) orig)
                can u Hcan u_plain Po) as (Wo & Wt & Wout & Win).
    pose proof (released_batch_lines g u can orig Wo Wt) as L.
    cbv zeta in L.
    specialize (IH (mutateFirst (hasBatchId (Batch.id b))
                      (releaseFromBatch (Some g) u can) batches)
                   (r - can)).
    destruct (releaseLoop (Some g) u sorted _ (r - can)) as [final affected].
    cbn [fst snd] in *.
    destruct IH as [IH1 IH2].
    { apply (mutateFirst_found_Forall fit _ _ _ orig F); [|exact Hf].
      split; [rewrite releaseFromBatch_quantity; unfold can; lia|].
      now rewrite releaseFromBatch_id. }
    rewrite IH1, IH2, !(mutateFirst_sum _ _ _ _ _ F), L, !sumOf_app,
      !sumOf_cons, !sumOf_nil, Wout, Win, H0.
    cbn [releasedQuantity]. split; lia.
Qed.

End ReleaseLines.

Lemma sumOf_ext {A : Type} (f g : A -> Z) (l : list A) :
  (forall x, f x = g x) -> sumOf f l = sumOf g l.
Proof.
  intros H. induction l as [|x l IH]; [reflexivity|].
  now rewrite !sumOf_cons, IH, H.
Qed.

Lemma sumOf_const {A : Type} (c : Z) (l : list A) :
  sumOf (fun _ => c) l = c * Z.of_nat (List.length l).
Proof.
  induction l as [|x l IH]; [simpl; rewrite sumOf_nil; lia|].
  rewrite sumOf_cons, IH. cbn [List.length]. lia.
Qed.

(** X25. A release is reported: when [recordStockRelease],
    [recordStockOut] or [processBulkStockRelease] hands its notes
    generator to the service, with texts that hold no opening square
    bracket and no line break, the analysis of a period that contains
    the date of the release shows, after the release, the released
    quantity more as stock out, in total and in the row of the item, and
    one more stock-out transaction for every batch that was touched;
    stock in is as before. *)
Theorem release_reported_by_analysis :
  forall (tza : Z) (today startDate endDate d id : string) (q : Z)
         (g : NotesGenerator) (store : Store) (item : StockItem.t),
    HookNotes.hookGenerator today g d ->
    find (hasItemId id) store = Some item ->
    Spec.uniqueIds (StockItem.batches item) ->
    Spec.nonNegative (StockItem.batches item) ->
    0 <= q <= Types.getTotalQuantity item ->
    NoteSpec.plain (StockItem.unit item) = true ->
    Forall (fun b => NoteSpec.plain (Batch.id b) = true) (StockItem.batches item) ->
    JsDate.isDate d = true ->
    JsDate.isDate startDate = true ->
    JsDate.isDate endDate = true ->
    - JsDate.msPerDay < tza < JsDate.msPerDay ->
    Spec.dayOf startDate <= Spec.dayOf d <= Spec.dayOf endDate ->
    exists updated affected store' before after,
      modifyItemBatchesForRelease today id q (Some g) FEFO store
      = (Resolved (updated, affected), store')
      /\ handleAnalyzeStockMovement tza startDate endDate store = Some before
      /\ handleAnalyzeStockMovement tza startDate endDate store' = Some after
      /\ totalStockOutQuantity (overallSummary after)
         = totalStockOutQuantity (overallSummary before) + q
      /\ stockOutTransactions (overallSummary after)
         = stockOutTransactions (overallSummary before)
           + Z.of_nat (List.length affected)
      /\ NoteSpec.reportedOut id after = NoteSpec.reportedOut id before + q
      /\ totalStockInQuantity (overallSummary after)
         = totalStockInQuantity (overallSummary before)
      /\ stockInTransactions (overallSummary after)
         = stockInTransactions (overallSummary before)
      /\ MovementSpec.reportedIn id after = MovementSpec.reportedIn id before.
Proof.
  intros tza today startDate endDate d id q g store item
    G F U NN [Hq Ht] Pu Pi Hd Hs He Hz Hr.
  set (s := dayStart tza startDate). set (e := dayEnd tza endDate).
  pose proof (hookGenerator_writes s e today d g G Hd) as W.
  assert (Ha : q <= totalAvailable FEFO item) by now rewrite totalAvailable_total.
  destruct (release_plan_conserves today id q (Some g) FEFO store item F U Hq Ha)
    as (updated & store' & E & Sq).
  set (affected := Spec.plan (sortedBatches FEFO (StockItem.batches item)) q) in *.
  pose proof (modify_resolved_inv _ _ _ _ _ _ _ _ E) as (item' & Fi & _ & Hu & Hs').
  rewrite F in Fi. apply some_eq in Fi. subst item'.
  apply pair_equal_spec in Hu. destruct Hu as [Hu Haff].
  cbn [fst] in Hs'.
  assert (Hfit : Forall (fun b => 0 <= Batch.quantity b
                                  /\ NoteSpec.plain (Batch.id b) = true)
                   (StockItem.batches item)).
  { unfold Spec.nonNegative in NN. rewrite Forall_forall in *. auto. }
  assert (L : forall h, h (0, 0) = 0 ->
            sumOf (fun x => h (NoteSpec.lineOut s e x))
              (MovementSpec.itemLines updated)
            = sumOf (fun x => h (NoteSpec.lineOut s e x))
                (MovementSpec.itemLines item)
              + sumOf (fun a => h (NoteSpec.worth s e d (releasedQuantity a)))
                  affected
            /\ sumOf (fun x => h (MovementSpec.lineIn s e x))
                 (MovementSpec.itemLines updated)
               = sumOf (fun x => h (MovementSpec.lineIn s e x))
                   (MovementSpec.itemLines item)).
  { intros h H0.
    pose proof (releaseLoop_lines s e d g (StockItem.unit item) W Pu h
                  (sortedBatches FEFO (StockItem.batches item)) H0
                  (StockItem.batches item) q Hfit) as R.
    cbv zeta in R. rewrite <- Haff in R.
    unfold MovementSpec.itemLines. rewrite !sumOf_flat_map.
    rewrite Hu. exact R. }
  assert (Ew : forall a, NoteSpec.worth s e d (releasedQuantity a)
                         = (releasedQuantity a, 1)).
  { intros a. subst s e. now apply worth_in_range. }
  destruct (L fst eq_refl) as [Lo Li]. destruct (L snd eq_refl) as [Co Ci].
  assert (Eid : StockItem.id updated = StockItem.id item)
    by (rewrite Hu; reflexivity).
  destruct (report_after_update tza startDate endDate id store item updated
              0 0 q (Z.of_nat (List.length affected)) Hs He F Eid)
    as (before & after & Eb & Ea & A1 & A2 & A3 & A4 & A5 & A6).
  - fold s e. unfold MovementSpec.itemIn. rewrite Li. lia.
  - fold s e. unfold MovementSpec.itemInCount. rewrite Ci. lia.
  - fold s e. unfold NoteSpec.itemOut. rewrite Lo. f_equal.
    rewrite <- Sq. apply sumOf_ext. intros a. now rewrite Ew.
  - fold s e. unfold NoteSpec.itemOutCount. rewrite Co. f_equal.
    rewrite <- (Z.mul_1_l (Z.of_nat _)), <- sumOf_const.
    apply sumOf_ext. intros a. now rewrite Ew.
  - exists updated, affected, store', before, after.
    split; [exact E|]. split; [exact Eb|]. rewrite Hs'.
    split; [exact Ea|]. repeat split; lia.
Qed.

Lemma release_reported_by_analysis_witness :
  let b1 := Batch.mk "b1" 30 (Some "2025-06-01"%string) None "2025-01-05"
              (Some "[Initial Stock - 2025-01-05]: Added 30 packs."%string) in
  let b2 := Batch.mk "b2" 20 (Some "2025-02-01"%string) None "2025-01-06" None in
  let item :=
    StockItem.mk "A" "Gauze" GENERAL_SUPPLIES "packs" 50 [b1; b2] "2025-01-06"
      None None in
  let details := StockOutDetails.mk 25 "used in theatre" None in
  exists updated affected store' before after,
    modifyItemBatchesForRelease "2025-01-10" "A" 25
      (Some (consumptionOperationNotes "2025-01-10" details)) FEFO [item]
    = (Resolved (updated, affected), store')
    /\ handleAnalyzeStockMovement 3600000 "2025-01-01" "2025-01-31" [item]
       = Some before
    /\ handleAnalyzeStockMovement 3600000 "2025-01-01" "2025-01-31" store'
       = Some after
    /\ totalStockOutQuantity (overallSummary after)
       = totalStockOutQuantity (overallSummary before) + 25
    /\ NoteSpec.reportedOut "A" after = NoteSpec.reportedOut "A" before + 25.
Proof.
  intros b1 b2 item details.
  destruct (release_reported_by_analysis 3600000 "2025-01-10" "2025-01-01"
              "2025-01-31" "2025-01-10" "A" 25
              (consumptionOperationNotes "2025-01-10" details) [item] item
              (HookNotes.ofConsumption "2025-01-10" details eq_refl) eq_refl)
    as (updated & affected & store' & before & after & E & Eb & Ea & O & _ & R & _).
  - unfold Spec.uniqueIds. simpl.
    repeat constructor; simpl; intuition discriminate.
  - repeat constructor; simpl; lia.
  - split; [lia|]. vm_compute. discriminate.
  - reflexivity.
  - repeat constructor.
  - reflexivity.
  - reflexivity.
  - reflexivity.
  - unfold JsDate.msPerDay. lia.
  - vm_compute. split; discriminate.
  - exists updated, affected, store', before, after. auto.
Defined.

(** X26. A bulk addition is reported: for a period that contains the
    day of the addition, the analysis of the storage after a bulk
    addition of a positive quantity to an item that is shown and stored
    shows the quantity more as stock in, in total and in the row of the
    item, and one more stock-in transaction, when the unit and the notes
    of the entry hold no opening square bracket. *)
Theorem bulk_addition_reported_by_analysis :
  forall (tza : Z) (today startDate endDate newBatchId : string)
         (entry : BulkAddItemEntry.t) (h : Hook) (current stored : StockItem.t),
    find (hasItemId (BulkAddItemEntry.itemId entry)) (allItemsState h)
    = Some current ->
    find (hasItemId (BulkAddItemEntry.itemId entry)) (storage h)
    = Some stored ->
    0 < BulkAddItemEntry.quantityAdded entry ->
    JsDate.isDate today = true ->
    JsDate.isDate startDate = true ->
    JsDate.isDate endDate = true ->
    - JsDate.msPerDay < tza < JsDate.msPerDay ->
    Spec.dayOf startDate <= Spec.dayOf today <= Spec.dayOf endDate ->
    MovementSpec.noBracket (StockItem.unit current) = true ->
    MovementSpec.noBracket (orEmpty (BulkAddItemEntry.batchNotes entry)) = true ->
    let out := processBulkAddStock today [(entry, newBatchId)] h in
    exists before after,
      addSuccess (fst out) = true
      /\ handleAnalyzeStockMovement tza startDate endDate (storage h)
         = Some before
      /\ handleAnalyzeStockMovement tza startDate endDate (storage (snd out))
         = Some after
      /\ totalStockInQuantity (overallSummary after)
         = totalStockInQuantity (overallSummary before)
           + BulkAddItemEntry.quantityAdded entry
      /\ stockInTransactions (overallSummary after)
         = stockInTransactions (overallSummary before) + 1
      /\ MovementSpec.reportedIn (BulkAddItemEntry.itemId entry) after
         = MovementSpec.reportedIn (BulkAddItemEntry.itemId entry) before
           + BulkAddItemEntry.quantityAdded entry
      /\ totalStockOutQuantity (overallSummary after)
         = totalStockOutQuantity (overallSummary before)
      /\ stockOutTransactions (overallSummary after)
         = stockOutTransactions (overallSummary before).
Proof.
  intros tza today startDate endDate newBatchId entry h current stored
    F Fs Hq Hd Hs He Ht Hr Hu Hn out.
  destruct (bulk_add_single today newBatchId entry h current stored F Fs Hq)
    as (E & _ & N & _).
  cbv zeta in E, N. subst out. rewrite E. cbn [fst snd storage addSuccess].
  match type of N with
  | Batch.notes ?b = _ => set (newBatch := b) in *
  end.
  assert (N' : Batch.notes newBatch
               = Some (JsString.trim
                         (NoteSpec.tagged bulkStockAddRegex today EmptyString
                            (BulkAddItemEntry.quantityAdded entry)
                            (StockItem.unit current
                             ++ String "."%char
                                  (String " "%char
                                     (orEmpty (BulkAddItemEntry.batchNotes entry))))))).
  { rewrite N. f_equal. f_equal. unfold NoteSpec.tagged.
    rewrite !append_assoc. reflexivity. }
  destruct (added_batch_report tza today startDate endDate
              (BulkAddItemEntry.itemId entry)
              (BulkAddItemEntry.quantityAdded entry) bulkStockAddRegex
              (StockItem.unit current)
              (orEmpty (BulkAddItemEntry.batchNotes entry)) (storage h) stored
              newBatch Hd Hs He Ht Hr Hu Hn
              (or_intror (or_intror eq_refl)) Fs N')
    as (before & after & Eb & Ea & A1 & A2 & A3 & A4 & A5 & A6).
  exists before, after.
  split; [reflexivity|]. split; [exact Eb|]. split; [exact Ea|].
  replace (0 <=? BulkAddItemEntry.quantityAdded entry) with true in *
    by (symmetry; apply Z.leb_le; lia).
  repeat split; lia.
Qed.

Lemma bulk_addition_reported_by_analysis_witness :
  let a := StockItem.mk "A" "Gauze" GENERAL_SUPPLIES "packs" 5
             [Batch.mk "a1" 10 None None "2025-01-05" None] "2025-01-05"
             None None in
  let h := mkHook [a] [a] in
  let entry := BulkAddItemEntry.mk "A" 12 None None (Some "PO 7"%string) in
  let out := processBulkAddStock "2025-01-10" [(entry, "a2"%string)] h in
  exists before after,
    handleAnalyzeStockMovement 0 "2025-01-10" "2025-01-10" [a] = Some before
    /\ handleAnalyzeStockMovement 0 "2025-01-10" "2025-01-10" (storage (snd out))
       = Some after
    /\ totalStockInQuantity (overallSummary after)
       = totalStockInQuantity (overallSummary before) + 12.
Proof.
  intros a h entry.
  destruct (bulk_addition_reported_by_analysis 0 "2025-01-10" "2025-01-10"
              "2025-01-10" "a2" entry h a a eq_refl eq_refl)
    as (before & after & _ & Eb & Ea & T & _).
  - simpl. lia.
  - reflexivity.
  - reflexivity.
  - reflexivity.
  - unfold JsDate.msPerDay. lia.
  - vm_compute. split; discriminate.
  - reflexivity.
  - reflexivity.
  - exists before, after. auto.
Defined.

(** ** The overview of the stock *)

Lemma stockLevel_step (acc : Z * list LowStockInfo.t) (item : StockItem.t) :
  StockOverview.stockLevel acc item
  = (fst acc + (if OverviewSpec.isOut item then 1 else 0),
     (snd acc
      ++ (if OverviewSpec.isLow item then [OverviewSpec.lowRow item] else []))%list).
Proof.
  unfold StockOverview.stockLevel, OverviewSpec.isOut, OverviewSpec.isLow,
    OverviewSpec.lowRow.
  destruct (Types.getTotalQuantity item =? 0);
    destruct ((0 <? Types.getTotalQuantity item)
              && (Types.getTotalQuantity item <=? StockItem.minThreshold item));
    rewrite ?app_nil_r, ?Z.add_0_r; reflexivity.
Qed.

Lemma stockLevel_fold (allItems : list StockItem.t) :
  forall acc,
    fold_left StockOverview.stockLevel allItems acc
    = (fst acc + Z.of_nat (List.length (filter OverviewSpec.isOut allItems)),
       (snd acc ++ map OverviewSpec.lowRow (filter OverviewSpec.isLow allItems))%list).
Proof.
  induction allItems as [|item items IH]; intros acc; cbn [fold_left].
  - destruct acc. simpl. now rewrite Z.add_0_r, app_nil_r.
  - rewrite IH, stockLevel_step. cbn [fst snd filter].
    destruct (OverviewSpec.isOut item); destruct (OverviewSpec.isLow item);
      cbn [List.length map]; rewrite <- ?app_assoc; cbn [app];
      apply pair_equal_spec; split; try reflexivity; lia.
Qed.

(** X27. The overview counts as out of stock the items whose total is
    exactly 0 and lists as low on stock the items whose total is
    positive and not above their threshold, each once, with the
    shortfall to the threshold, which is never negative; an item is
    never in both groups, and an item with a negative total is in
    neither. The total quantity is the sum over all items. *)
Theorem overview_stock_levels :
  forall (localeCompare : string -> string -> Z) (tza now : Z)
         (allItems : list StockItem.t),
    let o := StockOverview.overallInitialAnalysisData localeCompare tza now
               allItems in
    StockOverview.totalUniqueItems o = Z.of_nat (List.length allItems)
    /\ StockOverview.totalQuantityAllItems o
       = sumOf Types.getTotalQuantity allItems
    /\ StockOverview.outOfStockItemsCount o
       = Z.of_nat (List.length (filter OverviewSpec.isOut allItems))
    /\ Permutation (StockOverview.lowStockItems o)
         (map OverviewSpec.lowRow (filter OverviewSpec.isLow allItems))
    /\ Forall (fun row =>
                 0 < LowStockInfo.currentQuantity row
                     <= LowStockInfo.minThreshold row
                 /\ LowStockInfo.difference row
                    = LowStockInfo.minThreshold row
                      - LowStockInfo.currentQuantity row
                 /\ 0 <= LowStockInfo.difference row)
         (StockOverview.lowStockItems o)
    /\ (forall item,
           (OverviewSpec.isOut item = true -> OverviewSpec.isLow item = false)
           /\ (Types.getTotalQuantity item < 0 ->
               OverviewSpec.isOut item = false
               /\ OverviewSpec.isLow item = false)).
Proof.
  intros localeCompare tza now allItems o.
  assert (P : Permutation (StockOverview.lowStockItems o)
                (map OverviewSpec.lowRow (filter OverviewSpec.isLow allItems))).
  { subst o. unfold StockOverview.overallInitialAnalysisData.
    destruct allItems as [|i items]; [constructor|].
    cbn [StockOverview.lowStockItems]. rewrite stockLevel_fold.
    cbn [snd app]. apply sort_perm. }
  split; [|split; [|split; [|split; [exact P|split]]]].
  - subst o. now destruct allItems.
  - subst o. now destruct allItems.
  - subst o. unfold StockOverview.overallInitialAnalysisData.
    destruct allItems as [|i items]; [reflexivity|].
    cbn [StockOverview.outOfStockItemsCount]. rewrite stockLevel_fold.
    reflexivity.
  - rewrite Forall_forall. intros row I.
    apply (Permutation_in _ P) in I. apply in_map_iff in I.
    destruct I as (item & <- & I). apply filter_In in I. destruct I as [_ L].
    unfold OverviewSpec.isLow in L. apply andb_prop in L. destruct L as [L1 L2].
    apply Z.ltb_lt in L1. apply Z.leb_le in L2. simpl. lia.
  - intros item. unfold OverviewSpec.isOut, OverviewSpec.isLow. split.
    + intros H. apply Z.eqb_eq in H. rewrite H. reflexivity.
    + intros H. split.
      * apply Z.eqb_neq. lia.
      * apply andb_false_iff. left. apply Z.ltb_ge. lia.
Qed.

Lemma overview_stock_levels_witness :
  let a := StockItem.mk "A" "Gauze" GENERAL_SUPPLIES "packs" 50
             [Batch.mk "a1" 20 None None "2025-01-05" None] "2025-01-05"
             None None in
  let b := StockItem.mk "B" "Blades" OPERATION_THEATRE "box" 5
             [Batch.mk "b1" 0 None None "2025-01-05" None] "2025-01-05"
             None None in
  let c := StockItem.mk "C" "Masks" CONSUMABLES "box" 5
             [Batch.mk "c1" (-3) None None "2025-01-05" None] "2025-01-05"
             None None in
  let o := StockOverview.overallInitialAnalysisData (fun _ _ => 0) 0 0 [a; b; c] in
  StockOverview.outOfStockItemsCount o = 1
  /\ map LowStockInfo.id (StockOverview.lowStockItems o) = ["A"%string]
  /\ OverviewSpec.isOut c = false /\ OverviewSpec.isLow c = false.
Proof.
  intros a b c o.
  destruct (overview_stock_levels (fun _ _ => 0) 0 0 [a; b; c])
    as (_ & _ & C & _ & _ & N).
  split; [exact C|]. split; [reflexivity|].
  apply (proj2 (N c)). vm_compute. reflexivity.
Defined.

Lemma dated_getTime (batch : Batch.t) :
  Spec.datedBatch batch = true -> OverviewSpec.dated batch = true ->
  JsDate.getTime (orEmpty (Batch.expiryDate batch))
  = Some (OverviewSpec.expiryOf batch)
  /\ exists e, Batch.expiryDate batch = Some e /\ JsDate.isDate e = true.
Proof.
  unfold Spec.datedBatch, OverviewSpec.dated, OverviewSpec.expiryOf.
  intros D H. apply andb_prop in D. destruct D as [_ D].
  apply andb_prop in H. destruct H as [_ T].
  destruct (Batch.expiryDate batch) as [e|]; [|discriminate T].
  split; [now apply isDate_getTime|]. eauto.
Qed.

Lemma expiryLevel_step (tza now : Z) (item : StockItem.t)
    (acc : list BatchInfo.t * list BatchInfo.t) (batch : Batch.t) :
  Spec.datedBatch batch = true ->
  StockOverview.expiryLevel (OverviewSpec.todayStart tza now)
    (OverviewSpec.windowEnd tza now) item acc batch
  = ((fst acc
      ++ (if OverviewSpec.isSoon tza now batch
          then [StockOverview.batchInfo item batch] else []))%list,
     (snd acc
      ++ (if OverviewSpec.isExpired tza now batch
          then [StockOverview.batchInfo item batch] else []))%list).
Proof.
  intros D. unfold StockOverview.expiryLevel, OverviewSpec.isSoon,
    OverviewSpec.isExpired.
  fold (OverviewSpec.dated batch).
  destruct (OverviewSpec.dated batch) eqn:H; cbn [andb];
    [|rewrite !app_nil_r; now destruct acc].
  destruct (dated_getTime batch D H) as [G _]. rewrite G.
  unfold StockOverview.ltb, leb, geb.
  destruct (Z.ltb_spec (OverviewSpec.expiryOf batch)
              (OverviewSpec.todayStart tza now)) as [L|L].
  - replace (OverviewSpec.todayStart tza now <=? OverviewSpec.expiryOf batch)
      with false by (symmetry; apply Z.leb_gt; lia).
    cbn [andb]. now rewrite app_nil_r.
  - destruct ((OverviewSpec.todayStart tza now <=? OverviewSpec.expiryOf batch)
              && (OverviewSpec.expiryOf batch <=? OverviewSpec.windowEnd tza now));
      rewrite ?app_nil_r; now destruct acc.
Qed.

Lemma expiryLevel_batches (tza now : Z) (item : StockItem.t)
    (batches : list Batch.t) :
  forallb Spec.datedBatch batches = true ->
  forall acc,
    fold_left
      (StockOverview.expiryLevel (OverviewSpec.todayStart tza now)
         (OverviewSpec.windowEnd tza now) item)
      batches acc
    = ((fst acc
        ++ map (StockOverview.batchInfo item)
             (filter (OverviewSpec.isSoon tza now) batches))%list,
       (snd acc
        ++ map (StockOverview.batchInfo item)
             (filter (OverviewSpec.isExpired tza now) batches))%list).
Proof.
  induction batches as [|b batches IH]; intros D acc; cbn [fold_left filter].
  - cbn [map]. rewrite !app_nil_r. now destruct acc.
  - cbn [forallb] in D. apply andb_prop in D. destruct D as [Db D].
    rewrite (IH D), (expiryLevel_step tza now item acc b Db). cbn [fst snd].
    destruct (OverviewSpec.isSoon tza now b);
      destruct (OverviewSpec.isExpired tza now b);
      cbn [map]; rewrite <- ?app_assoc; cbn [app]; rewrite ?app_nil_r;
      reflexivity.
Qed.

Lemma expiryLevel_items (tza now : Z) (allItems : list StockItem.t) :
  OverviewSpec.allDated allItems ->
  forall acc,
    fold_left
      (fun acc item =>
         fold_left
           (StockOverview.expiryLevel (OverviewSpec.todayStart tza now)
              (OverviewSpec.windowEnd tza now) item)
           (StockItem.batches item) acc)
      allItems acc
    = ((fst acc
        ++ OverviewSpec.rowsWhere (OverviewSpec.isSoon tza now) allItems)%list,
       (snd acc
        ++ OverviewSpec.rowsWhere (OverviewSpec.isExpired tza now) allItems)%list).
Proof.
  unfold OverviewSpec.allDated, OverviewSpec.rowsWhere.
  induction allItems as [|item items IH]; intros D acc; cbn [fold_left flat_map].
  - rewrite !app_nil_r. now destruct acc.
  - inversion D; subst.
    rewrite (IH H2), (expiryLevel_batches tza now item _ H1). cbn [fst snd].
    now rewrite <- !app_assoc.
Qed.

Lemma overview_lists (localeCompare : string -> string -> Z) (tza now : Z)
    (allItems : list StockItem.t) :
  OverviewSpec.allDated allItems ->
  let o := StockOverview.overallInitialAnalysisData localeCompare tza now
             allItems in
  StockOverview.soonExpiringBatches o
  = sort StockOverview.byExpiry
      (OverviewSpec.rowsWhere (OverviewSpec.isSoon tza now) allItems)
  /\ StockOverview.expiredBatches o
     = sort StockOverview.byExpiry
         (OverviewSpec.rowsWhere (OverviewSpec.isExpired tza now) allItems).
Proof.
  intros D o. subst o. unfold StockOverview.overallInitialAnalysisData.
  destruct allItems as [|i items]; [split; reflexivity|].
  cbn [StockOverview.soonExpiringBatches StockOverview.expiredBatches].
  fold (OverviewSpec.todayStart tza now).
  fold (OverviewSpec.windowEnd tza now).
  rewrite (expiryLevel_items tza now (i :: items) D). split; reflexivity.
Qed.

Lemma rowsWhere_In (cond : Batch.t -> bool) (allItems : list StockItem.t)
    (row : BatchInfo.t) :
  In row (OverviewSpec.rowsWhere cond allItems)
  <-> exists item batch,
        In item allItems /\ In batch (StockItem.batches item)
        /\ cond batch = true /\ row = StockOverview.batchInfo item batch.
Proof.
  unfold OverviewSpec.rowsWhere. rewrite in_flat_map. split.
  - intros (item & Ii & I). apply in_map_iff in I.
    destruct I as (batch & E & Ib). apply filter_In in Ib.
    exists item, batch. intuition.
  - intros (item & batch & Ii & Ib & C & E). exists item. split; [exact Ii|].
    apply in_map_iff. exists batch. split; [now symmetry|].
    apply filter_In. tauto.
Qed.




Lemma row_conditions (tza now : Z) (i1 i2 : StockItem.t) (b1 b2 : Batch.t) :
  StockOverview.batchInfo i1 b1 = StockOverview.batchInfo i2 b2 ->
  OverviewSpec.isSoon tza now b1 = OverviewSpec.isSoon tza now b2
  /\ OverviewSpec.isExpired tza now b1 = OverviewSpec.isExpired tza now b2.
Proof.
  intros E.
  assert (Q : Batch.quantity b1 = Batch.quantity b2)
    by exact (f_equal BatchInfo.quantity E).
  assert (X : Batch.expiryDate b1 = Batch.expiryDate b2)
    by exact (f_equal BatchInfo.expiryDate E).
  unfold OverviewSpec.isSoon, OverviewSpec.isExpired, OverviewSpec.dated,
    OverviewSpec.expiryOf.
  rewrite Q, X. split; reflexivity.
Qed.

Lemma row_listed (cond : Batch.t -> bool) (allItems : list StockItem.t)
    (item : StockItem.t) (batch : Batch.t) :
  (forall i2 b2, StockOverview.batchInfo item batch = StockOverview.batchInfo i2 b2 ->
                 cond batch = cond b2) ->
  In item allItems -> In batch (StockItem.batches item) ->
  (In (StockOverview.batchInfo item batch) (OverviewSpec.rowsWhere cond allItems)
   <-> cond batch = true).
Proof.
  intros C Ii Ib. rewrite rowsWhere_In. split.
  - intros (i2 & b2 & _ & _ & C2 & E). now rewrite (C i2 b2 E).
  - intros H. exists item, batch. auto.
Qed.

(** X29. Where the overview draws the line depends on the time zone.
    A batch with stock whose expiry date is the current local date is
    listed as expired when the local time is behind UTC, and as expiring
    soon otherwise, although on that date [getSoonestExpiryDate] counts
    the batch as active in both cases. *)
Theorem expiry_on_the_current_local_date :
  forall (localeCompare : string -> string -> Z) (tza now : Z)
         (allItems : list StockItem.t) (item : StockItem.t) (batch : Batch.t)
         (e : string),
    OverviewSpec.allDated allItems ->
    - JsDate.msPerDay < tza < JsDate.msPerDay ->
    In item allItems ->
    In batch (StockItem.batches item) ->
    0 < Batch.quantity batch ->
    Batch.expiryDate batch = Some e ->
    Spec.dayOf e = OverviewSpec.localDay tza now * JsDate.msPerDay ->
    let o := StockOverview.overallInitialAnalysisData localeCompare tza now
               allItems in
    let row := StockOverview.batchInfo item batch in
    (tza < 0 ->
     In row (StockOverview.expiredBatches o)
     /\ ~ In row (StockOverview.soonExpiringBatches o))
    /\ (0 <= tza ->
        In row (StockOverview.soonExpiringBatches o)
        /\ ~ In row (StockOverview.expiredBatches o))
    /\ Types.isActiveBatch e batch = true.
Proof.
  intros localeCompare tza now allItems item batch e D Ht Ii Ib Hq He Hday o row.
  destruct (overview_lists localeCompare tza now allItems D) as [Es Ee].
  fold o in Es, Ee.
  assert (De : JsDate.isDate e = true).
  { unfold OverviewSpec.allDated in D. rewrite Forall_forall in D.
    specialize (D item Ii). rewrite forallb_forall in D.
    specialize (D batch Ib). unfold Spec.datedBatch in D.
    apply andb_prop in D. destruct D as [_ D]. now rewrite He in D. }
  assert (Hd : OverviewSpec.dated batch = true).
  { unfold OverviewSpec.dated. rewrite He, (isDate_truthy _ De).
    apply andb_true_iff. split; [now apply Z.ltb_lt|reflexivity]. }
  assert (Hx : OverviewSpec.expiryOf batch
               = OverviewSpec.localDay tza now * JsDate.msPerDay).
  { unfold OverviewSpec.expiryOf. now rewrite He. }
  assert (Hs : OverviewSpec.todayStart tza now
               = OverviewSpec.localDay tza now * JsDate.msPerDay - tza).
  { unfold OverviewSpec.todayStart, JsDate.setHours, OverviewSpec.localDay. lia. }
  assert (Le : In row (StockOverview.expiredBatches o)
               <-> OverviewSpec.isExpired tza now batch = true).
  { rewrite Ee. split.
    - intros I. apply (Permutation_in _ (sort_perm _ _)) in I.
      apply row_listed in I; auto.
      intros i2 b2 E. exact (proj2 (row_conditions tza now _ _ _ _ E)).
    - intros C. apply (Permutation_in _ (Permutation_sym (sort_perm _ _))).
      apply row_listed; auto.
      intros i2 b2 E. exact (proj2 (row_conditions tza now _ _ _ _ E)). }
  assert (Ls : In row (StockOverview.soonExpiringBatches o)
               <-> OverviewSpec.isSoon tza now batch = true).
  { rewrite Es. split.
    - intros I. apply (Permutation_in _ (sort_perm _ _)) in I.
      apply row_listed in I; auto.
      intros i2 b2 E. exact (proj1 (row_conditions tza now _ _ _ _ E)).
    - intros C. apply (Permutation_in _ (Permutation_sym (sort_perm _ _))).
      apply row_listed; auto.
      intros i2 b2 E. exact (proj1 (row_conditions tza now _ _ _ _ E)). }
  rewrite Le, Ls.
  unfold OverviewSpec.isExpired, OverviewSpec.isSoon, OverviewSpec.windowEnd.
  rewrite Hd, Hx, Hs. cbn [andb]. unfold JsDate.msPerDay in *.
  split; [|split].
  - intros N. split.
    + apply Z.ltb_lt. lia.
    + intros H. apply andb_prop in H. destruct H as [H _].
      apply Z.leb_le in H. lia.
  - intros N. split.
    + apply andb_true_iff. split; apply Z.leb_le; lia.
    + intros H. apply Z.ltb_lt in H. lia.
  - unfold Types.isActiveBatch, Types.strGeb.
    rewrite He, (isDate_truthy _ De). cbn [orEmpty].
    replace (0 <? Batch.quantity batch) with true
      by (symmetry; now apply Z.ltb_lt).
    cbn [andb]. apply (date_leb_iff e e De De). lia.
Qed.

Lemma expiry_on_the_current_local_date_witness :
  let batch :=
    Batch.mk "a1" 20 (Some "2025-01-10"%string) None "2025-01-05" None in
  let a := StockItem.mk "A" "Gauze" GENERAL_SUPPLIES "packs" 50 [batch]
             "2025-01-05" None None in
  let noon := Spec.dayOf "2025-01-10" + 43200000 in
  let west :=
    StockOverview.overallInitialAnalysisData (fun _ _ => 0) (-18000000)
      (noon + 18000000) [a] in
  let east :=
    StockOverview.overallInitialAnalysisData (fun _ _ => 0) 3600000
      (noon - 3600000) [a] in
  In (StockOverview.batchInfo a batch) (StockOverview.expiredBatches west)
  /\ In (StockOverview.batchInfo a batch) (StockOverview.soonExpiringBatches east)
  /\ Types.isActiveBatch "2025-01-10" batch = true.
Proof.
  intros batch a noon west east.
  assert (D : OverviewSpec.allDated [a]) by (repeat constructor).
  assert (Ia : In a [a]) by (left; reflexivity).
  assert (Ib : In batch (StockItem.batches a)) by (left; reflexivity).
  assert (Hq : 0 < Batch.quantity batch) by (simpl; lia).
  assert (Tw : - JsDate.msPerDay < -18000000 < JsDate.msPerDay)
    by (unfold JsDate.msPerDay; lia).
  assert (Te : - JsDate.msPerDay < 3600000 < JsDate.msPerDay)
    by (unfold JsDate.msPerDay; lia).
  destruct (expiry_on_the_current_local_date (fun _ _ => 0) (-18000000)
              (noon + 18000000) [a] a batch "2025-01-10" D Tw Ia Ib Hq
              eq_refl eq_refl)
    as (W & _ & A).
  destruct (expiry_on_the_current_local_date (fun _ _ => 0) 3600000
              (noon - 3600000) [a] a batch "2025-01-10" D Te Ia Ib Hq
              eq_refl eq_refl)
    as (_ & E & _).
  split; [apply W; lia|]. split; [apply E; lia|exact A].
Defined.

(** ** Soonest expiry across a release *)

Lemma Forall2_In_r {A : Type} (R : A -> A -> Prop) (l l' : list A) (y : A) :
  Forall2 R l l' -> In y l' -> exists x, In x l /\ R x y.
Proof.
  induction 1 as [|x y' l l' Hxy H IH]; simpl; [tauto|].
  intros [E|I].
  - subst y'. exists x. auto.
  - destruct (IH I) as (x' & Ix & Rx). exists x'. auto.
Qed.

Lemma soonest_is_least (today : string) (item : StockItem.t) :
  JsDate.isDate today = true ->
  forallb Spec.datedBatch (StockItem.batches item) = true ->
  let active :=
    map (fun batch => orEmpty (Batch.expiryDate batch))
      (filter (Types.isActiveBatch today) (StockItem.batches item)) in
  match Types.getSoonestExpiryDate today item with
  | Some d => In d active /\ forall x, In x active -> Spec.dayOf d <= Spec.dayOf x
  | None => active = []
  end.
Proof.
  intros Ht D active. unfold Types.getSoonestExpiryDate. fold active.
  assert (V : Forall (fun d => JsDate.isDate d = true) active).
  { rewrite Forall_forall. intros d I.
    apply (active_expiries today _ d Ht D) in I.
    destruct I as (b & Ib & _ & E & _).
    rewrite forallb_forall in D. specialize (D b Ib).
    unfold Spec.datedBatch in D. apply andb_prop in D. destruct D as [_ D].
    now rewrite E in D. }
  pose proof (active_expiries_sorted active V) as S.
  pose proof (sort_perm Types.expiryCompare active) as P.
  destruct (sort Types.expiryCompare active) as [|d rest].
  - simpl. now apply Permutation_nil in P.
  - simpl. split.
    + apply (Permutation_in _ P). now left.
    + intros x Ix. apply (Permutation_in _ (Permutation_sym P)) in Ix.
      destruct Ix as [<-|Ix]; [lia|].
      inversion S; subst. rewrite Forall_forall in H2. now apply H2.
Qed.

(** X30. A release never brings the soonest expiry date of an item
    forward: after it the item has no active batch that it did not have
    before, so the date is the same or a later one, or there is none
    left; an item without soonest expiry date has none afterwards. *)
Theorem release_never_advances_soonest_expiry :
  forall (today releaseDay id : string) (q : Z) (gen : option NotesGenerator)
         (strategy : ReleaseStrategy) (store store' : Store)
         (item updated : StockItem.t) (affected : list Affected),
    JsDate.isDate today = true ->
    find (hasItemId id) store = Some item ->
    forallb Spec.datedBatch (StockItem.batches item) = true ->
    Spec.nonNegative (StockItem.batches item) ->
    modifyItemBatchesForRelease releaseDay id q gen strategy store
    = (Resolved (updated, affected), store') ->
    match Types.getSoonestExpiryDate today item,
          Types.getSoonestExpiryDate today updated with
    | Some d, Some d' => Spec.dayOf d <= Spec.dayOf d'
    | Some _, None => True
    | None, Some _ => False
    | None, None => True
    end.
Proof.
  intros today releaseDay id q gen strategy store store' item updated affected
    Ht F D NN E.
  apply modify_resolved_inv in E. destruct E as (item' & F' & _ & Hr & _).
  rewrite F in F'. apply some_eq in F'. subst item'.
  apply pair_equal_spec in Hr. destruct Hr as [Hu _].
  pose proof (releaseLoop_releasedFrom gen (StockItem.unit item)
                (sortedBatches strategy (StockItem.batches item))
                (StockItem.batches item) q) as R.
  assert (B : StockItem.batches updated
              = fst (releaseLoop gen (StockItem.unit item)
                       (sortedBatches strategy (StockItem.batches item))
                       (StockItem.batches item) q))
    by (rewrite Hu; reflexivity).
  rewrite <- B in R.
  assert (D' : forallb Spec.datedBatch (StockItem.batches updated) = true).
  { rewrite forallb_forall in *. intros b' I.
    destruct (Forall2_In_r _ _ _ _ R I) as (b & Ib & (_ & Ee & _ & Ea) & _).
    specialize (D b Ib). unfold Spec.datedBatch in *. now rewrite Ee, Ea. }
  assert (Sub : forall x,
            In x (map (fun batch => orEmpty (Batch.expiryDate batch))
                    (filter (Types.isActiveBatch today)
                       (StockItem.batches updated))) ->
            In x (map (fun batch => orEmpty (Batch.expiryDate batch))
                    (filter (Types.isActiveBatch today) (StockItem.batches item)))).
  { intros x I. apply in_map_iff in I. destruct I as (b' & Ex & I).
    apply filter_In in I. destruct I as [I A].
    destruct (Forall2_In_r _ _ _ _ R I) as (b & Ib & (_ & Ee & _) & Q & _).
    apply in_map_iff. exists b. split; [now rewrite <- Ee|].
    apply filter_In. split; [exact Ib|].
    unfold Spec.nonNegative in NN. rewrite Forall_forall in NN.
    specialize (Q (NN b Ib)).
    unfold Types.isActiveBatch in *. rewrite Ee in A.
    apply andb_prop in A. destruct A as [A A3].
    apply andb_prop in A. destruct A as [A1 A2]. apply Z.ltb_lt in A1.
    rewrite A2, A3.
    replace (0 <? Batch.quantity b) with true by (symmetry; apply Z.ltb_lt; lia).
    reflexivity. }
  pose proof (soonest_is_least today item Ht D) as S.
  pose proof (soonest_is_least today updated Ht D') as S'.
  cbv zeta in S, S'.
  destruct (Types.getSoonestExpiryDate today item) as [d|];
    destruct (Types.getSoonestExpiryDate today updated) as [d'|]; auto.
  - destruct S as [_ S]. destruct S' as [I' _]. apply S. now apply Sub.
  - destruct S' as [I' _]. apply Sub in I'. rewrite S in I'. contradiction.
Qed.

Lemma release_never_advances_soonest_expiry_witness :
  let b1 := Batch.mk "b1" 30 (Some "2025-06-01"%string) None "2025-01-05" None in
  let b2 := Batch.mk "b2" 20 (Some "2025-02-01"%string) None "2025-01-06" None in
  let item :=
    StockItem.mk "A" "Gauze" GENERAL_SUPPLIES "packs" 50 [b1; b2] "2025-01-06"
      None None in
  exists updated affected store',
    modifyItemBatchesForRelease "2025-01-10" "A" 20 None FEFO [item]
    = (Resolved (updated, affected), store')
    /\ Types.getSoonestExpiryDate "2025-01-10" item = Some "2025-02-01"%string
    /\ Types.getSoonestExpiryDate "2025-01-10" updated = Some "2025-06-01"%string
    /\ Spec.dayOf "2025-02-01" <= Spec.dayOf "2025-06-01".
Proof.
  intros b1 b2 item.
  destruct (modifyItemBatchesForRelease "2025-01-10" "A" 20 None FEFO [item])
    as [[[updated affected]|err] store'] eqn:E; [|discriminate E].
  assert (NN : Spec.nonNegative (StockItem.batches item)).
  { repeat constructor; simpl; lia. }
  pose proof (release_never_advances_soonest_expiry "2025-01-10" "2025-01-10"
                "A" 20 None FEFO [item] store' item updated affected
                eq_refl eq_refl eq_refl NN E) as M.
  exists updated, affected, store'. split; [reflexivity|].
  vm_compute in E. apply pair_equal_spec in E. destruct E as [E _].
  apply resolved_inj in E. apply pair_equal_spec in E. destruct E as [E _].
  subst updated.
  split; [reflexivity|]. split; [reflexivity|]. exact M.
Defined.
